(** * Supply-chain data integration: inventory simulator and metrics engine

    A shallow embedding of
      - [data_extraction/api_connector.py]   (class [ExternalAPIHandler]),
      - [ingestion/api_ingestor.py]          (its sibling of the same name),
      - [data_processing/supply_chain_metrics.py] (class [LogisticsAnalytics]).

    Conventions of the embedding.
      - Python [int] is [Z].  Python and numpy [float] values are idealised as
        exact rationals [Q]; the two non-numbers that the code can produce,
        [inf] and [nan], are explicit constructors of [pyfloat].
      - The ambient [random] module is an explicit entropy tape with a
        cursor; every call consumes one cell.
      - A function whose body sits in [try: ... except Exception: return None]
        returns [option]: [None] is the Python [None] handed to the caller
        after the handler has logged the error.
      - The constants imported from the [config] / [settings] module are not
        part of the sources; they are parameters of the model. *)

From Stdlib Require Import ZArith QArith Qminmax Qround List String Bool.
From Stdlib Require Import Lia Lqa Sorted.
Import ListNotations.

Local Open Scope Z_scope.

(** ** Python numerics *)

(** [int(x)] on a float: truncation toward zero. *)
Definition py_int (x : Q) : Z := Z.quot (Qnum x) (Zpos (Qden x)).

(** A float as numpy stores it in a column. *)
Inductive pyfloat : Type :=
| Fin (q : Q)
| PosInf
| NaN.

(** [x < y] on floats, for a finite right operand. *)
Definition pyfloat_ltb (x : pyfloat) (y : Q) : bool :=
  match x with
  | Fin q => negb (Qle_bool y q)
  | PosInf => false
  | NaN => false
  end.

(** [x <= y] on floats: false as soon as one side is [nan]. *)
Definition pyfloat_le (x y : pyfloat) : Prop :=
  match x, y with
  | Fin a, Fin b => (a <= b)%Q
  | Fin _, PosInf => True
  | PosInf, PosInf => True
  | _, _ => False
  end.

(** ** The [random] module *)

Record Rng : Type := mkRng { tape : nat -> Z; cursor : nat }.

Definition rng_next (r : Rng) : Z * Rng :=
  (tape r (cursor r), mkRng (tape r) (S (cursor r))).

(** ** Computations that draw random numbers and may raise *)

Definition M (A : Type) : Type := Rng -> option (A * Rng).

Definition ret {A} (a : A) : M A := fun r => Some (a, r).

Definition raise {A} : M A := fun _ => None.

Definition bind {A B} (c : M A) (k : A -> M B) : M B :=
  fun r => match c r with
           | Some (a, r') => k a r'
           | None => None
           end.

Declare Scope sim_scope.
Delimit Scope sim_scope with sim.
Notation "x <- c ;; k" := (bind c (fun x => k))
  (at level 61, c at next level, right associativity) : sim_scope.
Notation "' pat <- c ;; k" := (bind c (fun x => match x with pat => k end))
  (at level 61, pat pattern, c at next level, right associativity) : sim_scope.

(** [for x in xs: s = body(x, s)] *)
Fixpoint for_each {A S} (xs : list A) (body : A -> S -> M S) (s : S) : M S :=
  match xs with
  | [] => ret s
  | x :: xs' => bind (body x s) (for_each xs' body)
  end.

(** [random.randint(a, b)]: an integer of [a..b], both ends included. *)
Definition randint (a b : Z) : M Z :=
  fun r => let (x, r') := rng_next r in Some (a + x mod (b - a + 1), r').

(** [random.random()]: a multiple of 2^-53 in [0, 1). *)
Definition random : M Q :=
  fun r => let (x, r') := rng_next r in
           Some (Qmake (x mod 2 ^ 53) (2 ^ 53), r').

(** [random.uniform(a, b)] is [a + (b - a) * random()]. *)
Definition uniform (a b : Q) : M Q :=
  bind random (fun u => ret (a + (b - a) * u)%Q).

(** [x % y] on integers; [ZeroDivisionError] when [y] is zero. *)
Definition py_mod (x y : Z) : M Z :=
  if y =? 0 then raise else ret (x mod y).

(** [x / y] on Python floats; [ZeroDivisionError] when [y] is zero. *)
Definition py_truediv (x y : Q) : M Q :=
  if Qeq_bool y 0 then raise else ret (x / y)%Q.

(** [datetime.now() - timedelta(days=n)], on proleptic ordinals (day 1 is
    0001-01-01, the last day is 9999-12-31); [OverflowError] outside them. *)
Definition MAXORDINAL : Z := 3652059.

Definition datetime_sub (today n : Z) : M Z :=
  if (1 <=? today - n) && (today - n <=? MAXORDINAL)
  then ret (today - n) else raise.

(** [range(n)] *)
Definition range (n : Z) : list Z := map Z.of_nat (seq 0 (Z.to_nat n)).

(** ** Data model *)

(** A row of the product catalogue, as [iterrows] hands it to the loop. *)
Record Product : Type := mkProduct {
  id : Z;
  title : string;
  p_category : string;
  p_price : Q
}.

(** The dictionary appended to [inventory_records].  [date] is the offset in
    days from [simulation_start]. *)
Record InventoryRecord : Type := mkInventoryRecord {
  date : Z;
  product_id : Z;
  product_name : string;
  category : string;
  daily_demand : Z;
  stock_level : Z;
  restock_amount : Z;
  restocked : bool;
  price : Q;
  original_price : Q;
  price_change_pct : Q
}.

(** A row once [_append_inventory_metrics] has added its four columns. *)
Record EnrichedRecord : Type := mkEnrichedRecord {
  source : InventoryRecord;
  days_of_inventory : pyfloat;
  stockout_risk : bool;
  annualized_turnover : Q;
  fill_rate : Q
}.

(** A pandas frame: its column labels and its rows. *)
Record DataFrame (R : Type) : Type := mkDataFrame {
  columns : list string;
  rows : list R
}.
Arguments mkDataFrame {R} _ _.
Arguments columns {R} _.
Arguments rows {R} _.

Definition has_column {R} (df : DataFrame R) (c : string) : bool :=
  existsb (String.eqb c) (columns df).

(** [df[c] = ...] keeps the labels when [c] is one of them and appends [c]
    otherwise. *)
Definition set_column (cols : list string) (c : string) : list string :=
  if existsb (String.eqb c) cols then cols else cols ++ [c].

Definition record_keys : list string :=
  ["date"; "product_id"; "product_name"; "category"; "daily_demand";
   "stock_level"; "restock_amount"; "restocked"; "price"; "original_price";
   "price_change_pct"]%string.

(** [pd.DataFrame(inventory_records)]: the labels are the keys of the
    dictionaries, so an empty list gives a frame without any column. *)
Definition DataFrame_of_records (rs : list InventoryRecord)
  : DataFrame InventoryRecord :=
  mkDataFrame (match rs with [] => [] | _ :: _ => record_keys end) rs.

(** ** [_append_inventory_metrics] (the same text in both modules) *)

Definition Qdiv_Z (a b : Z) : Q := (inject_Z a / inject_Z b)%Q.

Definition enrich (r : InventoryRecord) : EnrichedRecord :=
  let doi := if 0 <? daily_demand r
             then Fin (Qdiv_Z (stock_level r) (daily_demand r))
             else PosInf in
  mkEnrichedRecord r
    doi
    (pyfloat_ltb doi 3)
    (if 0 <? stock_level r
     then Qdiv_Z (daily_demand r * 365) (stock_level r) else 0%Q)
    (if 0 <? daily_demand r
     then Qmin 1 (Qdiv_Z (stock_level r) (daily_demand r)) else 1%Q).

(** [df['daily_demand']] and [df['stock_level']] raise [KeyError] on a frame
    that lacks the column. *)
Definition _append_inventory_metrics (df : DataFrame InventoryRecord)
  : option (DataFrame EnrichedRecord) :=
  if has_column df "daily_demand" && has_column df "stock_level" then
    Some (mkDataFrame
            (set_column (set_column (set_column (set_column (columns df)
               "days_of_inventory") "stockout_risk") "annualized_turnover")
               "fill_rate")
            (map enrich (rows df)))
  else None.

(** ** [data_extraction/api_connector.py] *)

Module ApiConnector.
Section Simulator.

(** Imported from [config]. *)
Variable RESTOCKING_FREQUENCY : Z.
Variable DEMAND_VARIABILITY : Q.

(** The ordinal of the day on which the simulation runs. *)
Variable today : Z.

Local Open Scope sim_scope.

(** The first record already appended for the product and dated the day
    before [day]. *)
Definition prev_entry (inventory_records : list InventoryRecord)
    (item : Product) (day : Z) : option InventoryRecord :=
  find (fun r => (product_id r =? id item) && (date r =? day - 1))
       inventory_records.

(** Body of the inner loop: one product on one day. *)
Definition simulate_item (day : Z) (item : Product)
    (inventory_records : list InventoryRecord) : M (list InventoryRecord) :=
  base_demand <- randint 1 10 ;;
  noise <- uniform (1 - DEMAND_VARIABILITY) (1 + DEMAND_VARIABILITY) ;;
  let adjusted_demand :=
    Z.max 0 (py_int (inject_Z base_demand * noise)) in
  stock_today <-
    (if day =? 0 then randint 50 200
     else match prev_entry inventory_records item day with
          | Some r => ret (stock_level r)
          | None => randint 50 200
          end) ;;
  let current_stock := stock_today - adjusted_demand in
  m <- py_mod day RESTOCKING_FREQUENCY ;;
  '(current_stock, restock_qty, was_restocked) <-
    (if m =? 0
     then restock_qty <- randint 50 100 ;;
          ret (current_stock + restock_qty, restock_qty, true)
     else ret (current_stock, 0, false)) ;;
  u <- uniform (95 # 100) (105 # 100) ;;
  let price_variation := (p_price item * u)%Q in
  change <- py_truediv (price_variation - p_price item) (p_price item) ;;
  ret (inventory_records ++
       [ mkInventoryRecord day (id item) (title item) (p_category item)
           adjusted_demand (Z.max 0 current_stock) restock_qty was_restocked
           price_variation (p_price item) (change * 100)%Q ]).

(** [for day in range(simulation_days): for _, item in product_df.iterrows()] *)
Definition simulate_day (product_df : list Product) (day : Z)
    (inventory_records : list InventoryRecord) : M (list InventoryRecord) :=
  for_each product_df (simulate_item day) inventory_records.

(** The records carry their date as the offset [day] from
    [simulation_start]. *)
Definition simulate_records (product_df : list Product)
    (simulation_days : Z) : M (list InventoryRecord) :=
  simulation_start <- datetime_sub today simulation_days ;;
  for_each (range simulation_days) (simulate_day product_df) [].

Definition simulate_inventory_activity (product_df : list Product)
    (simulation_days : Z) (rng : Rng) : option (DataFrame EnrichedRecord) :=
  match simulate_records product_df simulation_days rng with
  | Some (inventory_records, _) =>
      _append_inventory_metrics (DataFrame_of_records inventory_records)
  | None => None
  end.

End Simulator.
End ApiConnector.

(** ** [ingestion/api_ingestor.py]: the sibling simulator *)

Module ApiIngestor.
Section Simulator.

(** Imported from [settings]. *)
Variable RESTOCKING_FREQUENCY : Z.
Variable DEMAND_VARIABILITY : Q.

(** [simulation_start.weekday()], Monday being 0. *)
Variable start_weekday : Z.

(** The float [1.05 ** (1 / simulation_days)], which has no rational value in
    general; the model takes it as given. *)
Variable trend_step : Z -> Q.

Local Open Scope sim_scope.

Definition weekday (day : Z) : Z := (start_weekday + day) mod 7.

Definition seasonal_factor (day : Z) : Q :=
  if 5 <=? weekday day then 12 # 10 else 9 # 10.

(** The last record already appended for the product. *)
Definition prev_entry (inventory_records : list InventoryRecord)
    (item : Product) : option InventoryRecord :=
  find (fun r => product_id r =? id item) (rev inventory_records).

(** Body of the inner loop.  The state carried from one day to the next is
    the running [base_demand] and the list of records. *)
Definition simulate_item_day (simulation_days : Z) (item : Product) (day : Z)
    (st : Q * list InventoryRecord) : M (Q * list InventoryRecord) :=
  let '(base_demand, inventory_records) := st in
  random_factor <-
    uniform (1 - DEMAND_VARIABILITY) (1 + DEMAND_VARIABILITY) ;;
  let demand :=
    py_int (base_demand * seasonal_factor day * random_factor) in
  let base_demand := (base_demand * trend_step simulation_days)%Q in
  stock_level <-
    (if day =? 0 then randint 100 300
     else match prev_entry inventory_records item with
          | Some r => ret (stock_level r)
          | None => randint 100 300
          end) ;;
  let stock_level := stock_level - demand in
  '(stock_level, restock_qty, was_restocked) <-
    (if 0 <? day
     then m <- py_mod day RESTOCKING_FREQUENCY ;;
          if m =? 0
          then restock_qty <- randint 75 150 ;;
               ret (stock_level + restock_qty, restock_qty, true)
          else ret (stock_level, 0, false)
     else ret (stock_level, 0, false)) ;;
  let stock_level := Z.max 0 stock_level in
  u <- uniform (95 # 100) (105 # 100) ;;
  let price_variation := (p_price item * u)%Q in
  change <- py_truediv (price_variation - p_price item) (p_price item) ;;
  ret (base_demand,
       inventory_records ++
       [ mkInventoryRecord day (id item) (title item) (p_category item)
           demand stock_level restock_qty was_restocked
           price_variation (p_price item) (change * 100)%Q ]).

(** Body of the outer loop: [base_demand] is drawn once, then the days run. *)
Definition simulate_product (simulation_days : Z) (item : Product)
    (inventory_records : list InventoryRecord) : M (list InventoryRecord) :=
  base_demand <- uniform 5 20 ;;
  st <- for_each (range simulation_days)
          (simulate_item_day simulation_days item)
          (base_demand, inventory_records) ;;
  ret (snd st).

Definition simulate_loops (product_df : list Product)
    (simulation_days : Z) : M (list InventoryRecord) :=
  for_each product_df (simulate_product simulation_days) [].

End Simulator.

(** [date.weekday()] of an ordinal. *)
Definition weekday_of (ordinal : Z) : Z := (ordinal + 6) mod 7.

Section Entry.

Variable RESTOCKING_FREQUENCY : Z.
Variable DEMAND_VARIABILITY : Q.
Variable today : Z.
Variable trend_step : Z -> Q.

Local Open Scope sim_scope.

Definition simulate_records (product_df : list Product)
    (simulation_days : Z) : M (list InventoryRecord) :=
  simulation_start <- datetime_sub today simulation_days ;;
  simulate_loops RESTOCKING_FREQUENCY DEMAND_VARIABILITY
    (weekday_of simulation_start) trend_step product_df simulation_days.

Definition simulate_inventory_activity (product_df : list Product)
    (simulation_days : Z) (rng : Rng) : option (DataFrame EnrichedRecord) :=
  match simulate_records product_df simulation_days rng with
  | Some (inventory_records, _) =>
      _append_inventory_metrics (DataFrame_of_records inventory_records)
  | None => None
  end.

End Entry.
End ApiIngestor.

(** ** [data_processing/supply_chain_metrics.py] *)

Module LogisticsAnalytics.

(** *** Order and return frames

    Orders and returns come from spreadsheets with whatever columns the sheet
    has, so these frames are column stores of untyped cells. *)

Inductive Grade : Type := Excellent | Good | Poor.

Inductive Cell : Type :=
| Null                     (* NaN, NaT or None *)
| Int (z : Z)
| Num (q : Q)
| Str (s : string)
| Timestamp (ns : Z)       (* nanoseconds since the epoch *)
| Cat (g : Grade).         (* a value of the categorical built by [pd.cut] *)

Record Frame : Type := mkFrame {
  index_len : nat;                       (* [len(df)] *)
  cols : list (string * list Cell)       (* label and cells, in column order *)
}.

Fixpoint lookup_col (cs : list (string * list Cell)) (c : string)
  : option (list Cell) :=
  match cs with
  | [] => None
  | (l, v) :: cs' => if String.eqb l c then Some v else lookup_col cs' c
  end.

Fixpoint assign_col (cs : list (string * list Cell)) (c : string)
    (v : list Cell) : list (string * list Cell) :=
  match cs with
  | [] => [(c, v)]
  | (l, w) :: cs' =>
      if String.eqb l c then (l, v) :: cs' else (l, w) :: assign_col cs' c v
  end.

(** [df[c]] *)
Definition get_col (df : Frame) (c : string) : option (list Cell) :=
  lookup_col (cols df) c.

(** [df[c] = v] *)
Definition set_col (df : Frame) (c : string) (v : list Cell) : Frame :=
  mkFrame (index_len df) (assign_col (cols df) c v).

(** [df.empty]: no row or no column. *)
Definition empty (df : Frame) : bool :=
  (index_len df =? 0)%nat || match cols df with [] => true | _ => false end.

Definition len (df : Frame) : Z := Z.of_nat (index_len df).

(** *** Reductions of a numeric column *)

(** A cell read as a number: [Some None] is a missing value, [None] a cell
    on which arithmetic raises [TypeError]. *)
Definition as_number (c : Cell) : option (option Q) :=
  match c with
  | Null => Some None
  | Int z => Some (Some (inject_Z z))
  | Num q => Some (Some q)
  | _ => None
  end.

Fixpoint numeric_column (v : list Cell) : option (list (option Q)) :=
  match v with
  | [] => Some []
  | c :: v' =>
      match as_number c, numeric_column v' with
      | Some x, Some xs => Some (x :: xs)
      | _, _ => None
      end
  end.

(** The values that the reductions see ([skipna=True]). *)
Fixpoint dropna (xs : list (option Q)) : list Q :=
  match xs with
  | [] => []
  | Some x :: xs' => x :: dropna xs'
  | None :: xs' => dropna xs'
  end.

Definition Qsum (l : list Q) : Q := fold_right Qplus 0%Q l.

Definition Qlen {A} (l : list A) : Q := inject_Z (Z.of_nat (List.length l)).

Definition mean (l : list Q) : pyfloat :=
  match l with
  | [] => NaN
  | _ => Fin (Qsum l / Qlen l)
  end.

Fixpoint insert_sorted (x : Q) (l : list Q) : list Q :=
  match l with
  | [] => [x]
  | y :: l' => if Qle_bool x y then x :: l else y :: insert_sorted x l'
  end.

Definition sorted (l : list Q) : list Q := fold_right insert_sorted [] l.

Definition median (l : list Q) : pyfloat :=
  let s := sorted l in
  let n := List.length s in
  match n with
  | O => NaN
  | _ => if Nat.even n
         then Fin ((nth (n / 2 - 1) s 0 + nth (n / 2) s 0) / 2)%Q
         else Fin (nth (n / 2) s 0%Q)
  end.

Definition minimum (l : list Q) : pyfloat :=
  match l with
  | [] => NaN
  | x :: l' => Fin (fold_right Qmin x l')
  end.

Definition maximum (l : list Q) : pyfloat :=
  match l with
  | [] => NaN
  | x :: l' => Fin (fold_right Qmax x l')
  end.

(** Mean of a boolean column: the share of [True]. *)
Definition bool_mean (l : list bool) : pyfloat :=
  match l with
  | [] => NaN
  | _ => Fin (Qlen (filter (fun b => b) l) / Qlen l)
  end.

(** *** [compute_lead_time_stats] *)

(** [pd.cut(x, bins=[0, excellent, good, inf], labels=[...])] on one value.
    The defaults [right=True, include_lowest=False] make the bins
    (0, excellent], (excellent, good] and (good, inf]; a value outside every
    bin, and a missing value, get no label. *)
Definition cut (excellent good : Q) (x : option Q) : option Grade :=
  match x with
  | None => None
  | Some v =>
      if Qle_bool v 0 then None
      else if Qle_bool v excellent then Some Excellent
      else if Qle_bool v good then Some Good
      else Some Poor
  end.

Definition grade_cell (g : option Grade) : Cell :=
  match g with
  | Some g => Cat g
  | None => Null
  end.

Definition Grade_eqb (a b : Grade) : bool :=
  match a, b with
  | Excellent, Excellent | Good, Good | Poor, Poor => true
  | _, _ => false
  end.

Definition is_grade (g : Grade) (x : option Grade) : bool :=
  match x with
  | Some g' => Grade_eqb g g'
  | None => false
  end.

Definition graded (x : option Grade) : bool :=
  match x with Some _ => true | None => false end.

(** [value_counts(normalize=True).get(g, 0)] on the categorical: the count of
    [g] over the count of labelled values; 0/0 is [nan]. *)
Definition proportion (g : Grade) (grades : list (option Grade)) : pyfloat :=
  match filter graded grades with
  | [] => NaN
  | ls => Fin (Qlen (filter (is_grade g) grades) / Qlen ls)
  end.

(** The dictionary returned by [compute_lead_time_stats].  [std_lead_time]
    is an irrational in general and has no field here. *)
Record LeadTimeStats : Type := mkLeadTimeStats {
  avg_lead_time : pyfloat;
  med_lead_time : pyfloat;
  min_lead_time : pyfloat;
  max_lead_time : pyfloat;
  order_count : Z;
  excellent_ratio : pyfloat;
  good_ratio : pyfloat;
  poor_ratio : pyfloat
}.

Section LeadTime.

(** [LEAD_TIME_THRESHOLDS['excellent']] and [['good']], from [config]. *)
Variable LT_excellent LT_good : Q.

(** [pd.cut] raises [ValueError] unless the bin edges increase strictly. *)
Definition bins_ok : bool :=
  negb (Qle_bool LT_excellent 0) && negb (Qle_bool LT_good LT_excellent).

(** Returns the dictionary (or [None]) and the order frame as the call
    leaves it: the frame is the caller's object and is assigned to in place. *)
Definition compute_lead_time_stats (df_orders : Frame)
  : option LeadTimeStats * Frame :=
  match get_col df_orders "Lead Time (Days)" with
  | None => (None, df_orders)
  | Some column =>
      match numeric_column column with
      | None => (None, df_orders)            (* [mean()] raises *)
      | Some xs =>
          if bins_ok then
            let grades := map (cut LT_excellent LT_good) xs in
            let df_orders' :=
              set_col df_orders "lead_time_grade" (map grade_cell grades) in
            let v := dropna xs in
            (Some (mkLeadTimeStats (mean v) (median v) (minimum v)
                     (maximum v) (len df_orders)
                     (proportion Excellent grades)
                     (proportion Good grades)
                     (proportion Poor grades)),
             df_orders')
          else (None, df_orders)             (* [pd.cut] raises *)
      end
  end.

End LeadTime.

(** *** [compute_cycle_time] *)

Definition day_ns : Z := 86400 * 10 ^ 9.

(** [np.random.randint(low, high, size=n)]: [n] integers of [low..high-1]. *)
Fixpoint np_randint (low high : Z) (n : nat) (r : Rng) : list Z * Rng :=
  match n with
  | O => ([], r)
  | S n' =>
      let (x, r') := rng_next r in
      let (xs, r'') := np_randint low high n' r' in
      ((low + x mod (high - low)) :: xs, r'')
  end.

(** One cell of [df['Ship Date'] + pd.to_timedelta(days_delta, unit='D')];
    [None] where the addition raises [TypeError]. *)
Definition add_days (c : Cell) (d : Z) : option Cell :=
  match c with
  | Timestamp t => Some (Timestamp (t + d * day_ns))
  | Null => Some Null
  | _ => None
  end.

Fixpoint add_timedelta (v : list Cell) (ds : list Z) : option (list Cell) :=
  match v, ds with
  | c :: v', d :: ds' =>
      match add_days c d, add_timedelta v' ds' with
      | Some c', Some w => Some (c' :: w)
      | _, _ => None
      end
  | _, _ => Some []
  end.

(** One cell of [(a - b).dt.days]: whole days, rounded down. *)
Definition sub_days (a b : Cell) : option Cell :=
  match a, b with
  | Timestamp x, Timestamp y => Some (Int ((x - y) / day_ns))
  | Timestamp _, Null | Null, Timestamp _ | Null, Null => Some Null
  | _, _ => None
  end.

Fixpoint days_between (v w : list Cell) : option (list Cell) :=
  match v, w with
  | a :: v', b :: w' =>
      match sub_days a b, days_between v' w' with
      | Some c, Some u => Some (c :: u)
      | _, _ => None
      end
  | _, _ => Some []
  end.

(** The dictionary of the main path; [std_cycle_time] has no field. *)
Record CycleTimeStats : Type := mkCycleTimeStats {
  avg_cycle_time : pyfloat;
  med_cycle_time : pyfloat;
  min_cycle_time : pyfloat;
  max_cycle_time : pyfloat
}.

Definition column_stats (v : list Cell) : option CycleTimeStats :=
  match numeric_column v with
  | Some xs =>
      let l := dropna xs in
      Some (mkCycleTimeStats (mean l) (median l) (minimum l) (maximum l))
  | None => None
  end.

Section CycleTime.

Variable LT_excellent LT_good : Q.

(** The frame is assigned to as the statements run, so a call that ends in
    the handler may already have added ['Delivery Date']. *)
Definition compute_cycle_time (df_orders : Frame) (rng : Rng)
  : option (CycleTimeStats + LeadTimeStats) * Frame :=
  match get_col df_orders "Ship Date" with
  | Some ship =>
      let (days_delta, _) := np_randint 2 6 (index_len df_orders) rng in
      match add_timedelta ship days_delta with
      | None => (None, df_orders)
      | Some delivery =>
          let df1 := set_col df_orders "Delivery Date" delivery in
          match get_col df1 "Order Date" with
          | None => (None, df1)                      (* [KeyError] *)
          | Some order =>
              match days_between delivery order with
              | None => (None, df1)                  (* [TypeError] *)
              | Some cycle =>
                  let df2 := set_col df1 "Cycle Time (Days)" cycle in
                  (option_map inl (column_stats cycle), df2)
              end
          end
      end
  | None =>
      let (stats, df1) :=
        compute_lead_time_stats LT_excellent LT_good df_orders in
      (option_map inr stats, df1)
  end.

End CycleTime.

(** *** [compute_fill_rate_stats] *)

(** The keys of [groupby('product_id')]: distinct, in increasing order. *)
Fixpoint insert_key (k : Z) (ks : list Z) : list Z :=
  match ks with
  | [] => [k]
  | k' :: ks' =>
      if k <? k' then k :: ks
      else if k =? k' then ks
      else k' :: insert_key k ks'
  end.

Definition group_keys (inv : list EnrichedRecord) : list Z :=
  fold_right insert_key [] (map (fun r => product_id (source r)) inv).

Definition group (inv : list EnrichedRecord) (k : Z) : list EnrichedRecord :=
  filter (fun r => product_id (source r) =? k) inv.

(** One row of [grouped]: the mean [fill_rate] of a product and the number
    of its records flagged [stockout_risk]. *)
Definition group_row (inv : list EnrichedRecord) (k : Z) : Q * Z :=
  let g := group inv k in
  ((Qsum (map fill_rate g) / Qlen g)%Q,
   Z.of_nat (List.length (filter stockout_risk g))).

Record FillRateStats : Type := mkFillRateStats {
  avg_fill_rate : pyfloat;
  med_fill_rate : pyfloat;
  excellent_rate_ratio : pyfloat;
  good_rate_ratio : pyfloat;
  poor_rate_ratio : pyfloat;
  product_total : Z;
  at_risk_count : Z
}.

Section FillRate.

(** [FILL_RATE_THRESHOLDS], from [config]. *)
Variable FR_excellent FR_good FR_poor : Q.

Definition compute_fill_rate_stats (df_inventory : DataFrame EnrichedRecord)
  : option FillRateStats :=
  if has_column df_inventory "product_id"
     && has_column df_inventory "fill_rate"
     && has_column df_inventory "stockout_risk"
  then
    let inv := rows df_inventory in
    let grouped := map (group_row inv) (group_keys inv) in
    let fill := map fst grouped in
    Some (mkFillRateStats
            (mean fill)
            (median fill)
            (bool_mean (map (fun f => Qle_bool FR_excellent f) fill))
            (bool_mean (map (fun f => Qle_bool FR_good f) fill))
            (bool_mean (map (fun f => negb (Qle_bool FR_poor f)) fill))
            (Z.of_nat (List.length grouped))
            (fold_right Z.add 0 (map snd grouped)))
  else None.

End FillRate.

(** *** [compute_return_metrics] *)

Definition Cell_eqb (a b : Cell) : bool :=
  match a, b with
  | Null, Null => true
  | Int x, Int y => x =? y
  | Num x, Num y => Qeq_bool x y
  | Str x, Str y => String.eqb x y
  | Timestamp x, Timestamp y => x =? y
  | Cat x, Cat y => Grade_eqb x y
  | _, _ => false
  end.

Definition notnull (c : Cell) : bool :=
  match c with Null => false | _ => true end.

Fixpoint distinct (v : list Cell) : list Cell :=
  match v with
  | [] => []
  | c :: v' => c :: filter (fun d => negb (Cell_eqb c d)) (distinct v')
  end.

(** [value_counts(normalize=True)] as a mapping from value to share; the
    order of the entries (by frequency in pandas) is not part of the model. *)
Definition value_counts_normalized (v : list Cell) : list (Cell * Q) :=
  let present := filter notnull v in
  map (fun c => (c, (Qlen (filter (Cell_eqb c) present) / Qlen present)%Q))
      (distinct present).

(** The returned dictionary.  [category_breakdown] is [None] where the
    dictionary has no such key and [Some None] where it holds [None]. *)
Record ReturnStats : Type := mkReturnStats {
  order_total : Z;
  return_total : Z;
  return_ratio : Q;
  return_percent : Q;
  category_breakdown : option (option (list (Cell * Q)))
}.

(** [len(df_orders)]; [TypeError] when the caller passes [None]. *)
Definition py_len (df : option Frame) : option Z := option_map len df.

Definition compute_return_metrics (df_orders df_returns : option Frame)
  : option ReturnStats :=
  match df_returns with
  | Some returns =>
      if negb (empty returns) then
        match py_len df_orders with
        | None => None
        | Some order_total =>
            let return_total := len returns in
            let rate :=
              if 0 <? order_total
              then Qdiv_Z return_total order_total else 0%Q in
            let category_breakdown :=
              option_map value_counts_normalized (get_col returns "category") in
            Some (mkReturnStats order_total return_total rate (rate * 100)%Q
                    (Some category_breakdown))
        end
      else
        option_map (fun n => mkReturnStats n 0 0 0 None) (py_len df_orders)
  | None =>
      option_map (fun n => mkReturnStats n 0 0 0 None) (py_len df_orders)
  end.

(** *** [compute_inventory_turnover] *)

(** Reductions of a float column that can hold [inf] (never [-inf] here).
    Missing values are skipped; a sum that meets [inf] is [inf]. *)
Definition is_nan (x : pyfloat) : bool :=
  match x with NaN => true | _ => false end.

Definition is_inf (x : pyfloat) : bool :=
  match x with PosInf => true | _ => false end.

Fixpoint finite_values (l : list pyfloat) : list Q :=
  match l with
  | [] => []
  | Fin q :: l' => q :: finite_values l'
  | _ :: l' => finite_values l'
  end.

Definition float_mean (l : list pyfloat) : pyfloat :=
  match filter (fun x => negb (is_nan x)) l with
  | [] => NaN
  | vs => if existsb is_inf vs then PosInf
          else Fin (Qsum (finite_values vs) / Qlen vs)
  end.

(** The value at a position of the column once sorted: the finite values in
    increasing order, then the infinite ones. *)
Definition sorted_nth (fs : list Q) (i : nat) : pyfloat :=
  if (i <? List.length fs)%nat then Fin (nth i fs 0%Q) else PosInf.

Definition float_avg (x y : pyfloat) : pyfloat :=
  match x, y with
  | Fin a, Fin b => Fin ((a + b) / 2)
  | NaN, _ | _, NaN => NaN
  | _, _ => PosInf
  end.

Definition float_median (l : list pyfloat) : pyfloat :=
  let vs := filter (fun x => negb (is_nan x)) l in
  let fs := sorted (finite_values vs) in
  let n := List.length vs in
  match n with
  | O => NaN
  | _ => if Nat.even n
         then float_avg (sorted_nth fs (n / 2 - 1)) (sorted_nth fs (n / 2))
         else sorted_nth fs (n / 2)
  end.

(** One row of [grouped]: the means of [daily_demand], [stock_level] and
    [annualized_turnover] of a product, and [days_on_hand]. *)
Record TurnoverRow : Type := mkTurnoverRow {
  mean_demand : Q;
  mean_stock : Q;
  mean_turnover : Q;
  days_on_hand : pyfloat
}.

Definition turnover_row (inv : list EnrichedRecord) (k : Z) : TurnoverRow :=
  let g := group inv k in
  let demand :=
    (Qsum (map (fun r => inject_Z (daily_demand (source r))) g) / Qlen g)%Q in
  let stock :=
    (Qsum (map (fun r => inject_Z (stock_level (source r))) g) / Qlen g)%Q in
  mkTurnoverRow demand stock
    (Qsum (map annualized_turnover g) / Qlen g)%Q
    (if negb (Qle_bool demand 0) then Fin (stock / demand) else PosInf).

Record TurnoverStats : Type := mkTurnoverStats {
  avg_turnover : pyfloat;
  med_turnover : pyfloat;
  avg_days_on_hand : pyfloat;
  med_days_on_hand : pyfloat;
  product_count : Z
}.

Definition compute_inventory_turnover
    (df_inventory : DataFrame EnrichedRecord) : option TurnoverStats :=
  if has_column df_inventory "product_id"
     && has_column df_inventory "daily_demand"
     && has_column df_inventory "stock_level"
     && has_column df_inventory "annualized_turnover"
  then
    let inv := rows df_inventory in
    let grouped := map (turnover_row inv) (group_keys inv) in
    Some (mkTurnoverStats
            (mean (map mean_turnover grouped))
            (median (map mean_turnover grouped))
            (float_mean (map days_on_hand grouped))
            (float_median (map days_on_hand grouped))
            (Z.of_nat (List.length grouped)))
  else None.

(** *** [compute_category_metrics] *)

(** The category of an order row: [Some (Some c)] for a string, [Some None]
    for a missing value, [None] for any other cell. *)
Definition as_category (c : Cell) : option (option string) :=
  match c with
  | Str s => Some (Some s)
  | Null => Some None
  | _ => None
  end.

Fixpoint category_column (v : list Cell) : option (list (option string)) :=
  match v with
  | [] => Some []
  | c :: v' =>
      match as_category c, category_column v' with
      | Some x, Some xs => Some (x :: xs)
      | _, _ => None
      end
  end.

Fixpoint present_categories (l : list (option string)) : list string :=
  match l with
  | [] => []
  | Some c :: l' => c :: present_categories l'
  | None :: l' => present_categories l'
  end.

(** Keys in lexicographic order. *)
Fixpoint insert_string (x : string) (l : list string) : list string :=
  match l with
  | [] => [x]
  | y :: l' => if String.leb x y then x :: l else y :: insert_string x l'
  end.

Definition sort_strings (l : list string) : list string :=
  fold_right insert_string [] l.

(** One row of [combined].  The four inventory columns, and the count, are
    floats once the outer join has filled the side that a category lacks
    with [nan].  The [std] column is an irrational in general and has no
    field. *)
Record CategoryRow : Type := mkCategoryRow {
  cat_key : string;
  lt_mean : pyfloat;
  lt_median : pyfloat;
  lt_count : pyfloat;
  cat_fill_rate : pyfloat;
  cat_turnover : pyfloat;
  cat_days_of_inventory : pyfloat;
  cat_stockout_risk : pyfloat
}.

(** The lead times of the orders of one category, missing ones included. *)
Fixpoint lead_times_of (k : string) (cats : list (option string))
    (xs : list (option Q)) : list (option Q) :=
  match cats, xs with
  | c :: cats', x :: xs' =>
      match c with
      | Some c' => if String.eqb c' k then x :: lead_times_of k cats' xs'
                   else lead_times_of k cats' xs'
      | None => lead_times_of k cats' xs'
      end
  | _, _ => []
  end.

Definition inventory_of (k : string) (inv : list EnrichedRecord)
  : list EnrichedRecord :=
  filter (fun r => String.eqb (category (source r)) k) inv.

Definition mem_string (k : string) (l : list string) : bool :=
  existsb (String.eqb k) l.

Definition category_row (cats : list (option string)) (xs : list (option Q))
    (inv : list EnrichedRecord) (k : string) : CategoryRow :=
  let lt := lead_times_of k cats xs in
  let g := inventory_of k inv in
  let left := mem_string k (present_categories cats) in
  let right := mem_string k (map (fun r => category (source r)) inv) in
  mkCategoryRow k
    (if left then mean (dropna lt) else NaN)
    (if left then median (dropna lt) else NaN)
    (if left then Fin (Qlen (dropna lt)) else NaN)
    (if right then mean (map fill_rate g) else NaN)
    (if right then mean (map annualized_turnover g) else NaN)
    (if right then float_mean (map days_of_inventory g) else NaN)
    (if right then Fin (Qlen (filter stockout_risk g)) else NaN).

Section CategoryMetrics.

(** What the function returns when the category column of the orders holds
    something else than strings and missing values, or no string at all:
    the outcome then depends on how pandas types the column and orders mixed
    keys, which this model leaves open. *)
Variable other_category_dtype : option (list CategoryRow).

Definition compute_category_metrics (df_orders : Frame)
    (df_inventory : DataFrame EnrichedRecord) : option (list CategoryRow) :=
  match get_col df_orders "category" with
  | Some order_categories =>
      if has_column df_inventory "category" then
        match get_col df_orders "Lead Time (Days)" with
        | None => None                                    (* [KeyError] *)
        | Some column =>
            match numeric_column column with
            | None => None                                (* [agg] raises *)
            | Some xs =>
                if has_column df_inventory "fill_rate"
                   && has_column df_inventory "annualized_turnover"
                   && has_column df_inventory "days_of_inventory"
                   && has_column df_inventory "stockout_risk"
                then
                  match category_column order_categories with
                  | Some cats =>
                      match present_categories cats with
                      | [] => other_category_dtype
                      | _ =>
                          let inv := rows df_inventory in
                          let keys :=
                            sort_strings
                              (nodup string_dec
                                 (present_categories cats
                                  ++ map (fun r => category (source r)) inv))
                          in
                          Some (map (category_row cats xs inv) keys)
                      end
                  | None => other_category_dtype
                  end
                else None
            end
        end
      else None
  | None => None
  end.

End CategoryMetrics.

(** *** [compute_all_metrics] *)

(** The dictionary of the six results, each [None] where its function
    returned [None]. *)
Record AllMetrics : Type := mkAllMetrics {
  m_lead_time : option LeadTimeStats;
  m_cycle_time : option (CycleTimeStats + LeadTimeStats);
  m_inventory_turnover : option TurnoverStats;
  m_fill_rate : option FillRateStats;
  m_category : option (list CategoryRow);
  m_returns : option ReturnStats
}.

Section AllMetrics.

Variable LT_excellent LT_good : Q.
Variable FR_excellent FR_good FR_poor : Q.
Variable other_category_dtype : option (list CategoryRow).

(** The six calls run in the order of the dictionary display, all on the
    caller's order frame: each one sees the columns that the calls before it
    have assigned.  Returns the dictionary and the order frame as it is
    left. *)
Definition compute_all_metrics (df_orders : Frame)
    (df_inventory : DataFrame EnrichedRecord) (df_returns : option Frame)
    (rng : Rng) : AllMetrics * Frame :=
  let (lead_time, df1) :=
    compute_lead_time_stats LT_excellent LT_good df_orders in
  let (cycle_time, df2) :=
    compute_cycle_time LT_excellent LT_good df1 rng in
  let inventory_turnover := compute_inventory_turnover df_inventory in
  let fill_rate := compute_fill_rate_stats FR_excellent FR_good FR_poor
                     df_inventory in
  let category := compute_category_metrics other_category_dtype df2
                    df_inventory in
  let returns := compute_return_metrics (Some df2) df_returns in
  (mkAllMetrics lead_time cycle_time inventory_turnover fill_rate category
     returns, df2).

End AllMetrics.

End LogisticsAnalytics.

(** ** The demand series in the words of the specification

    Section 4.1, steps 1 to 5: [base_demand] is initialised once per product;
    each day has a seasonal factor and a noise factor; the demand of the day
    is [floor(base_demand * seasonal_factor * noise_factor)] clamped at zero;
    then [base_demand] is multiplied by [trend_factor^(1/simulation_days)],
    here [trend_step], for the next day. *)
Fixpoint spec_demand_series (trend_step : Q) (seasonal : Z -> Q)
    (base_demand : Q) (days : list Z) (noise : list Q) : list Z :=
  match days, noise with
  | d :: days', n :: noise' =>
      Z.max 0 (Qfloor (base_demand * seasonal d * n))
      :: spec_demand_series trend_step seasonal (base_demand * trend_step)
           days' noise'
  | _, _ => []
  end.

(** ** The shape of the records that the loops append *)

Section RecordShapes.

Variable F : Z.                 (* RESTOCKING_FREQUENCY *)
Variable V : Q.                 (* DEMAND_VARIABILITY *)
Variable start_weekday : Z.
Variable trend_step : Z -> Q.

(** The record that the loop body of [api_connector.py] builds for [item]
    on [day]. *)
Definition item_record (day : Z) (item : Product) (rec : InventoryRecord)
  : Prop :=
  F <> 0 /\
  date rec = day /\
  product_id rec = id item /\
  (exists base u,
      1 <= base <= 10 /\ (0 <= u /\ u < 1)%Q /\
      daily_demand rec =
        Z.max 0 (py_int (inject_Z base * (1 - V + (1 + V - (1 - V)) * u)))) /\
  (exists stock, stock_level rec = Z.max 0 stock) /\
  ((day mod F = 0 /\ restocked rec = true /\ 50 <= restock_amount rec <= 100)
   \/ (day mod F <> 0 /\ restocked rec = false /\ restock_amount rec = 0)).

(** The record that the inner loop body of [api_ingestor.py] builds on
    [day] from the running [base_demand]. *)
Definition ingestor_record (base_demand : Q) (day : Z) (item : Product)
    (rec : InventoryRecord) : Prop :=
  date rec = day /\
  product_id rec = id item /\
  (exists u, (0 <= u /\ u < 1)%Q /\
     daily_demand rec =
       py_int (base_demand * ApiIngestor.seasonal_factor start_weekday day
               * (1 - V + (1 + V - (1 - V)) * u))) /\
  0 <= stock_level rec /\
  ((0 < day /\ day mod F = 0 /\
    restocked rec = true /\ 75 <= restock_amount rec <= 150)
   \/ (~ (0 < day /\ day mod F = 0) /\
       restocked rec = false /\ restock_amount rec = 0)).

(** The records of one product, day after day, with the running
    [base_demand] that each of them was computed from. *)
Inductive ingestor_series (days : Z) (item : Product)
  : Q -> list Z -> list InventoryRecord -> Prop :=
| series_nil b : ingestor_series days item b [] []
| series_cons b d ds rec news :
    ingestor_record b d item rec ->
    ingestor_series days item (b * trend_step days)%Q ds news ->
    ingestor_series days item b (d :: ds) (rec :: news).

End RecordShapes.

(** A computation that returns whatever the entropy. *)
Definition total {A} (c : M A) : Prop :=
  forall r, exists a r', c r = Some (a, r').

Import LogisticsAnalytics.

(** ** Vocabulary of the statements *)

(** The key and the catalogue fields of the records, in the order in which
    the two loops append them. *)
Definition catalogue_fields (rec : InventoryRecord)
  : Z * Z * string * string * Q :=
  (date rec, product_id rec, product_name rec, category rec,
   original_price rec).

Definition catalogue_row (day : Z) (item : Product)
  : Z * Z * string * string * Q :=
  (day, id item, title item, p_category item, p_price item).

(** Record [x] continues the stock of record [p]: same product, the day
    after, and the stock carried over. *)
Definition follows (p x : InventoryRecord) : Prop :=
  product_id p = product_id x /\ date p = date x - 1 /\
  stock_level x = Z.max 0 (stock_level p - daily_demand x + restock_amount x).

(** The parameters of the demand series of one product: its initial base
    demand and the noise factor of each day. *)
Definition series_ok (V : Q) (days : Z) (p : Q * list Q) : Prop :=
  (5 <= fst p /\ fst p < 20)%Q /\
  List.length (snd p) = Z.to_nat days /\
  Forall (fun n => 1 - V <= n /\ n <= 1 + V)%Q (snd p).

(** The sum of a column of integers. *)
Definition Zsum (l : list Z) : Z := fold_right Z.add 0 l.

(** ** Concrete inputs used by the worked examples *)

(** The entropy tape that replays the given draws, then zeroes. *)
Definition tape_of (l : list Z) : Rng := mkRng (fun n => nth n l 0) 0.

(** The day of the run: 3 November 2026, a Tuesday. *)
Definition today_D : Z := 739923.

Definition mouse : Product := mkProduct 1 "mouse" "electronics" 10.
Definition shirt : Product := mkProduct 2 "shirt" "clothing" 25.

Definition frame_of (o : option (DataFrame EnrichedRecord))
  : DataFrame EnrichedRecord :=
  match o with Some df => df | None => mkDataFrame [] [] end.

(** Two products, one day, weekly restocking. *)
Definition run_A : DataFrame EnrichedRecord :=
  Eval vm_compute in
  frame_of (ApiConnector.simulate_inventory_activity 7 (2 # 10) today_D
              [mouse; shirt] 1 (tape_of [])).

(** One product, six days, the largest demand on every day. *)
Definition tape_B : Rng :=
  tape_of [9; 2 ^ 53 - 1; 0; 0; 0;
           9; 2 ^ 53 - 1; 0;  9; 2 ^ 53 - 1; 0;  9; 2 ^ 53 - 1; 0;
           9; 2 ^ 53 - 1; 0;  9; 2 ^ 53 - 1; 0].

Definition run_B : DataFrame EnrichedRecord :=
  Eval vm_compute in
  frame_of (ApiConnector.simulate_inventory_activity 7 1 today_D
              [mouse] 6 tape_B).


(** Draws that make the base demand 10 on day 0 and 1 on day 1. *)
Definition tape_C : Rng := tape_of [9; 0; 0; 0; 0; 0].

(** Two orders; the first one ships on the day it is placed. *)
Definition orders_D : Frame :=
  mkFrame 2 [("Order ID"%string, [Str "CA-1"; Str "CA-2"]);
             ("Lead Time (Days)"%string, [Int 0; Int 2])].

(** An inventory frame with every column and no row, as a filter that
    matches nothing leaves it. *)
Definition no_inventory : DataFrame EnrichedRecord :=
  mkDataFrame
    (record_keys ++ ["days_of_inventory"; "stockout_risk";
                     "annualized_turnover"; "fill_rate"]%string)
    [].

(** Two products simulated for three days by [api_ingestor.py], restocking
    every second day. *)
Definition step_I : Z -> Q := fun _ => 10164 # 10000.

Definition run_I : DataFrame EnrichedRecord :=
  Eval vm_compute in
  frame_of (ApiIngestor.simulate_inventory_activity 2 (2 # 10) today_D step_I
              [mouse; shirt] 3 (tape_of [])).

(** A frame of raw records on which the enricher can be tried. *)
Definition frame_E : DataFrame InventoryRecord :=
  DataFrame_of_records
    [mkInventoryRecord 0 1 "mouse" "electronics" 4 11 0 false 10 10 0;
     mkInventoryRecord 0 2 "shirt" "clothing" 4 12 0 false 25 25 0;
     mkInventoryRecord 0 3 "lamp" "home" 0 7 0 false 30 30 0;
     mkInventoryRecord 0 4 "desk" "home" 5 3 0 false 90 90 0].

Definition enriched_E : DataFrame EnrichedRecord :=
  Eval vm_compute in
  match _append_inventory_metrics frame_E with
  | Some df => df
  | None => mkDataFrame [] []
  end.

(** Three orders with their dates, at midnight. *)
Definition orders_T : Frame :=
  mkFrame 3
    [("Order Date"%string,
      [Timestamp 0; Timestamp (3 * day_ns); Timestamp (10 * day_ns)]);
     ("Ship Date"%string,
      [Timestamp (2 * day_ns); Timestamp (3 * day_ns); Null])].


(** Orders with their category and lead time; one order has no category,
    one no lead time. *)
Definition orders_K : Frame :=
  mkFrame 4
    [("category"%string, [Str "home"; Str "books"; Null; Str "home"]);
     ("Lead Time (Days)"%string, [Int 2; Int 4; Int 9; Null])].


(** * Properties *)

(** ** The simulation monad *)

Lemma bind_Some {A B} (c : M A) (k : A -> M B) r b r' :
  bind c k r = Some (b, r') ->
  exists a r1, c r = Some (a, r1) /\ k a r1 = Some (b, r').
Proof.
  unfold bind. destruct (c r) as [[a r1]|]; [|discriminate].
  intros H. now exists a, r1.
Qed.

(** One step through a sequence of binds that is known to return. *)
Tactic Notation "step" hyp(H) "as" ident(a) ident(r) ident(H1) :=
  apply bind_Some in H as (a & r & H1 & H).

Lemma ret_Some {A} (a b : A) r r' : ret a r = Some (b, r') -> b = a /\ r' = r.
Proof. unfold ret. intros H. now inversion H. Qed.

Lemma randint_range a b r x r' :
  a <= b -> randint a b r = Some (x, r') -> a <= x <= b.
Proof.
  unfold randint, rng_next. intros Hab H. inversion H; subst; clear H.
  pose proof (Z.mod_pos_bound (tape r (cursor r)) (b - a + 1)). lia.
Qed.

Lemma random_range r u r' :
  random r = Some (u, r') -> (0 <= u /\ u < 1)%Q.
Proof.
  unfold random, rng_next. intros H. inversion H; subst; clear H.
  pose proof (Z.mod_pos_bound (tape r (cursor r)) (2 ^ 53) eq_refl) as Hb.
  unfold Qle, Qlt; simpl Qnum; simpl Qden. split.
  - rewrite Z.mul_1_r. simpl. lia.
  - rewrite Z.mul_1_r, Z.mul_1_l. exact (proj2 Hb).
Qed.

Lemma uniform_Some lo hi r x r' :
  uniform lo hi r = Some (x, r') ->
  exists u, (0 <= u /\ u < 1)%Q /\ x = (lo + (hi - lo) * u)%Q.
Proof.
  unfold uniform. intros H.
  apply bind_Some in H as (u & r1 & Hu & H).
  apply ret_Some in H as [-> _]. exists u. split; [|reflexivity].
  eapply random_range; eauto.
Qed.

Lemma py_mod_Some x y r m r' :
  py_mod x y r = Some (m, r') -> y <> 0 /\ m = x mod y.
Proof.
  unfold py_mod. destruct (Z.eqb_spec y 0) as [->|Hy]; [discriminate|].
  intros H. apply ret_Some in H as [-> _]. now split.
Qed.

(** A property that every iteration preserves holds after the loop. *)
Lemma for_each_invariant {A S} (I : S -> Prop) (xs : list A)
    (body : A -> S -> M S) :
  (forall x s r s' r', In x xs -> I s -> body x s r = Some (s', r') -> I s') ->
  forall s r s' r', I s -> for_each xs body s r = Some (s', r') -> I s'.
Proof.
  induction xs as [|x xs IH]; intros Hstep s r s' r' Hs H; simpl in H.
  - apply ret_Some in H as [-> _]. exact Hs.
  - apply bind_Some in H as (s1 & r1 & H1 & H2).
    eapply IH; [| |exact H2].
    + intros y t q t' q' Hy. apply Hstep. now right.
    + eapply Hstep; [now left|exact Hs|exact H1].
Qed.

Lemma in_range day n : In day (range n) <-> 0 <= day < n.
Proof.
  unfold range. rewrite in_map_iff. split.
  - intros (k & <- & Hk). apply in_seq in Hk. lia.
  - intros H. exists (Z.to_nat day). split; [lia|]. apply in_seq. lia.
Qed.

(** ** The enricher, record by record *)

Lemma append_metrics_rows df df' :
  _append_inventory_metrics df = Some df' -> rows df' = map enrich (rows df).
Proof.
  unfold _append_inventory_metrics.
  destruct (has_column df "daily_demand" && has_column df "stock_level");
    [|discriminate].
  intros H. now inversion H.
Qed.

Lemma append_metrics_of_records rs :
  rs <> [] ->
  exists df', _append_inventory_metrics (DataFrame_of_records rs) = Some df'.
Proof.
  destruct rs as [|r rs]; [congruence|]. intros _. eexists. reflexivity.
Qed.

Lemma append_metrics_no_rows :
  _append_inventory_metrics (DataFrame_of_records []) = None.
Proof. reflexivity. Qed.

(** ** [api_connector.py]: what one iteration appends *)

Section ConnectorRecords.

Variable F : Z.      (* RESTOCKING_FREQUENCY *)
Variable V : Q.      (* DEMAND_VARIABILITY *)
Variable today : Z.

Lemma simulate_item_appends day item recs r recs' r' :
  ApiConnector.simulate_item F V day item recs r = Some (recs', r') ->
  exists rec, recs' = recs ++ [rec] /\ item_record F V day item rec.
Proof.
  unfold ApiConnector.simulate_item. intros H.
  step H as base r1 Hbase.
  step H as noise r2 Hnoise.
  step H as stock_today r3 Hstock.
  step H as m r4 Hm.
  step H as triple r5 Hrestock.
  destruct triple as [[current_stock restock_qty] was_restocked].
  step H as u r6 Hu.
  step H as change r7 Hchange.
  apply ret_Some in H as [-> _].
  apply randint_range in Hbase; [|lia].
  apply uniform_Some in Hnoise as (w & Hw & ->).
  apply py_mod_Some in Hm as [HF ->].
  eexists. split; [reflexivity|].
  unfold item_record; simpl. repeat split; try assumption.
  - exists base, w. repeat split; try tauto; lia.
  - now exists current_stock.
  - destruct (Z.eqb_spec (day mod F) 0) as [Hz|Hz].
    + left. step Hrestock as qty r8 Hqty.
      apply ret_Some in Hrestock as [E _].
      inversion E; subst. apply randint_range in Hqty; [|lia]. tauto.
    + right. apply ret_Some in Hrestock as [E _]. inversion E; subst. tauto.
Qed.

Lemma connector_records products days r recs r' :
  ApiConnector.simulate_records F V today products days r = Some (recs, r') ->
  Forall (fun rec => exists day item,
              0 <= day < days /\ In item products /\
              item_record F V day item rec)
         recs.
Proof.
  unfold ApiConnector.simulate_records. intros H.
  step H as simulation_start r0 Hstart. revert H.
  apply for_each_invariant with
    (I := Forall (fun rec => exists day item,
              0 <= day < days /\ In item products /\
              item_record F V day item rec));
    [|constructor].
  intros day s q s' q' Hday Hs. unfold ApiConnector.simulate_day.
  apply in_range in Hday. revert s q s' q' Hs.
  apply for_each_invariant.
  intros item s q s' q' Hitem Hs H.
  apply simulate_item_appends in H as (rec & -> & Hrec).
  apply Forall_app. split; [exact Hs|]. constructor; [|constructor].
  now exists day, item.
Qed.

Lemma connector_rows products days rng df r :
  ApiConnector.simulate_inventory_activity F V today products days rng
    = Some df ->
  In r (rows df) ->
  exists rec day item,
    r = enrich rec /\ 0 <= day < days /\ In item products /\
    item_record F V day item rec.
Proof.
  unfold ApiConnector.simulate_inventory_activity.
  destruct (ApiConnector.simulate_records F V today products days rng)
    as [[recs r']|] eqn:E; [|discriminate].
  intros H Hin. apply append_metrics_rows in H. rewrite H in Hin. simpl in Hin.
  apply in_map_iff in Hin as (rec & <- & Hin).
  apply connector_records in E. rewrite Forall_forall in E.
  destruct (E rec Hin) as (day & item & ?). now exists rec, day, item.
Qed.

End ConnectorRecords.

(** ** The enricher on one record *)

Lemma Qdiv_Z_nonneg s d : 0 <= s -> 0 < d -> (0 <= Qdiv_Z s d)%Q.
Proof.
  intros Hs Hd. unfold Qdiv_Z. apply Qle_shift_div_l.
  - change 0%Q with (inject_Z 0). rewrite <- Zlt_Qlt. exact Hd.
  - rewrite Qmult_0_l. change 0%Q with (inject_Z 0). rewrite <- Zle_Qle.
    exact Hs.
Qed.

Lemma Qdiv_Z_zero d : (Qdiv_Z 0 d == 0)%Q.
Proof. unfold Qdiv_Z, Qdiv. apply Qmult_0_l. Qed.

Lemma enrich_source rec : source (enrich rec) = rec.
Proof. reflexivity. Qed.

Lemma enrich_zero_demand rec :
  daily_demand rec = 0 ->
  days_of_inventory (enrich rec) = PosInf /\
  fill_rate (enrich rec) = 1%Q /\
  stockout_risk (enrich rec) = false.
Proof. unfold enrich; simpl. intros ->. simpl. auto. Qed.

Lemma enrich_fill_rate_bounds rec :
  0 <= stock_level rec ->
  (0 <= fill_rate (enrich rec) /\ fill_rate (enrich rec) <= 1)%Q.
Proof.
  intros Hs. unfold enrich; simpl.
  destruct (Z.ltb_spec 0 (daily_demand rec)) as [Hd|Hd].
  - split.
    + apply Q.min_glb; [discriminate|]. now apply Qdiv_Z_nonneg.
    + apply Q.le_min_l.
  - split; discriminate.
Qed.

Lemma enrich_zero_stock rec :
  stock_level rec = 0 -> 0 < daily_demand rec ->
  (exists q, days_of_inventory (enrich rec) = Fin q /\ (q == 0)%Q) /\
  stockout_risk (enrich rec) = true /\
  (annualized_turnover (enrich rec) == 0)%Q /\
  (fill_rate (enrich rec) == 0)%Q.
Proof.
  intros Hs Hd. unfold enrich; simpl. rewrite Hs.
  apply Z.ltb_lt in Hd. rewrite Hd. simpl.
  pose proof (Qdiv_Z_zero (daily_demand rec)) as Hz.
  split; [|split; [|split]].
  - eexists. split; [reflexivity|exact Hz].
  - destruct (Qle_bool 3 (Qdiv_Z 0 (daily_demand rec))) eqn:E; [|reflexivity].
    apply Qle_bool_iff in E. rewrite Hz in E. exfalso. apply E. reflexivity.
  - reflexivity.
  - rewrite Q.min_r; [exact Hz|]. rewrite Hz. discriminate.
Qed.

(** ** Claims about the simulator of [api_connector.py] *)

Lemma connector_record_nonnegative F V day item rec :
  item_record F V day item rec -> 0 <= stock_level rec /\ 0 <= daily_demand rec.
Proof.
  intros (_ & _ & _ & (b & u & _ & _ & Hd) & (s & Hs) & _).
  rewrite Hd, Hs. lia.
Qed.

(** C6.  In every record that [simulate_inventory_activity] produces, the
    stock level and the daily demand are at least zero: both are written
    through [max(0, ...)]. *)
Theorem simulated_records_nonnegative F V today products days rng df r :
  ApiConnector.simulate_inventory_activity F V today products days rng
    = Some df ->
  In r (rows df) ->
  0 <= stock_level (source r) /\ 0 <= daily_demand (source r).
Proof.
  intros H Hin.
  destruct (connector_rows _ _ _ _ _ _ _ _ H Hin)
    as (rec & day & item & -> & _ & _ & Hrec).
  rewrite enrich_source. eapply connector_record_nonnegative; eassumption.
Qed.

(** A run whose last day would leave the stock at 5 - 19 without the clamp. *)
Lemma simulated_records_nonnegative_witness :
  Forall (fun r => 0 <= stock_level (source r) /\ 0 <= daily_demand (source r))
         (rows run_B).
Proof.
  apply Forall_forall. intros r Hr.
  apply (simulated_records_nonnegative 7 1 today_D [mouse] 6 tape_B run_B r);
    [vm_compute; reflexivity | exact Hr].
Defined.

(** C7.  An enriched record with no demand has an infinite number of days of
    inventory, a fill rate of one and no stockout risk; and the fill rate of
    every enriched record lies between zero and one. *)
Theorem zero_demand_sentinel_and_fill_rate_bound
    F V today products days rng df r :
  ApiConnector.simulate_inventory_activity F V today products days rng
    = Some df ->
  In r (rows df) ->
  (daily_demand (source r) = 0 ->
     days_of_inventory r = PosInf /\ fill_rate r = 1%Q /\
     stockout_risk r = false) /\
  (0 <= fill_rate r /\ fill_rate r <= 1)%Q.
Proof.
  intros H Hin.
  destruct (connector_rows _ _ _ _ _ _ _ _ H Hin)
    as (rec & day & item & -> & _ & _ & Hrec).
  apply connector_record_nonnegative in Hrec as [Hs _].
  rewrite enrich_source. split.
  - apply enrich_zero_demand.
  - now apply enrich_fill_rate_bounds.
Qed.

Lemma zero_demand_sentinel_and_fill_rate_bound_witness :
  Forall (fun r =>
            daily_demand (source r) = 0 /\ days_of_inventory r = PosInf /\
            fill_rate r = 1%Q /\ stockout_risk r = false)
         (rows run_A).
Proof.
  apply Forall_forall. intros r Hr.
  destruct (zero_demand_sentinel_and_fill_rate_bound
              7 (2 # 10) today_D [mouse; shirt] 1 (tape_of []) run_A r
              ltac:(vm_compute; reflexivity) Hr) as [Hz _].
  assert (Hd : daily_demand (source r) = 0).
  { simpl in Hr. destruct Hr as [<-|[<-|[]]]; reflexivity. }
  split; [exact Hd|exact (Hz Hd)].
Defined.

(** C9.  An enriched record with an empty stock and a positive demand has
    zero days of inventory and is flagged as a stockout risk; its
    annualised turnover and its fill rate are zero. *)
Theorem zero_stock_sentinel F V today products days rng df r :
  ApiConnector.simulate_inventory_activity F V today products days rng
    = Some df ->
  In r (rows df) ->
  stock_level (source r) = 0 -> 0 < daily_demand (source r) ->
  (exists q, days_of_inventory r = Fin q /\ (q == 0)%Q) /\
  stockout_risk r = true /\
  (annualized_turnover r == 0)%Q /\
  (fill_rate r == 0)%Q.
Proof.
  intros H Hin.
  destruct (connector_rows _ _ _ _ _ _ _ _ H Hin) as (rec & _ & _ & -> & _).
  rewrite enrich_source. apply enrich_zero_stock.
Qed.

(** Day 5 of [run_B]: the stock is exhausted while 19 units are asked for. *)
Lemma zero_stock_sentinel_witness :
  exists r, nth_error (rows run_B) 5 = Some r /\
    stock_level (source r) = 0 /\ daily_demand (source r) = 19 /\
    stockout_risk r = true /\ (fill_rate r == 0)%Q.
Proof.
  destruct (nth_error (rows run_B) 5) as [r|] eqn:E; [|discriminate E].
  exists r. split; [reflexivity|].
  assert (Hin : In r (rows run_B)) by (eapply nth_error_In; exact E).
  vm_compute in E. inversion E as [Er].
  assert (Hs : stock_level (source r) = 0) by (rewrite <- Er; reflexivity).
  assert (Hd : daily_demand (source r) = 19) by (rewrite <- Er; reflexivity).
  destruct (zero_stock_sentinel 7 1 today_D [mouse] 6 tape_B run_B r
              ltac:(vm_compute; reflexivity) Hin Hs
              ltac:(rewrite Hd; reflexivity))
    as (_ & Hrisk & _ & Hfill).
  repeat split; assumption.
Defined.

(** X23.  The restocking rule that [api_connector.py] implements: the flag
    and the amount agree, and a restock happens exactly on the days that
    [RESTOCKING_FREQUENCY] divides, day 0 among them. *)
Lemma connector_restock_rule F V today products days rng df r :
  ApiConnector.simulate_inventory_activity F V today products days rng
    = Some df ->
  In r (rows df) ->
  (restocked (source r) = true <-> 0 < restock_amount (source r)) /\
  (0 < restock_amount (source r) <-> date (source r) mod F = 0).
Proof.
  intros H Hin.
  destruct (connector_rows _ _ _ _ _ _ _ _ H Hin)
    as (rec & day & item & -> & _ & _ & Hrec).
  destruct Hrec as (_ & Hdate & _ & _ & _ & Hrestock).
  rewrite enrich_source, Hdate.
  destruct Hrestock as [(Hm & -> & Hq)|(Hm & -> & ->)]; split; split;
    intros; try lia; try congruence.
Qed.

(** C1, evaluated on the code.  [api_connector.py] tests
    [day % RESTOCKING_FREQUENCY == 0] alone, so every record of day 0 is a
    restock of 50 to 100 units, where the claim has [restocked = false] and
    [restock_amount = 0]. *)
Theorem connector_restocks_on_day_zero F V today products days rng df r :
  ApiConnector.simulate_inventory_activity F V today products days rng
    = Some df ->
  In r (rows df) ->
  date (source r) = 0 ->
  restocked (source r) = true /\ 50 <= restock_amount (source r) <= 100.
Proof.
  intros H Hin H0.
  destruct (connector_rows _ _ _ _ _ _ _ _ H Hin)
    as (rec & day & item & -> & _ & _ & Hrec).
  destruct Hrec as (_ & Hdate & _ & _ & _ & Hrestock).
  rewrite enrich_source in *. rewrite Hdate in H0. subst day.
  destruct Hrestock as [(_ & Hr & Hq)|(Hm & _)]; [tauto|].
  now rewrite Zmod_0_l in Hm.
Qed.

(** Two products, one day, restocking every seventh day. *)
Lemma connector_restocks_on_day_zero_witness :
  Forall (fun r => date (source r) = 0 /\
                   restocked (source r) = true /\
                   50 <= restock_amount (source r) <= 100)
         (rows run_A).
Proof.
  apply Forall_forall. intros r Hr.
  assert (H0 : date (source r) = 0).
  { simpl in Hr. destruct Hr as [<-|[<-|[]]]; reflexivity. }
  split; [exact H0|].
  apply (connector_restocks_on_day_zero
           7 (2 # 10) today_D [mouse; shirt] 1 (tape_of []) run_A r);
    [vm_compute; reflexivity | exact Hr | exact H0].
Defined.

(** A loop whose body does nothing returns its initial state. *)
Lemma for_each_skip {A S} (xs : list A) (body : A -> S -> M S) :
  (forall x s r, body x s r = Some (s, r)) ->
  forall s r, for_each xs body s r = Some (s, r).
Proof.
  intros Hbody. induction xs as [|x xs IH]; intros s r; simpl.
  - reflexivity.
  - unfold bind. rewrite Hbody. apply IH.
Qed.

(** C3, evaluated on the code.  With an empty catalogue no record is
    appended, [pd.DataFrame([])] has no column, the lookup of
    ['daily_demand'] raises, and the handler returns [None]: the caller is
    handed the error value, not an empty frame. *)
Theorem connector_empty_catalog_returns_None F V today days rng :
  ApiConnector.simulate_inventory_activity F V today [] days rng = None.
Proof.
  unfold ApiConnector.simulate_inventory_activity,
    ApiConnector.simulate_records, bind.
  destruct (datetime_sub today days rng) as [[simulation_start r]|];
    [|reflexivity].
  rewrite for_each_skip; [reflexivity|].
  intros day s q. reflexivity.
Qed.

(** The same holds for any catalogue when the horizon is not positive. *)
Lemma connector_no_day_returns_None F V today products days rng :
  days <= 0 ->
  ApiConnector.simulate_inventory_activity F V today products days rng
    = None.
Proof.
  intros Hd. unfold ApiConnector.simulate_inventory_activity,
    ApiConnector.simulate_records, bind, range.
  destruct (datetime_sub today days rng) as [[simulation_start r]|];
    [|reflexivity].
  replace (Z.to_nat days) with O by lia. reflexivity.
Qed.

(** ** Totality of [api_connector.py] on a usable configuration *)

Lemma total_ret {A} (a : A) : total (ret a).
Proof. intros r. now exists a, r. Qed.

Lemma total_bind {A B} (c : M A) (k : A -> M B) :
  total c -> (forall a, total (k a)) -> total (bind c k).
Proof.
  intros Hc Hk r. destruct (Hc r) as (a & r1 & E).
  destruct (Hk a r1) as (b & r2 & E2).
  exists b, r2. unfold bind. now rewrite E.
Qed.

Lemma total_randint a b : total (randint a b).
Proof. intros r. unfold randint, rng_next. eexists; eexists; reflexivity. Qed.

Lemma total_uniform a b : total (uniform a b).
Proof.
  intros r. unfold uniform, bind, random, rng_next, ret.
  eexists; eexists; reflexivity.
Qed.

Lemma total_py_mod x y : y <> 0 -> total (py_mod x y).
Proof.
  intros Hy r. unfold py_mod. destruct (Z.eqb_spec y 0); [contradiction|].
  apply total_ret.
Qed.

Lemma total_py_truediv x y : ~ (y == 0)%Q -> total (py_truediv x y).
Proof.
  intros Hy r. unfold py_truediv.
  destruct (Qeq_bool y 0) eqn:E; [apply Qeq_bool_iff in E; contradiction|].
  apply total_ret.
Qed.

Lemma total_for_each {A S} (xs : list A) (body : A -> S -> M S) :
  (forall x s, In x xs -> total (body x s)) ->
  forall s, total (for_each xs body s).
Proof.
  induction xs as [|x xs IH]; intros Hbody s; simpl.
  - apply total_ret.
  - apply total_bind; [apply Hbody; now left|].
    intros s1. apply IH. intros y t Hy. apply Hbody. now right.
Qed.

Create HintDb sim_total.
#[local] Hint Resolve total_ret total_randint total_uniform : sim_total.

Lemma simulate_item_total F V day item recs :
  F <> 0 -> ~ (p_price item == 0)%Q ->
  total (ApiConnector.simulate_item F V day item recs).
Proof.
  intros HF Hp. unfold ApiConnector.simulate_item.
  apply total_bind; [auto with sim_total|]. intros base.
  apply total_bind; [auto with sim_total|]. intros noise.
  apply total_bind.
  { destruct (day =? 0); [auto with sim_total|].
    destruct (ApiConnector.prev_entry recs item day); auto with sim_total. }
  intros stock_today.
  apply total_bind; [now apply total_py_mod|]. intros m.
  apply total_bind.
  { destruct (m =? 0); [|auto with sim_total].
    apply total_bind; auto with sim_total. }
  intros [[current_stock restock_qty] was_restocked].
  apply total_bind; [auto with sim_total|]. intros u.
  apply total_bind; [now apply total_py_truediv|]. intros change.
  auto with sim_total.
Qed.

(** The number of elements after a loop whose every iteration appends one. *)
Lemma for_each_length {A R} (xs : list A) (body : A -> list R -> M (list R))
    (k : nat) :
  (forall x s r s' r',
      body x s r = Some (s', r') -> List.length s' = (List.length s + k)%nat) ->
  forall s r s' r',
    for_each xs body s r = Some (s', r') ->
    List.length s' = (List.length s + List.length xs * k)%nat.
Proof.
  intros Hbody. induction xs as [|x xs IH]; intros s r s' r' H; simpl in H.
  - apply ret_Some in H as [-> _]. simpl. lia.
  - apply bind_Some in H as (s1 & r1 & H1 & H2).
    apply Hbody in H1. apply IH in H2. simpl. lia.
Qed.

Lemma range_length n : List.length (range n) = Z.to_nat n.
Proof. unfold range. now rewrite length_map, length_seq. Qed.

(** With a non-zero restocking frequency, non-zero prices, at least one
    product and at least one day, the simulation returns a frame, and the
    frame has one row per product and day. *)
Lemma datetime_sub_total today n :
  1 <= today - n <= MAXORDINAL -> total (datetime_sub today n).
Proof.
  intros [H1 H2] r. unfold datetime_sub.
  apply Z.leb_le in H1, H2. rewrite H1, H2. apply total_ret.
Qed.

(** With a non-zero restocking frequency, non-zero prices, at least one
    product, at least one day and a start date that the calendar has, the
    simulation returns a frame, and the frame has one row per product and
    day. *)
Lemma connector_returns_frame F V today products days rng :
  F <> 0 ->
  (forall item, In item products -> ~ (p_price item == 0)%Q) ->
  products <> [] -> 0 < days ->
  1 <= today - days <= MAXORDINAL ->
  exists df,
    ApiConnector.simulate_inventory_activity F V today products days rng
    = Some df /\
    Z.of_nat (List.length (rows df)) = Z.of_nat (List.length products) * days.
Proof.
  intros HF Hprice Hne Hdays Htoday.
  unfold ApiConnector.simulate_inventory_activity.
  assert (Htotal :
    total (ApiConnector.simulate_records F V today products days)).
  { unfold ApiConnector.simulate_records.
    apply total_bind; [now apply datetime_sub_total|]. intros _.
    apply total_for_each. intros day s _.
    apply total_for_each. intros item t Hitem.
    apply simulate_item_total; auto. }
  destruct (Htotal rng) as (recs & r' & E). rewrite E.
  assert (Hlen : List.length recs
                 = (Z.to_nat days * List.length products)%nat).
  { unfold ApiConnector.simulate_records in E.
    step E as simulation_start r0 Hstart.
    apply for_each_length with (k := List.length products) in E.
    - rewrite range_length in E. exact E.
    - intros day s r s' q H. unfold ApiConnector.simulate_day in H.
      apply for_each_length with (k := 1%nat) in H; [lia|].
      intros item t q1 t' q2 Ht.
      apply simulate_item_appends in Ht as (rec & -> & _).
      rewrite length_app. reflexivity. }
  assert (Hrecs : recs <> []).
  { intros ->. simpl in Hlen. destruct products; [congruence|].
    simpl in Hlen. lia. }
  destruct (append_metrics_of_records recs Hrecs) as (df & Edf).
  exists df. split; [exact Edf|].
  apply append_metrics_rows in Edf. rewrite Edf, length_map. simpl.
  rewrite Hlen. lia.
Qed.

(** ** [api_ingestor.py]: the sibling does what the specification says *)

Section IngestorRecords.

Variable F : Z.                 (* RESTOCKING_FREQUENCY *)
Variable V : Q.                 (* DEMAND_VARIABILITY *)
Variable start_weekday : Z.
Variable trend_step : Z -> Q.

Lemma ingestor_item_day_appends days item day b recs r b' recs' r' :
  ApiIngestor.simulate_item_day F V start_weekday trend_step days item day
    (b, recs) r = Some ((b', recs'), r') ->
  b' = (b * trend_step days)%Q /\
  exists rec,
    recs' = recs ++ [rec] /\ ingestor_record F V start_weekday b day item rec.
Proof.
  unfold ApiIngestor.simulate_item_day. intros H.
  step H as noise r1 Hnoise.
  step H as stock r2 Hstock.
  step H as triple r3 Hrestock.
  destruct triple as [[stock_level restock_qty] was_restocked].
  step H as u r4 Hu.
  step H as change r5 Hchange.
  apply ret_Some in H as [E _]. inversion E; subst; clear E.
  apply uniform_Some in Hnoise as (w & Hw & ->).
  split; [reflexivity|]. eexists. split; [reflexivity|].
  unfold ingestor_record; simpl. repeat split.
  - exists w. split; [exact Hw|reflexivity].
  - lia.
  - destruct (Z.ltb_spec 0 day) as [Hpos|Hpos].
    + step Hrestock as m r6 Hm. apply py_mod_Some in Hm as [_ ->].
      destruct (Z.eqb_spec (day mod F) 0) as [Hz|Hz].
      * left. step Hrestock as qty r7 Hqty.
        apply ret_Some in Hrestock as [E _]. inversion E; subst.
        apply randint_range in Hqty; [|lia]. tauto.
      * right. apply ret_Some in Hrestock as [E _]. inversion E; subst.
        tauto.
    + right. apply ret_Some in Hrestock as [E _]. inversion E; subst.
      split; [lia|tauto].
Qed.

Lemma ingestor_days_loop days item ds :
  forall b recs r b' recs' r',
    for_each ds
      (ApiIngestor.simulate_item_day F V start_weekday trend_step days item)
      (b, recs) r = Some ((b', recs'), r') ->
    exists news,
      recs' = recs ++ news /\
      ingestor_series F V start_weekday trend_step days item b ds news.
Proof.
  induction ds as [|d ds IH]; intros b recs r b' recs' r' H; simpl in H.
  - apply ret_Some in H as [E _]. inversion E; subst.
    exists []. split; [now rewrite app_nil_r|constructor].
  - apply bind_Some in H as ([b1 recs1] & r1 & H1 & H2).
    apply ingestor_item_day_appends in H1 as (-> & rec & -> & Hrec).
    apply IH in H2 as (news & -> & Hnews).
    exists (rec :: news). split; [now rewrite <- app_assoc|].
    now constructor.
Qed.

Lemma ingestor_product_appends days item recs r recs' r' :
  ApiIngestor.simulate_product F V start_weekday trend_step days item recs r
    = Some (recs', r') ->
  exists b0 news,
    (5 <= b0 /\ b0 < 20)%Q /\ recs' = recs ++ news /\
    ingestor_series F V start_weekday trend_step days item b0 (range days) news.
Proof.
  unfold ApiIngestor.simulate_product. intros H.
  step H as b0 r1 Hb0. step H as st r2 Hloop. destruct st as [b' recs1].
  apply ret_Some in H as [-> _]. simpl.
  apply uniform_Some in Hb0 as (u & [Hu0 Hu1] & ->).
  apply ingestor_days_loop in Hloop as (news & -> & Hnews).
  eexists. exists news. split; [|split; [reflexivity|exact Hnews]].
  split; lra.
Qed.

Lemma ingestor_series_records days item b ds news :
  ingestor_series F V start_weekday trend_step days item b ds news ->
  Forall (fun rec => exists b' d,
              In d ds /\ ingestor_record F V start_weekday b' d item rec)
         news.
Proof.
  induction 1 as [|b d ds rec news Hrec _ IH]; constructor.
  - exists b, d. split; [now left|exact Hrec].
  - eapply Forall_impl; [|exact IH].
    intros rec' (b' & d' & Hin & H'). exists b', d'.
    split; [now right|exact H'].
Qed.

Lemma ingestor_loops_records products days r recs r' :
  ApiIngestor.simulate_loops F V start_weekday trend_step products days r
    = Some (recs, r') ->
  Forall (fun rec => exists b day item,
              0 <= day < days /\ In item products /\
              ingestor_record F V start_weekday b day item rec) recs.
Proof.
  unfold ApiIngestor.simulate_loops.
  apply for_each_invariant; [|constructor].
  intros item s q s' q' Hitem Hs Hp.
  apply ingestor_product_appends in Hp as (b0 & news & _ & -> & Hnews).
  apply Forall_app. split; [exact Hs|].
  apply ingestor_series_records in Hnews.
  eapply Forall_impl; [|exact Hnews].
  intros rec' (b' & d & Hd & Hrec). apply in_range in Hd.
  now exists b', d, item.
Qed.

Lemma py_int_nonneg x :
  (0 <= x)%Q -> py_int x = Z.max 0 (Qfloor x).
Proof.
  destruct x as [n d]. unfold Qle, py_int, Qfloor; simpl. intros Hn.
  rewrite Z.mul_1_r in Hn.
  rewrite Z.quot_div_nonneg by lia.
  pose proof (Z.div_pos n (Zpos d) Hn eq_refl). lia.
Qed.

Lemma seasonal_factor_pos day :
  (0 < ApiIngestor.seasonal_factor start_weekday day)%Q.
Proof.
  unfold ApiIngestor.seasonal_factor.
  destruct (5 <=? ApiIngestor.weekday start_weekday day); reflexivity.
Qed.

Lemma ingestor_series_demands days item b ds news :
  (0 <= V /\ V <= 1)%Q -> (0 < trend_step days)%Q -> (0 < b)%Q ->
  ingestor_series F V start_weekday trend_step days item b ds news ->
  exists noise,
    List.length noise = List.length ds /\
    Forall (fun n => 1 - V <= n /\ n <= 1 + V)%Q noise /\
    map daily_demand news
    = spec_demand_series (trend_step days)
        (ApiIngestor.seasonal_factor start_weekday) b ds noise.
Proof.
  intros [HV0 HV1] Hstep Hb Hs. induction Hs as [|b d ds rec news Hrec _ IH].
  - exists []. repeat split. constructor.
  - destruct IH as (noise & Hlen & Hnoise & Hdem).
    { apply Qmult_lt_0_compat; assumption. }
    destruct Hrec as (_ & _ & (u & [Hu0 Hu1] & Hd) & _).
    set (n := (1 - V + (1 + V - (1 - V)) * u)%Q) in *.
    assert (Hn : (1 - V <= n /\ n <= 1 + V)%Q).
    { unfold n. split; nra. }
    exists (n :: noise). split; [simpl; now rewrite Hlen|].
    split; [now constructor|]. simpl. rewrite Hd, Hdem. f_equal.
    apply py_int_nonneg.
    pose proof (seasonal_factor_pos d).
    apply Qmult_le_0_compat; [apply Qmult_le_0_compat|]; lra.
Qed.

(** The demand series of the specification is what the sibling computes for
    each product, for a variability between zero and one and a positive
    daily trend step. *)
Lemma ingestor_demand_follows_spec days item recs r recs' r' :
  (0 <= V /\ V <= 1)%Q -> (0 < trend_step days)%Q ->
  ApiIngestor.simulate_product F V start_weekday trend_step days item recs r
    = Some (recs', r') ->
  exists base_demand noise news,
    (5 <= base_demand /\ base_demand < 20)%Q /\
    List.length noise = List.length (range days) /\
    Forall (fun n => 1 - V <= n /\ n <= 1 + V)%Q noise /\
    recs' = recs ++ news /\
    map daily_demand news
    = spec_demand_series (trend_step days)
        (ApiIngestor.seasonal_factor start_weekday) base_demand
        (range days) noise.
Proof.
  intros HV Hstep H.
  apply ingestor_product_appends in H as (b0 & news & Hb0 & -> & Hs).
  apply ingestor_series_demands in Hs as (noise & Hlen & Hnoise & Hdem);
    [|assumption|assumption|lra].
  exists b0, noise, news. repeat split; tauto.
Qed.

End IngestorRecords.

Section IngestorRuns.

Variable F : Z.                 (* RESTOCKING_FREQUENCY *)
Variable V : Q.                 (* DEMAND_VARIABILITY *)
Variable today : Z.
Variable trend_step : Z -> Q.

Lemma ingestor_rows products days rng df r :
  ApiIngestor.simulate_inventory_activity F V today trend_step
    products days rng = Some df ->
  In r (rows df) ->
  exists rec b day item,
    r = enrich rec /\ 0 <= day < days /\ In item products /\
    ingestor_record F V (ApiIngestor.weekday_of (today - days)) b day item rec.
Proof.
  unfold ApiIngestor.simulate_inventory_activity.
  destruct (ApiIngestor.simulate_records F V today trend_step
              products days rng) as [[recs r']|] eqn:E; [|discriminate].
  intros H Hin. apply append_metrics_rows in H. rewrite H in Hin. simpl in Hin.
  apply in_map_iff in Hin as (rec & <- & Hin).
  unfold ApiIngestor.simulate_records in E.
  step E as simulation_start r0 Hstart.
  assert (simulation_start = today - days) as ->.
  { unfold datetime_sub in Hstart.
    destruct ((1 <=? today - days) && (today - days <=? MAXORDINAL));
      [|discriminate].
    now apply ret_Some in Hstart as [-> _]. }
  apply ingestor_loops_records in E. rewrite Forall_forall in E.
  destruct (E rec Hin) as (b & day & item & ?). now exists rec, b, day, item.
Qed.

(** X24.  The restocking rule of [api_ingestor.py]: the flag and the amount
    agree, a restock happens only on a day after day 0 that
    [RESTOCKING_FREQUENCY] divides, and day 0 never restocks. *)
Lemma ingestor_restock_consistency products days rng df r :
  ApiIngestor.simulate_inventory_activity F V today trend_step
    products days rng = Some df ->
  In r (rows df) ->
  (restocked (source r) = true <-> 0 < restock_amount (source r)) /\
  (0 < restock_amount (source r) ->
     date (source r) mod F = 0 /\ 0 < date (source r)) /\
  (date (source r) = 0 ->
     restocked (source r) = false /\ restock_amount (source r) = 0).
Proof.
  intros H Hin.
  destruct (ingestor_rows _ _ _ _ _ H Hin)
    as (rec & b & day & item & -> & _ & _ & Hrec).
  destruct Hrec as (Hdate & _ & _ & _ & Hrestock).
  rewrite enrich_source, Hdate.
  destruct Hrestock as [(Hpos & Hm & -> & Hq)|(Hno & -> & ->)].
  - repeat split; intros; try lia; try congruence.
  - repeat split; intros; try lia; try congruence.
Qed.

(** The sibling has the same last two statements, hence the same result on
    an empty catalogue. *)
Lemma ingestor_empty_catalog_returns_None days rng :
  ApiIngestor.simulate_inventory_activity F V today trend_step
    [] days rng = None.
Proof.
  unfold ApiIngestor.simulate_inventory_activity,
    ApiIngestor.simulate_records, bind.
  destruct (datetime_sub today days rng) as [[simulation_start r]|];
    reflexivity.
Qed.

(** The stock of the sibling's records is clamped as well, so the enriched
    fill rate stays between zero and one there too. *)
Lemma ingestor_stock_and_fill_rate products days rng df r :
  ApiIngestor.simulate_inventory_activity F V today trend_step
    products days rng = Some df ->
  In r (rows df) ->
  0 <= stock_level (source r) /\
  (0 <= fill_rate r /\ fill_rate r <= 1)%Q.
Proof.
  intros H Hin.
  destruct (ingestor_rows _ _ _ _ _ H Hin)
    as (rec & b & day & item & -> & _ & _ & Hrec).
  destruct Hrec as (_ & _ & _ & Hs & _).
  rewrite enrich_source. split; [exact Hs|].
  now apply enrich_fill_rate_bounds.
Qed.

End IngestorRuns.

(** ** The demand of [api_connector.py] *)

(** Every record of [api_connector.py] has a base demand of its own, drawn
    from 1..10 when the record is built. *)
Lemma connector_demand_per_record F V today products days rng df r :
  ApiConnector.simulate_inventory_activity F V today products days rng
    = Some df ->
  In r (rows df) ->
  exists base_demand u,
    1 <= base_demand <= 10 /\ (0 <= u /\ u < 1)%Q /\
    daily_demand (source r)
    = Z.max 0 (py_int (inject_Z base_demand
                       * (1 - V + (1 + V - (1 - V)) * u))).
Proof.
  intros H Hin.
  destruct (connector_rows _ _ _ _ _ _ _ _ H Hin)
    as (rec & day & item & -> & _ & _ & Hrec).
  destruct Hrec as (_ & _ & _ & Hd & _). exact Hd.
Qed.

Lemma floor_at_least z x : z <= Qfloor x -> (inject_Z z <= x)%Q.
Proof.
  intros H. eapply Qle_trans; [|apply Qfloor_le]. now rewrite <- Zle_Qle.
Qed.

Lemma floor_at_most z x : Qfloor x <= z -> (x < inject_Z (z + 1))%Q.
Proof.
  intros H. eapply Qlt_le_trans; [apply Qlt_floor|].
  rewrite <- Zle_Qle. lia.
Qed.

(** C2, evaluated on the code.  Without any variability, one product
    simulated for two days by [api_connector.py] has the demands 10 and 1,
    because the base demand is drawn again on day 1.  No series of the
    specification looks like that: with one base demand, a trend step of at
    least one and seasonal factors between 0.9 and 1.2, a first demand of 10
    is followed by a demand of at least 7. *)
Theorem connector_base_demand_resampled :
  option_map (fun df => map (fun r => daily_demand (source r)) (rows df))
    (ApiConnector.simulate_inventory_activity 7 0 today_D [mouse] 2 tape_C)
  = Some [10; 1]
  /\
  forall trend_step seasonal base_demand n0 n1,
    (1 <= trend_step)%Q ->
    (forall d, 9 # 10 <= seasonal d /\ seasonal d <= 12 # 10)%Q ->
    (n0 == 1)%Q -> (n1 == 1)%Q ->
    spec_demand_series trend_step seasonal base_demand [0; 1] [n0; n1]
    <> [10; 1].
Proof.
  split; [vm_compute; reflexivity|].
  intros g s b n0 n1 Hg Hs Hn0 Hn1 E.
  pose proof (f_equal (fun l => nth 0 l 0) E) as E0.
  pose proof (f_equal (fun l => nth 1 l 0) E) as E1.
  cbn [nth spec_demand_series] in E0, E1. clear E.
  destruct (Hs 0) as [Ha Hb]. destruct (Hs 1) as [Hc Hd].
  set (s0 := s 0) in *. set (s1 := s 1) in *.
  assert (H0 : (inject_Z 10 <= b * s0 * n0)%Q) by (apply floor_at_least; lia).
  assert (H1 : (b * g * s1 * n1 < inject_Z (1 + 1))%Q)
    by (apply floor_at_most; lia).
  rewrite Hn0 in H0. rewrite Hn1 in H1.
  change (inject_Z 10) with 10%Q in H0.
  change (inject_Z (1 + 1)) with 2%Q in H1.
  assert (Hb8 : (8 <= b)%Q).
  { assert (0 < b)%Q by nra. nra. }
  assert (H5 : (0 <= (b * s1) * (g - 1))%Q).
  { apply Qmult_le_0_compat; [|lra]. nra. }
  assert (H6 : (7 <= b * s1)%Q) by nra.
  lra.
Qed.

(** ** Column assignment *)

Lemma lookup_assign_other cs l v c :
  c <> l -> lookup_col (assign_col cs l v) c = lookup_col cs c.
Proof.
  intros Hc. induction cs as [|[l' w] cs IH]; simpl.
  - destruct (String.eqb_spec l c); [congruence|reflexivity].
  - destruct (String.eqb_spec l' l) as [->|Hl]; simpl.
    + destruct (String.eqb_spec l c); [congruence|reflexivity].
    + destruct (String.eqb_spec l' c); [reflexivity|exact IH].
Qed.

Lemma lookup_assign_same cs l v : lookup_col (assign_col cs l v) l = Some v.
Proof.
  induction cs as [|[l' w] cs IH]; simpl.
  - now rewrite String.eqb_refl.
  - destruct (String.eqb_spec l' l) as [->|Hl]; simpl.
    + now rewrite String.eqb_refl.
    + destruct (String.eqb_spec l' l); [contradiction|exact IH].
Qed.

Lemma get_set_other df l v c :
  c <> l -> get_col (set_col df l v) c = get_col df c.
Proof.
  intros H. unfold get_col, set_col; simpl. now apply lookup_assign_other.
Qed.

(** ** Lead-time grading *)


Section Grading.

Variable excellent good : Q.
Hypothesis bins : bins_ok excellent good = true.

Lemma bins_increasing : (0 < excellent /\ excellent < good)%Q.
Proof.
  unfold bins_ok in bins. apply andb_true_iff in bins as [H1 H2].
  apply negb_true_iff in H1, H2. split; apply Qnot_le_lt; intros H.
  - apply Qle_bool_iff in H. congruence.
  - apply Qle_bool_iff in H. congruence.
Qed.

Lemma Qle_bool_false x y : (y < x)%Q -> Qle_bool x y = false.
Proof.
  intros H. destruct (Qle_bool x y) eqn:E; [|reflexivity].
  apply Qle_bool_iff in E. exfalso. eapply Qlt_not_le; eassumption.
Qed.

Lemma Qle_bool_true x y : (x <= y)%Q -> Qle_bool x y = true.
Proof. apply Qle_bool_iff. Qed.

(** A positive lead time gets the grade of its band. *)
Lemma cut_positive x :
  ((0 < x /\ x <= excellent ->
      cut excellent good (Some x) = Some Excellent) /\
   (excellent < x /\ x <= good -> cut excellent good (Some x) = Some Good) /\
   (good < x -> cut excellent good (Some x) = Some Poor))%Q.
Proof.
  destruct bins_increasing as [He Hg]. unfold cut. repeat split.
  - intros [H0 H1]. rewrite (Qle_bool_false x 0 H0).
    now rewrite (Qle_bool_true x excellent H1).
  - intros [H0 H1]. rewrite (Qle_bool_false x 0) by lra.
    rewrite (Qle_bool_false x excellent H0).
    now rewrite (Qle_bool_true x good H1).
  - intros H0. rewrite (Qle_bool_false x 0) by lra.
    rewrite (Qle_bool_false x excellent) by lra.
    now rewrite (Qle_bool_false x good H0).
Qed.

End Grading.

(** A lead time of zero or less, and a missing one, fall outside every bin,
    whatever the thresholds. *)
Lemma cut_ungraded excellent good x :
  (x <= 0)%Q -> cut excellent good (Some x) = None.
Proof. intros H. unfold cut. now rewrite (Qle_bool_true x 0 H). Qed.



(** What [compute_lead_time_stats] computes on a numeric lead-time column
    with increasing thresholds: the grade column is [cut] applied cell by
    cell, and the three ratios are the shares among the graded cells. *)
Lemma lead_time_stats_grades excellent good df column xs :
  get_col df "Lead Time (Days)" = Some column ->
  numeric_column column = Some xs ->
  bins_ok excellent good = true ->
  exists stats,
    fst (compute_lead_time_stats excellent good df) = Some stats /\
    get_col (snd (compute_lead_time_stats excellent good df)) "lead_time_grade"
    = Some (map grade_cell (map (cut excellent good) xs)) /\
    excellent_ratio stats
    = proportion Excellent (map (cut excellent good) xs) /\
    good_ratio stats = proportion Good (map (cut excellent good) xs) /\
    poor_ratio stats = proportion Poor (map (cut excellent good) xs).
Proof.
  intros Hcol Hnum Hbins. unfold compute_lead_time_stats.
  rewrite Hcol, Hnum, Hbins. cbn [fst snd]. eexists. split; [reflexivity|].
  split; [|repeat split].
  unfold get_col, set_col. cbn [cols]. apply lookup_assign_same.
Qed.

(** C4, evaluated on the code.  An order with a lead time of zero days is
    left without a grade, whatever the thresholds, because the first bin of
    [pd.cut] is open on the left; it is not counted in any share.  In
    [orders_D] the only graded order is the second one. *)
Theorem lead_time_zero_is_not_graded :
  (forall excellent good, cut excellent good (Some (inject_Z 0)) = None) /\
  get_col (snd (compute_lead_time_stats 3 7 orders_D)) "lead_time_grade"
  = Some [Null; Cat Excellent] /\
  option_map (fun s => (excellent_ratio s, good_ratio s, poor_ratio s))
    (fst (compute_lead_time_stats 3 7 orders_D))
  = Some (Fin (1 # 1), Fin (0 # 1), Fin (0 # 1)).
Proof.
  split; [|split].
  - intros e g. apply cut_ungraded. discriminate.
  - reflexivity.
  - reflexivity.
Qed.

(** ** What the aggregations write into the order frame *)

(** The footprint of [compute_lead_time_stats]. *)
Lemma lead_time_stats_footprint excellent good df c :
  c <> "lead_time_grade"%string ->
  get_col (snd (compute_lead_time_stats excellent good df)) c = get_col df c
  /\ index_len (snd (compute_lead_time_stats excellent good df))
     = index_len df.
Proof.
  intros Hc. unfold compute_lead_time_stats.
  destruct (get_col df "Lead Time (Days)") as [column|]; [|now split].
  destruct (numeric_column column) as [xs|]; [|now split].
  destruct (bins_ok excellent good); [|now split].
  cbn [snd]. split; [now apply get_set_other|reflexivity].
Qed.

(** C5, as the code has it.  [compute_lead_time_stats] assigns the column
    ['lead_time_grade'] of the caller's order frame, and [compute_cycle_time]
    assigns ['Delivery Date'] and ['Cycle Time (Days)'] (or, without a
    ['Ship Date'], ['lead_time_grade'] through the fallback).  Every other
    column and the number of rows are the same after the call as before. *)
Theorem aggregation_footprint excellent good df rng c :
  c <> "lead_time_grade"%string ->
  c <> "Delivery Date"%string ->
  c <> "Cycle Time (Days)"%string ->
  (get_col (snd (compute_lead_time_stats excellent good df)) c = get_col df c
   /\ index_len (snd (compute_lead_time_stats excellent good df))
      = index_len df)
  /\
  (get_col (snd (compute_cycle_time excellent good df rng)) c = get_col df c
   /\ index_len (snd (compute_cycle_time excellent good df rng))
      = index_len df).
Proof.
  intros Hg Hd Hc. split; [now apply lead_time_stats_footprint|].
  unfold compute_cycle_time.
  destruct (get_col df "Ship Date") as [ship|].
  - destruct (np_randint 2 6 (index_len df) rng) as [days_delta r'].
    destruct (add_timedelta ship days_delta) as [delivery|]; [|now split].
    destruct (get_col (set_col df "Delivery Date" delivery) "Order Date")
      as [order|].
    + destruct (days_between delivery order) as [cycle|]; cbn [snd].
      * split; [|reflexivity]. rewrite !get_set_other; auto.
      * split; [|reflexivity]. now apply get_set_other.
    + cbn [snd]. split; [|reflexivity]. now apply get_set_other.
  - pose proof (lead_time_stats_footprint excellent good df c Hg) as H.
    destruct (compute_lead_time_stats excellent good df) as [stats df1].
    exact H.
Qed.

Lemma aggregation_footprint_witness :
  get_col (snd (compute_lead_time_stats 3 7 orders_D)) "Order ID"
  = Some [Str "CA-1"; Str "CA-2"]
  /\ get_col (snd (compute_cycle_time 3 7 orders_D (tape_of []))) "Order ID"
     = Some [Str "CA-1"; Str "CA-2"].
Proof.
  destruct (aggregation_footprint 3 7 orders_D (tape_of []) "Order ID"
              ltac:(discriminate) ltac:(discriminate) ltac:(discriminate))
    as [[H1 _] [H2 _]].
  split; [rewrite H1|rewrite H2]; reflexivity.
Defined.

(** The claim as stated fails: after [compute_lead_time_stats] has run on
    [orders_D], the frame has a column that it did not have before. *)
Lemma compute_lead_time_stats_changes_its_input :
  get_col orders_D "lead_time_grade" = None /\
  get_col (snd (compute_lead_time_stats 3 7 orders_D)) "lead_time_grade"
  = Some [Null; Cat Excellent] /\
  snd (compute_lead_time_stats 3 7 orders_D) <> orders_D.
Proof. repeat split; try reflexivity. discriminate. Qed.

(** ** Return metrics *)

(** C8.  Given an order frame, [compute_return_metrics] returns a
    dictionary.  Its rate is the number of returns over the number of orders;
    it is zero when there is no order; and when the returns are absent or
    empty, the total and the rate are zero. *)
Theorem return_metrics_rate (orders : Frame) (returns : option Frame) :
  exists stats,
    compute_return_metrics (Some orders) returns = Some stats /\
    order_total stats = len orders /\
    (len orders = 0 -> return_ratio stats = 0%Q) /\
    (forall r, returns = Some r -> empty r = false -> 0 < len orders ->
       return_total stats = len r /\
       return_ratio stats = Qdiv_Z (len r) (len orders)) /\
    (returns = None \/ (exists r, returns = Some r /\ empty r = true) ->
       return_total stats = 0 /\ return_ratio stats = 0%Q).
Proof.
  unfold compute_return_metrics. simpl py_len.
  destruct returns as [r|]; [destruct (empty r) eqn:E|]; cbn [negb];
    (eexists; split; [reflexivity|]);
    cbn [order_total return_total return_ratio];
    (split; [reflexivity|split; [|split]]).
  - reflexivity.
  - intros r' Hr. inversion Hr; subst. congruence.
  - auto.
  - intros ->. reflexivity.
  - intros r' Hr _ Hpos. inversion Hr; subst.
    apply Z.ltb_lt in Hpos. now rewrite Hpos.
  - intros [H|(r' & H & H')]; [discriminate|].
    inversion H; subst. congruence.
  - reflexivity.
  - intros r Hr. discriminate.
  - auto.
Qed.

(** Without an order frame [len(df_orders)] raises and the handler returns
    [None]. *)
Lemma return_metrics_without_orders returns :
  compute_return_metrics None returns = None.
Proof.
  unfold compute_return_metrics. destruct returns as [r|]; [|reflexivity].
  destruct (empty r); reflexivity.
Qed.

(** ** Fill-rate grading *)

Lemma count_true_le {A} (f h : A -> bool) (l : list A) :
  (forall x, f x = true -> h x = true) ->
  (List.length (filter (fun b : bool => b) (map f l))
   <= List.length (filter (fun b : bool => b) (map h l)))%nat.
Proof.
  intros Hfh. induction l as [|x l IH]; simpl; [lia|].
  destruct (f x) eqn:Ef.
  - rewrite (Hfh x Ef). simpl. lia.
  - destruct (h x); simpl; lia.
Qed.

Lemma bool_mean_le {A} (f h : A -> bool) (l : list A) :
  l <> [] ->
  (forall x, f x = true -> h x = true) ->
  pyfloat_le (bool_mean (map f l)) (bool_mean (map h l)).
Proof.
  intros Hl Hfh. pose proof (count_true_le f h l Hfh) as Hc.
  destruct l as [|x l]; [congruence|].
  unfold bool_mean. cbn [map]. cbv beta iota. unfold pyfloat_le.
  rewrite <- !map_cons. unfold Qlen. rewrite !length_map.
  unfold Qdiv. apply Qmult_le_compat_r.
  - rewrite <- Zle_Qle. lia.
  - apply Qinv_le_0_compat. change 0%Q with (inject_Z 0).
    rewrite <- Zle_Qle. lia.
Qed.

Lemma insert_key_not_nil k ks : insert_key k ks <> [].
Proof.
  destruct ks as [|k' ks]; simpl; [discriminate|].
  destruct (k <? k'); [discriminate|]. destruct (k =? k'); discriminate.
Qed.

Lemma group_keys_not_nil inv : inv <> [] -> group_keys inv <> [].
Proof.
  destruct inv as [|r inv]; [congruence|]. intros _.
  unfold group_keys. simpl. apply insert_key_not_nil.
Qed.

(** C10, as the code has it.  With an excellent threshold at least as high
    as the good one, and at least one inventory record, the share of
    excellent products is at most the share of good products: a product
    counted as excellent is counted as good too. *)
Theorem fill_rate_grades_are_cumulative
    FR_excellent FR_good FR_poor df_inventory stats :
  (FR_good <= FR_excellent)%Q ->
  rows df_inventory <> [] ->
  compute_fill_rate_stats FR_excellent FR_good FR_poor df_inventory
  = Some stats ->
  pyfloat_le (excellent_rate_ratio stats) (good_rate_ratio stats).
Proof.
  intros Hthr Hrows. unfold compute_fill_rate_stats.
  destruct (has_column df_inventory "product_id"
            && has_column df_inventory "fill_rate"
            && has_column df_inventory "stockout_risk"); [|discriminate].
  intros H. inversion H; subst; clear H.
  cbn [excellent_rate_ratio good_rate_ratio].
  apply bool_mean_le.
  - rewrite map_map. intros E. apply map_eq_nil in E.
    now apply group_keys_not_nil in Hrows.
  - intros f Hf. apply Qle_bool_iff in Hf. apply Qle_bool_iff.
    eapply Qle_trans; eassumption.
Qed.

Lemma fill_rate_grades_are_cumulative_witness :
  exists stats,
    compute_fill_rate_stats (95 # 100) (90 # 100) (80 # 100) run_B
    = Some stats /\
    pyfloat_le (excellent_rate_ratio stats) (good_rate_ratio stats).
Proof.
  destruct (compute_fill_rate_stats (95 # 100) (90 # 100) (80 # 100) run_B)
    as [stats|] eqn:E; [|discriminate E].
  exists stats. split; [reflexivity|].
  apply (fill_rate_grades_are_cumulative
           (95 # 100) (90 # 100) (80 # 100) run_B stats);
    [discriminate | discriminate | exact E].
Defined.

(** The claim as stated fails on an inventory without rows: there is no
    product, both shares are 0/0, and [nan <= nan] does not hold. *)
Lemma fill_rate_grades_of_no_inventory :
  option_map (fun s => (excellent_rate_ratio s, good_rate_ratio s))
    (compute_fill_rate_stats (95 # 100) (90 # 100) (80 # 100) no_inventory)
  = Some (NaN, NaN)
  /\ ~ pyfloat_le NaN NaN.
Proof. split; [reflexivity|]. intros H. exact H. Qed.

(** * Further properties of the code *)

(** ** Loops, once more *)

(** Every element of a loop that returns had its body return. *)
Lemma for_each_Some_each {A S} (xs : list A) (body : A -> S -> M S) :
  forall s r s' r',
    for_each xs body s r = Some (s', r') ->
    forall x, In x xs -> exists s1 r1 s2 r2, body x s1 r1 = Some (s2, r2).
Proof.
  induction xs as [|y xs IH]; intros s r s' r' H x Hx; [destruct Hx|].
  simpl in H. apply bind_Some in H as (s1 & r1 & H1 & H2).
  destruct Hx as [->|Hx].
  - now exists s, r, s1, r1.
  - eapply IH; eassumption.
Qed.

(** A loop whose body raises on some element raises. *)
Lemma for_each_None_at {A S} (xs : list A) (body : A -> S -> M S) x :
  In x xs -> (forall s r, body x s r = None) ->
  forall s r, for_each xs body s r = None.
Proof.
  intros Hx Hnone s r.
  destruct (for_each xs body s r) as [[s' r']|] eqn:E; [|reflexivity].
  destruct (for_each_Some_each xs body s r s' r' E x Hx)
    as (s1 & r1 & s2 & r2 & H).
  rewrite Hnone in H. discriminate.
Qed.

(** An invariant that may speak of the elements already visited. *)
Lemma for_each_prefix_invariant {A S} (I : list A -> S -> Prop) (xs : list A)
    (body : A -> S -> M S) :
  (forall pre x suf s r s' r',
      xs = pre ++ x :: suf -> I pre s -> body x s r = Some (s', r') ->
      I (pre ++ [x]) s') ->
  forall s r s' r', I [] s -> for_each xs body s r = Some (s', r') -> I xs s'.
Proof.
  intros Hstep.
  assert (Hgen : forall suf pre s r s' r',
             xs = pre ++ suf -> I pre s ->
             for_each suf body s r = Some (s', r') -> I xs s').
  { induction suf as [|x suf IH]; intros pre s r s' r' Hxs Hs H; simpl in H.
    - apply ret_Some in H as [-> _]. rewrite Hxs, app_nil_r. exact Hs.
    - apply bind_Some in H as (s1 & r1 & H1 & H2).
      apply (IH (pre ++ [x]) s1 r1 s' r');
        [|eapply Hstep; eassumption|exact H2].
      rewrite <- app_assoc. exact Hxs. }
  intros s r s' r' Hs H. eapply (Hgen xs []); [reflexivity|exact Hs|exact H].
Qed.

(** A loop whose every iteration appends elements appends their sequence. *)
Lemma for_each_appends {A R K} (key : R -> K) (h : A -> list K)
    (xs : list A) (body : A -> list R -> M (list R)) :
  (forall x s r s' r',
      In x xs -> body x s r = Some (s', r') ->
      exists new, s' = s ++ new /\ map key new = h x) ->
  forall s r s' r',
    for_each xs body s r = Some (s', r') ->
    exists new, s' = s ++ new /\ map key new = flat_map h xs.
Proof.
  induction xs as [|x xs IH]; intros Hbody s r s' r' H; simpl in H.
  - apply ret_Some in H as [-> _]. exists []. now rewrite app_nil_r.
  - apply bind_Some in H as (s1 & r1 & H1 & H2).
    apply Hbody in H1 as (new1 & -> & Hk1); [|now left].
    apply IH in H2 as (new2 & -> & Hk2).
    + exists (new1 ++ new2). split; [now rewrite app_assoc|].
      simpl. now rewrite map_app, Hk1, Hk2.
    + intros y t q t' q' Hy. apply Hbody. now right.
Qed.

Lemma range_split n pre x suf :
  range n = pre ++ x :: suf ->
  x = Z.of_nat (List.length pre) /\ pre = range x.
Proof.
  unfold range. generalize (Z.to_nat n) as k. intros k H.
  assert (Hseq : forall k start pre' x' suf',
             seq start k = pre' ++ x' :: suf' ->
             x' = (start + List.length pre')%nat /\
             pre' = seq start (List.length pre')).
  { clear. induction k as [|k IH]; intros start pre' x' suf' H.
    - destruct pre'; discriminate.
    - destruct pre' as [|p pre']; simpl in H; inversion H; subst.
      + split; [simpl; lia|reflexivity].
      + apply IH in H2 as [-> Hpre]. split; [simpl; lia|].
        simpl. now rewrite <- Hpre. }
  apply map_eq_app in H as (l1 & l2 & Hs & <- & H2).
  destruct l2 as [|y l2]; [discriminate|]. simpl in H2. inversion H2; subst.
  apply Hseq in Hs as [-> Hl1]. simpl. rewrite length_map.
  split; [reflexivity|].
  rewrite Nat2Z.id. now rewrite <- Hl1.
Qed.

(** ** [api_connector.py]: the remaining fields of a record *)

Section ConnectorDetails.

Variable F : Z.      (* RESTOCKING_FREQUENCY *)
Variable V : Q.      (* DEMAND_VARIABILITY *)

Lemma py_truediv_Some x y r q r' :
  py_truediv x y r = Some (q, r') -> ~ (y == 0)%Q /\ q = (x / y)%Q.
Proof.
  unfold py_truediv. destruct (Qeq_bool y 0) eqn:E; [discriminate|].
  intros H. apply ret_Some in H as [-> _]. split; [|reflexivity].
  intros Hy. apply Qeq_bool_iff in Hy. congruence.
Qed.

(** Where the stock of the day starts from, and the fields copied from the
    catalogue, in the record that one iteration appends. *)
Lemma simulate_item_detail day item recs r recs' r' :
  ApiConnector.simulate_item F V day item recs r = Some (recs', r') ->
  exists rec,
    recs' = recs ++ [rec] /\
    date rec = day /\ product_id rec = id item /\
    product_name rec = title item /\ category rec = p_category item /\
    original_price rec = p_price item /\ ~ (p_price item == 0)%Q /\
    (exists w, (0 <= w /\ w < 1)%Q /\
       price rec
       = (p_price item * ((95 # 100) + ((105 # 100) - (95 # 100)) * w))%Q /\
       price_change_pct rec
       = ((price rec - p_price item) / p_price item * 100)%Q) /\
    (exists stock_today,
       stock_level rec
       = Z.max 0 (stock_today - daily_demand rec + restock_amount rec) /\
       ((day = 0 /\ 50 <= stock_today <= 200) \/
        (day <> 0 /\
         match ApiConnector.prev_entry recs item day with
         | Some p => stock_today = stock_level p
         | None => 50 <= stock_today <= 200
         end))).
Proof.
  unfold ApiConnector.simulate_item. intros H.
  step H as base r1 Hbase.
  step H as noise r2 Hnoise.
  step H as stock_today r3 Hstock.
  step H as m r4 Hm.
  step H as triple r5 Hrestock.
  destruct triple as [[current_stock restock_qty] was_restocked].
  step H as u r6 Hu.
  step H as change r7 Hchange.
  apply ret_Some in H as [-> _].
  apply uniform_Some in Hu as (w & Hw & ->).
  apply py_truediv_Some in Hchange as [Hp ->].
  eexists. split; [reflexivity|]. cbn.
  do 6 (split; [first [reflexivity | assumption]|]).
  split.
  - exists w. repeat split; tauto.
  - exists stock_today. split.
    + destruct (m =? 0).
      * step Hrestock as qty r8 Hqty.
        apply ret_Some in Hrestock as [E _]. inversion E; subst. reflexivity.
      * apply ret_Some in Hrestock as [E _]. inversion E; subst.
        f_equal. lia.
    + destruct (Z.eqb_spec day 0) as [Hd|Hd].
      * left. split; [exact Hd|]. eapply randint_range; [|exact Hstock]. lia.
      * right. split; [exact Hd|].
        destruct (ApiConnector.prev_entry recs item day) as [p|].
        -- now apply ret_Some in Hstock as [-> _].
        -- eapply randint_range; [|exact Hstock]. lia.
Qed.

End ConnectorDetails.

Section ConnectorRuns.

Variable F : Z.      (* RESTOCKING_FREQUENCY *)
Variable V : Q.      (* DEMAND_VARIABILITY *)
Variable today : Z.

Lemma connector_frame_records products days rng df :
  ApiConnector.simulate_inventory_activity F V today products days rng
    = Some df ->
  exists recs r0 r',
    1 <= today - days <= MAXORDINAL /\
    for_each (range days) (ApiConnector.simulate_day F V products) [] r0
    = Some (recs, r') /\
    recs <> [] /\ rows df = map enrich recs.
Proof.
  unfold ApiConnector.simulate_inventory_activity.
  destruct (ApiConnector.simulate_records F V today products days rng)
    as [[recs r']|] eqn:E; [|discriminate].
  intros H. unfold ApiConnector.simulate_records in E.
  step E as simulation_start r0 Hstart.
  exists recs, r0, r'. split; [|split; [exact E|split]].
  - unfold datetime_sub in Hstart.
    destruct (Z.leb_spec 1 (today - days)); [|discriminate].
    destruct (Z.leb_spec (today - days) MAXORDINAL); [|discriminate]. lia.
  - intros ->. discriminate.
  - now apply append_metrics_rows in H.
Qed.

Lemma connector_loop_layout products days r0 recs r' :
  for_each (range days) (ApiConnector.simulate_day F V products) [] r0
  = Some (recs, r') ->
  map catalogue_fields recs
  = flat_map (fun day => map (catalogue_row day) products) (range days).
Proof.
  intros H.
  apply for_each_appends with
    (key := catalogue_fields)
    (h := fun day => map (catalogue_row day) products) in H.
  - destruct H as (new & -> & Hnew). exact Hnew.
  - intros day s r s' q _ Hday. unfold ApiConnector.simulate_day in Hday.
    apply for_each_appends with
      (key := catalogue_fields) (h := fun item => [catalogue_row day item])
      in Hday.
    + destruct Hday as (new & -> & Hnew). exists new. split; [reflexivity|].
      rewrite Hnew. clear. induction products as [|p ps IH]; simpl; congruence.
    + intros item t q1 t' q2 _ Hitem.
      apply simulate_item_detail in Hitem
        as (rec & -> & Hd & Hi & Hn & Hc & Ho & _).
      exists [rec]. split; [reflexivity|].
      unfold catalogue_fields, catalogue_row. simpl. congruence.
Qed.

End ConnectorRuns.

(** X1.  When [simulate_inventory_activity] of [api_connector.py] returns a
    frame, its rows come day by day, and within a day in the order of the
    catalogue; each row carries the identifier, the title, the category and
    the price of its product.  So the frame has one row per product and
    day. *)
Theorem connector_record_layout F V today products days rng df :
  ApiConnector.simulate_inventory_activity F V today products days rng
    = Some df ->
  map (fun r => catalogue_fields (source r)) (rows df)
  = flat_map (fun day => map (catalogue_row day) products) (range days).
Proof.
  intros H.
  apply connector_frame_records in H as (recs & r0 & r' & _ & E & _ & ->).
  rewrite map_map. simpl. now apply connector_loop_layout in E.
Qed.

Lemma connector_record_layout_witness :
  map (fun r => catalogue_fields (source r)) (rows run_B)
  = [(0, 1, "mouse", "electronics", 10%Q);
     (1, 1, "mouse", "electronics", 10%Q);
     (2, 1, "mouse", "electronics", 10%Q);
     (3, 1, "mouse", "electronics", 10%Q);
     (4, 1, "mouse", "electronics", 10%Q);
     (5, 1, "mouse", "electronics", 10%Q)]%string.
Proof.
  rewrite (connector_record_layout 7 1 today_D [mouse] 6 tape_B run_B
             ltac:(vm_compute; reflexivity)).
  reflexivity.
Defined.

(** X2.  [simulate_inventory_activity] of [api_connector.py] returns a frame
    exactly when the restocking frequency is not zero, no product has a zero
    price, there is at least one product and one day, and the start date is a
    date of the calendar; in every other case the handler returns [None]. *)
Theorem connector_returns_iff F V today products days rng :
  (exists df,
      ApiConnector.simulate_inventory_activity F V today products days rng
      = Some df)
  <->
  (F <> 0 /\
   (forall item, In item products -> ~ (p_price item == 0)%Q) /\
   products <> [] /\ 0 < days /\ 1 <= today - days <= MAXORDINAL).
Proof.
  split.
  - intros (df & H).
    apply connector_frame_records in H
      as (recs & r0 & r' & Hdate & E & Hne & _).
    assert (Hdays : 0 < days).
    { destruct (Z.ltb_spec 0 days) as [|Hd]; [assumption|]. exfalso.
      unfold range in E. replace (Z.to_nat days) with O in E by lia.
      simpl in E. apply ret_Some in E as [-> _]. now apply Hne. }
    assert (Hprod : products <> []).
    { intros ->. rewrite for_each_skip in E; [|reflexivity].
      inversion E; subst. now apply Hne. }
    assert (Hday0 : In 0 (range days)) by (apply in_range; lia).
    destruct (for_each_Some_each _ _ _ _ _ _ E 0 Hday0)
      as (s1 & r1 & s2 & r2 & E0).
    unfold ApiConnector.simulate_day in E0.
    assert (Hitems : forall item, In item products ->
              F <> 0 /\ ~ (p_price item == 0)%Q).
    { intros item Hitem.
      destruct (for_each_Some_each _ _ _ _ _ _ E0 item Hitem)
        as (t1 & q1 & t2 & q2 & Ei).
      split.
      - apply simulate_item_appends in Ei as (rec & _ & HF & _). exact HF.
      - apply simulate_item_detail in Ei
          as (rec & _ & _ & _ & _ & _ & _ & Hp & _).
        exact Hp. }
    repeat split; try assumption; try lia.
    + destruct products as [|p ps]; [congruence|].
      apply (Hitems p). now left.
    + intros item Hitem. now apply Hitems.
  - intros (HF & Hprice & Hne & Hdays & Hdate).
    destruct (connector_returns_frame F V today products days rng
                HF Hprice Hne Hdays Hdate) as (df & H & _).
    now exists df.
Qed.

(** X3.  In a frame returned by [simulate_inventory_activity] of
    [api_connector.py], the stock of a record after day 0 is the stock that
    a record of the same product had on the day before, less the demand of
    the day, plus the restock of the day, and not less than zero.  The stock
    is never sampled again after day 0. *)
Theorem connector_stock_recurrence F V today products days rng df r :
  ApiConnector.simulate_inventory_activity F V today products days rng
    = Some df ->
  In r (rows df) ->
  0 < date (source r) ->
  exists prev,
    In prev (rows df) /\
    product_id (source prev) = product_id (source r) /\
    date (source prev) = date (source r) - 1 /\
    stock_level (source r)
    = Z.max 0 (stock_level (source prev) - daily_demand (source r)
               + restock_amount (source r)).
Proof.
  intros H Hin Hpos.
  apply connector_frame_records in H as (recs & r0 & r' & _ & E & _ & Hrows).
  rewrite Hrows in *. apply in_map_iff in Hin as (rec & <- & Hin).
  rewrite enrich_source in *.
  set (covered := fun (ds : list Z) (s : list InventoryRecord) =>
         forall d item, In d ds -> In item products ->
           exists p, In p s /\ product_id p = id item /\ date p = d).
  set (chained := fun (s : list InventoryRecord) =>
         forall x, In x s -> 0 < date x ->
           exists p, In p s /\ product_id p = product_id x /\
             date p = date x - 1 /\
             stock_level x
             = Z.max 0 (stock_level p - daily_demand x + restock_amount x)).
  assert (Hinv : covered (range days) recs /\ chained recs).
  { revert E.
    apply (for_each_prefix_invariant
             (fun pre s => covered pre s /\ chained s)).
    - intros pre day suf s q s' q' Hsplit [Hcov Hch] Hday.
      apply range_split in Hsplit as [Hlen Hpre].
      unfold ApiConnector.simulate_day in Hday.
      assert (Hinner : (covered pre s' /\ chained s') /\
                       exists new, s' = s ++ new /\
                         map (fun x => (date x, product_id x)) new
                         = flat_map (fun item => [(day, id item)]) products).
      { split.
        - revert Hday. revert Hcov Hch. revert s q s' q'.
          intros s q s' q' Hcov Hch.
          apply (for_each_invariant (fun t => covered pre t /\ chained t));
            [|now split].
          intros item t q1 t' q2 Hitem [Hc1 Hc2] Hi.
          apply simulate_item_detail in Hi
            as (rec' & -> & Hd & Hi' & _ & _ & _ & _ & _ & st & Hst & Hsrc).
          split.
          + intros d it Hd' Hit. destruct (Hc1 d it Hd' Hit) as (p & Hp & ?).
            exists p. split; [apply in_or_app; now left|assumption].
          + intros x Hx Hxpos. apply in_app_or in Hx as [Hx|[<-|[]]].
            * destruct (Hc2 x Hx Hxpos) as (p & Hp & ?).
              exists p. split; [apply in_or_app; now left|assumption].
            * destruct Hsrc as [[Hz _]|[Hnz Hprev]]; [lia|].
              assert (Hdm : In (day - 1) pre).
              { rewrite Hpre. apply in_range. lia. }
              destruct (Hc1 (day - 1) item Hdm Hitem)
                as (p0 & Hp0 & Hid0 & Hd0).
              unfold ApiConnector.prev_entry in Hprev.
              destruct (find _ t) as [p|] eqn:Ef.
              -- apply find_some in Ef as [Hp Hpred].
                 apply andb_true_iff in Hpred as [Hpi Hpd].
                 apply Z.eqb_eq in Hpi, Hpd.
                 exists p. split; [apply in_or_app; now left|].
                 repeat split; congruence.
              -- exfalso. pose proof (find_none _ _ Ef p0 Hp0) as Hn.
                 simpl in Hn. rewrite Hid0, Hd0, !Z.eqb_refl in Hn.
                 discriminate.
        - apply for_each_appends with
            (key := fun x : InventoryRecord => (date x, product_id x))
            (h := fun item : Product => [(day, id item)]) in Hday;
            [exact Hday|].
          intros item t q1 t' q2 _ Hi.
          apply simulate_item_detail in Hi as (rec' & -> & Hd & Hi' & _).
          exists [rec']. split; [reflexivity|]. simpl. congruence. }
      destruct Hinner as [[Hcov' Hch'] (new & -> & Hnew)].
      split; [|exact Hch'].
      intros d item Hd Hitem. apply in_app_or in Hd as [Hd|[<-|[]]].
      + now apply Hcov'.
      + assert (Hk : In (day, id item)
                       (map (fun x => (date x, product_id x)) new)).
        { rewrite Hnew. apply in_flat_map. exists item. split; [exact Hitem|].
          now left. }
        apply in_map_iff in Hk as (p & Hk & Hp). inversion Hk; subst.
        exists p. split; [apply in_or_app; now right|]. now split.
    - split; [intros d item []|intros x []]. }
  destruct Hinv as [_ Hch].
  destruct (Hch rec Hin Hpos) as (p & Hp & Hid & Hd & Hs).
  exists (enrich p). rewrite enrich_source. split; [|now repeat split].
  apply in_map_iff. now exists p.
Qed.

(** Day 5 of [run_B]: the stock 5 of day 4, less a demand of 19, is clamped. *)
Lemma connector_stock_recurrence_witness :
  exists r prev,
    nth_error (rows run_B) 5 = Some r /\ In prev (rows run_B) /\
    date (source prev) = 4 /\
    stock_level (source r)
    = Z.max 0 (stock_level (source prev) - daily_demand (source r)
               + restock_amount (source r)).
Proof.
  destruct (nth_error (rows run_B) 5) as [r|] eqn:E; [|discriminate E].
  assert (Hin : In r (rows run_B)) by (eapply nth_error_In; exact E).
  vm_compute in E. inversion E as [Er].
  assert (Hd : date (source r) = 5) by (rewrite <- Er; reflexivity).
  destruct (connector_stock_recurrence 7 1 today_D [mouse] 6 tape_B run_B r
              ltac:(vm_compute; reflexivity) Hin
              ltac:(rewrite Hd; reflexivity))
    as (prev & Hprev & _ & Hdate & Hstock).
  exists r, prev. repeat split; try assumption.
  rewrite Hdate, Hd. reflexivity.
Defined.



Lemma py_int_le x : (0 <= x)%Q -> (inject_Z (py_int x) <= x)%Q.
Proof.
  intros H. rewrite py_int_nonneg by exact H.
  assert (0 <= Qfloor x).
  { change 0 with (Qfloor 0). now apply Qfloor_resp_le. }
  rewrite Z.max_r by assumption. apply Qfloor_le.
Qed.

Lemma py_int_nonpos x : (x <= 0)%Q -> py_int x <= 0.
Proof.
  destruct x as [n d]. unfold Qle, py_int; simpl. rewrite Z.mul_1_r.
  intros Hn. apply Z.quot_le_upper_bound; lia.
Qed.

(** X5.  With a variability that is not negative, the daily demand of a
    record of [api_connector.py] is at most ten times one plus the
    variability. *)
Theorem connector_demand_bound F V today products days rng df r :
  (0 <= V)%Q ->
  ApiConnector.simulate_inventory_activity F V today products days rng
    = Some df ->
  In r (rows df) ->
  (inject_Z (daily_demand (source r)) <= 10 * (1 + V))%Q.
Proof.
  intros HV H Hin.
  destruct (connector_rows _ _ _ _ _ _ _ _ H Hin)
    as (rec & day & item & -> & _ & _ & Hrec).
  destruct Hrec as (_ & _ & _ & (b & u & Hb & [Hu0 Hu1] & Hd) & _).
  rewrite enrich_source, Hd.
  set (n := (1 - V + (1 + V - (1 - V)) * u)%Q).
  assert (Hb1 : (1 <= inject_Z b /\ inject_Z b <= 10)%Q).
  { split; [change 1%Q with (inject_Z 1)|change 10%Q with (inject_Z 10)];
      rewrite <- Zle_Qle; lia. }
  assert (Hn : (n <= 1 + V)%Q) by (unfold n; nra).
  destruct (Qlt_le_dec (inject_Z b * n) 0) as [Hneg|Hpos].
  - rewrite Z.max_l by (apply py_int_nonpos; lra).
    change (inject_Z 0) with 0%Q. lra.
  - assert (Hle := py_int_le _ Hpos).
    assert (0 <= py_int (inject_Z b * n)).
    { rewrite py_int_nonneg by exact Hpos. lia. }
    rewrite Z.max_r by assumption.
    eapply Qle_trans; [exact Hle|]. nra.
Qed.

Lemma connector_demand_bound_witness :
  Forall (fun r => (inject_Z (daily_demand (source r)) <= 20)%Q) (rows run_B).
Proof.
  apply Forall_forall. intros r Hr.
  apply (connector_demand_bound 7 1 today_D [mouse] 6 tape_B run_B r
           ltac:(discriminate) ltac:(vm_compute; reflexivity) Hr).
Defined.

(** ** [api_ingestor.py]: layout, stock and demand of a run *)

Section IngestorDetails.

Variable F : Z.                 (* RESTOCKING_FREQUENCY *)
Variable V : Q.                 (* DEMAND_VARIABILITY *)
Variable start_weekday : Z.
Variable trend_step : Z -> Q.

Lemma ingestor_item_day_detail days item day b recs r b' recs' r' :
  ApiIngestor.simulate_item_day F V start_weekday trend_step days item day
    (b, recs) r = Some ((b', recs'), r') ->
  exists rec,
    recs' = recs ++ [rec] /\
    catalogue_fields rec = catalogue_row day item /\
    ~ (p_price item == 0)%Q /\
    (0 < day -> F <> 0) /\
    (exists stock_today,
       stock_level rec
       = Z.max 0 (stock_today - daily_demand rec + restock_amount rec) /\
       ((day = 0 /\ 100 <= stock_today <= 300) \/
        (day <> 0 /\
         match ApiIngestor.prev_entry recs item with
         | Some p => stock_today = stock_level p
         | None => 100 <= stock_today <= 300
         end))).
Proof.
  unfold ApiIngestor.simulate_item_day. intros H.
  step H as noise r1 Hnoise.
  step H as stock r2 Hstock.
  step H as triple r3 Hrestock.
  destruct triple as [[stock_level restock_qty] was_restocked].
  step H as u r4 Hu.
  step H as change r5 Hchange.
  apply ret_Some in H as [E _]. inversion E; subst; clear E.
  apply py_truediv_Some in Hchange as [Hp _].
  eexists. split; [reflexivity|]. cbn.
  split; [reflexivity|]. split; [exact Hp|]. split.
  - intros Hpos. apply Z.ltb_lt in Hpos. rewrite Hpos in Hrestock.
    step Hrestock as m r6 Hm. now apply py_mod_Some in Hm as [HF _].
  - exists stock. split.
    + destruct (0 <? day).
      * step Hrestock as m r6 Hm. destruct (m =? 0).
        -- step Hrestock as qty r7 Hqty.
           apply ret_Some in Hrestock as [E _]. inversion E; subst.
           reflexivity.
        -- apply ret_Some in Hrestock as [E _]. inversion E; subst.
           f_equal. lia.
      * apply ret_Some in Hrestock as [E _]. inversion E; subst.
        f_equal. lia.
    + destruct (Z.eqb_spec day 0) as [Hd|Hd].
      * left. split; [exact Hd|]. eapply randint_range; [|exact Hstock]. lia.
      * right. split; [exact Hd|].
        destruct (ApiIngestor.prev_entry recs item) as [p|].
        -- now apply ret_Some in Hstock as [-> _].
        -- eapply randint_range; [|exact Hstock]. lia.
Qed.

(** The inner loop of one product: the records it appends are the days in
    order, and each of them after the first continues the stock of the one
    before it. *)
Lemma ingestor_days_detail days item b recs r b' recs' r' :
  for_each (range days)
    (ApiIngestor.simulate_item_day F V start_weekday trend_step days item)
    (b, recs) r = Some ((b', recs'), r') ->
  exists new,
    recs' = recs ++ new /\
    map catalogue_fields new = map (fun day => catalogue_row day item)
                                   (range days) /\
    (forall x, In x new -> 0 < date x -> exists p, In p new /\ follows p x).
Proof.
  intros H.
  set (I := fun (pre : list Z) (st : Q * list InventoryRecord) =>
         exists new,
           snd st = recs ++ new /\
           map catalogue_fields new
           = map (fun day => catalogue_row day item) pre /\
           (forall x, In x new -> 0 < date x ->
              exists p, In p new /\ follows p x)).
  assert (HI : I (range days) (b', recs')).
  { revert H. apply (for_each_prefix_invariant I).
    - intros pre day suf [b0 s] q [b1 s'] q' Hsplit
        (new & Hs & Hmap & Hch) Hday.
      simpl in Hs. subst s.
      apply range_split in Hsplit as [Hlen Hpre].
      apply ingestor_item_day_detail in Hday
        as (rec & -> & Hfields & _ & _ & st & Hst & Hsrc).
      exists (new ++ [rec]). simpl. split; [now rewrite app_assoc|]. split.
      + rewrite !map_app, Hmap. simpl. now rewrite Hfields.
      + intros x Hx Hxpos. apply in_app_or in Hx as [Hx|[<-|[]]].
        * destruct (Hch x Hx Hxpos) as (p & Hp & Hf).
          exists p. split; [apply in_or_app; now left|exact Hf].
        * assert (Hdate : date rec = day).
          { unfold catalogue_fields, catalogue_row in Hfields. congruence. }
          assert (Hid : product_id rec = id item).
          { unfold catalogue_fields, catalogue_row in Hfields. congruence. }
          destruct Hsrc as [[Hz _]|[Hnz Hprev]]; [lia|].
          destruct new as [|n0 new0] using rev_ind.
          { exfalso. simpl in Hmap. symmetry in Hmap.
            apply map_eq_nil in Hmap. rewrite Hmap in Hlen.
            simpl in Hlen. lia. }
          clear IHnew0.
          assert (Hlast : catalogue_fields n0
                          = catalogue_row (day - 1) item).
          { rewrite map_app in Hmap. simpl in Hmap.
            destruct pre as [|p0 pre0] using rev_ind.
            { simpl in Hmap. apply app_eq_nil in Hmap as [_ Hmap].
              discriminate. }
            clear IHpre0. rewrite map_app in Hmap. simpl in Hmap.
            apply app_inj_tail in Hmap as [_ Hmap]. rewrite Hmap.
            f_equal. rewrite length_app in Hlen. simpl in Hlen.
            assert (In p0 (range day)).
            { rewrite <- Hpre. apply in_or_app. right. now left. }
            assert (Hsplit2 : range day = pre0 ++ p0 :: []) by now symmetry.
            apply range_split in Hsplit2 as [Hp0 _]. lia. }
          unfold ApiIngestor.prev_entry in Hprev.
          rewrite app_assoc, rev_app_distr in Hprev. simpl in Hprev.
          assert (Hn0 : product_id n0 = id item /\ date n0 = day - 1).
          { unfold catalogue_fields, catalogue_row in Hlast.
            split; congruence. }
          destruct Hn0 as [Hn0i Hn0d].
          rewrite Hn0i, Z.eqb_refl in Hprev.
          exists n0. split.
          { apply in_or_app. left. apply in_or_app. right. now left. }
          unfold follows. repeat split; congruence.
    - exists []. simpl. split; [now rewrite app_nil_r|]. split; [reflexivity|].
      intros x []. }
  destruct HI as (new & Hs & Hmap & Hch). exists new. now repeat split.
Qed.

End IngestorDetails.

Section IngestorFrames.

Variable F : Z.                 (* RESTOCKING_FREQUENCY *)
Variable V : Q.                 (* DEMAND_VARIABILITY *)
Variable today : Z.
Variable trend_step : Z -> Q.

Lemma ingestor_frame_records products days rng df :
  ApiIngestor.simulate_inventory_activity F V today trend_step
    products days rng = Some df ->
  exists recs r0 r',
    1 <= today - days <= MAXORDINAL /\
    ApiIngestor.simulate_loops F V (ApiIngestor.weekday_of (today - days))
      trend_step products days r0 = Some (recs, r') /\
    recs <> [] /\ rows df = map enrich recs.
Proof.
  unfold ApiIngestor.simulate_inventory_activity.
  destruct (ApiIngestor.simulate_records F V today trend_step
              products days rng) as [[recs r']|] eqn:E; [|discriminate].
  intros H. unfold ApiIngestor.simulate_records in E.
  step E as simulation_start r0 Hstart.
  unfold datetime_sub in Hstart.
  destruct (Z.leb_spec 1 (today - days)); [|discriminate].
  destruct (Z.leb_spec (today - days) MAXORDINAL); [|discriminate].
  apply ret_Some in Hstart as [-> _].
  exists recs, r0, r'. split; [lia|]. split; [exact E|]. split.
  - intros ->. discriminate.
  - now apply append_metrics_rows in H.
Qed.

Lemma ingestor_product_detail sw days item recs r recs' r' :
  ApiIngestor.simulate_product F V sw trend_step days item recs r
    = Some (recs', r') ->
  exists new,
    recs' = recs ++ new /\
    map catalogue_fields new = map (fun day => catalogue_row day item)
                                   (range days) /\
    (forall x, In x new -> 0 < date x -> exists p, In p new /\ follows p x).
Proof.
  unfold ApiIngestor.simulate_product. intros H.
  step H as b0 r1 Hb0. step H as st r2 Hloop. destruct st as [b' recs1].
  apply ret_Some in H as [-> _]. simpl.
  now apply ingestor_days_detail in Hloop.
Qed.

End IngestorFrames.

(** X6.  When [simulate_inventory_activity] of [api_ingestor.py] returns a
    frame, its rows come product by product in the order of the catalogue,
    and for each product day by day; each row carries the identifier, the
    title, the category and the price of its product. *)
Theorem ingestor_record_layout F V today trend_step products days rng df :
  ApiIngestor.simulate_inventory_activity F V today trend_step
    products days rng = Some df ->
  map (fun r => catalogue_fields (source r)) (rows df)
  = flat_map (fun item => map (fun day => catalogue_row day item)
                              (range days)) products.
Proof.
  intros H.
  apply ingestor_frame_records in H as (recs & r0 & r' & _ & E & _ & ->).
  rewrite map_map. simpl. unfold ApiIngestor.simulate_loops in E.
  apply for_each_appends with
    (key := catalogue_fields)
    (h := fun item => map (fun day => catalogue_row day item) (range days))
    in E.
  - destruct E as (new & -> & Hnew). exact Hnew.
  - intros item s q s' q' _ Hp.
    apply ingestor_product_detail in Hp as (new & -> & Hmap & _).
    now exists new.
Qed.

(** X7.  In a frame returned by [simulate_inventory_activity] of
    [api_ingestor.py], the stock of a record after day 0 is the stock of the
    record of the same product on the day before, less the demand of the
    day, plus the restock of the day, and not less than zero. *)
Theorem ingestor_stock_recurrence
    F V today trend_step products days rng df r :
  ApiIngestor.simulate_inventory_activity F V today trend_step
    products days rng = Some df ->
  In r (rows df) ->
  0 < date (source r) ->
  exists prev,
    In prev (rows df) /\
    product_id (source prev) = product_id (source r) /\
    date (source prev) = date (source r) - 1 /\
    stock_level (source r)
    = Z.max 0 (stock_level (source prev) - daily_demand (source r)
               + restock_amount (source r)).
Proof.
  intros H Hin Hpos.
  apply ingestor_frame_records in H as (recs & r0 & r' & _ & E & _ & Hrows).
  rewrite Hrows in *. apply in_map_iff in Hin as (rec & <- & Hin).
  rewrite enrich_source in *.
  assert (Hch : forall x, In x recs -> 0 < date x ->
                  exists p, In p recs /\ follows p x).
  { revert E. unfold ApiIngestor.simulate_loops.
    apply (for_each_invariant
             (fun s => forall x, In x s -> 0 < date x ->
                         exists p, In p s /\ follows p x)).
    - intros item s q s' q' _ Hs Hp.
      apply ingestor_product_detail in Hp as (new & -> & _ & Hnew).
      intros x Hx Hxpos. apply in_app_or in Hx as [Hx|Hx].
      + destruct (Hs x Hx Hxpos) as (p & Hp & Hf).
        exists p. split; [apply in_or_app; now left|exact Hf].
      + destruct (Hnew x Hx Hxpos) as (p & Hp & Hf).
        exists p. split; [apply in_or_app; now right|exact Hf].
    - intros x []. }
  destruct (Hch rec Hin Hpos) as (p & Hp & Hid & Hd & Hs).
  exists (enrich p). rewrite enrich_source. split; [|now repeat split].
  apply in_map_iff. now exists p.
Qed.

Lemma ingestor_record_layout_witness :
  map (fun r => catalogue_fields (source r)) (rows run_I)
  = [(0, 1, "mouse", "electronics", 10%Q);
     (1, 1, "mouse", "electronics", 10%Q);
     (2, 1, "mouse", "electronics", 10%Q);
     (0, 2, "shirt", "clothing", 25%Q);
     (1, 2, "shirt", "clothing", 25%Q);
     (2, 2, "shirt", "clothing", 25%Q)]%string.
Proof.
  rewrite (ingestor_record_layout 2 (2 # 10) today_D step_I [mouse; shirt] 3
             (tape_of []) run_I ltac:(vm_compute; reflexivity)).
  reflexivity.
Defined.

(** Day 2 of the first product: 92 - 3 + 75 = 164. *)
Lemma ingestor_stock_recurrence_witness :
  exists r prev,
    nth_error (rows run_I) 2 = Some r /\ In prev (rows run_I) /\
    date (source prev) = 1 /\
    stock_level (source r)
    = Z.max 0 (stock_level (source prev) - daily_demand (source r)
               + restock_amount (source r)).
Proof.
  destruct (nth_error (rows run_I) 2) as [r|] eqn:E; [|discriminate E].
  assert (Hin : In r (rows run_I)) by (eapply nth_error_In; exact E).
  vm_compute in E. inversion E as [Er].
  assert (Hd : date (source r) = 2) by (rewrite <- Er; reflexivity).
  destruct (ingestor_stock_recurrence 2 (2 # 10) today_D step_I
              [mouse; shirt] 3 (tape_of []) run_I r
              ltac:(vm_compute; reflexivity) Hin
              ltac:(rewrite Hd; reflexivity))
    as (prev & Hprev & _ & Hdate & Hstock).
  exists r, prev. repeat split; try assumption.
  rewrite Hdate, Hd. reflexivity.
Defined.

Lemma ingestor_loops_demand_series F V sw trend_step days products :
  (0 <= V /\ V <= 1)%Q -> (0 < trend_step days)%Q ->
  forall s r s' r',
    for_each products (ApiIngestor.simulate_product F V sw trend_step days)
      s r = Some (s', r') ->
    exists params new,
      s' = s ++ new /\
      List.length params = List.length products /\
      Forall (series_ok V days) params /\
      map daily_demand new
      = flat_map (fun p => spec_demand_series (trend_step days)
                             (ApiIngestor.seasonal_factor sw) (fst p)
                             (range days) (snd p)) params.
Proof.
  intros HV Hstep. induction products as [|item ps IH];
    intros s r s' r' H; simpl in H.
  - apply ret_Some in H as [-> _]. exists [], []. rewrite app_nil_r.
    repeat split. constructor.
  - apply bind_Some in H as (s1 & r1 & H1 & H2).
    apply ingestor_demand_follows_spec in H1
      as (b & noise & new1 & Hb & Hlen & Hnoise & -> & Hdem); try assumption.
    apply IH in H2 as (params & new2 & -> & Hpl & Hok & Hdem2).
    exists ((b, noise) :: params), (new1 ++ new2).
    split; [now rewrite app_assoc|]. split; [simpl; congruence|]. split.
    + constructor; [|exact Hok]. unfold series_ok. simpl.
      rewrite range_length in Hlen. tauto.
    + rewrite map_app, Hdem, Hdem2. reflexivity.
Qed.

(** X8.  With a variability between zero and one and a positive daily trend
    step, the daily demands in a frame of [api_ingestor.py] are, product
    after product, a demand series of the kind that compounds its base
    demand: one base demand between 5 and 20 per product, multiplied by the
    trend step from one day to the next, times the seasonal factor and the
    noise factor of the day, rounded down. *)
Theorem ingestor_demand_series F V today trend_step products days rng df :
  (0 <= V /\ V <= 1)%Q -> (0 < trend_step days)%Q ->
  ApiIngestor.simulate_inventory_activity F V today trend_step
    products days rng = Some df ->
  exists params,
    List.length params = List.length products /\
    Forall (series_ok V days) params /\
    map (fun r => daily_demand (source r)) (rows df)
    = flat_map (fun p => spec_demand_series (trend_step days)
                           (ApiIngestor.seasonal_factor
                              (ApiIngestor.weekday_of (today - days)))
                           (fst p) (range days) (snd p)) params.
Proof.
  intros HV Hstep H.
  apply ingestor_frame_records in H as (recs & r0 & r' & _ & E & _ & ->).
  unfold ApiIngestor.simulate_loops in E.
  apply ingestor_loops_demand_series in E
    as (params & new & -> & Hlen & Hok & Hdem); try assumption.
  exists params. split; [exact Hlen|]. split; [exact Hok|].
  rewrite map_map. simpl. exact Hdem.
Qed.

Lemma ingestor_demand_series_witness :
  exists params,
    List.length params = 2%nat /\
    map (fun r => daily_demand (source r)) (rows run_I)
    = flat_map (fun p => spec_demand_series (step_I 3)
                           (ApiIngestor.seasonal_factor
                              (ApiIngestor.weekday_of (today_D - 3)))
                           (fst p) (range 3) (snd p)) params.
Proof.
  destruct (ingestor_demand_series 2 (2 # 10) today_D step_I [mouse; shirt] 3
              (tape_of []) run_I
              ltac:(split; discriminate) ltac:(reflexivity)
              ltac:(vm_compute; reflexivity))
    as (params & Hlen & _ & Hdem).
  exists params. split; assumption.
Defined.

Lemma spec_demand_series_nonneg step seasonal b ds ns :
  Forall (fun d => 0 <= d) (spec_demand_series step seasonal b ds ns).
Proof.
  revert b ns. induction ds as [|d ds IH]; intros b [|n ns]; simpl;
    try constructor; [lia|apply IH].
Qed.

(** X9.  [api_ingestor.py] does not clamp the demand, yet with a variability
    between zero and one and a positive daily trend step no record of its
    frame has a negative daily demand. *)
Theorem ingestor_demand_nonnegative
    F V today trend_step products days rng df r :
  (0 <= V /\ V <= 1)%Q -> (0 < trend_step days)%Q ->
  ApiIngestor.simulate_inventory_activity F V today trend_step
    products days rng = Some df ->
  In r (rows df) ->
  0 <= daily_demand (source r).
Proof.
  intros HV Hstep H Hin.
  apply ingestor_frame_records in H as (recs & r0 & r' & _ & E & _ & Hrows).
  unfold ApiIngestor.simulate_loops in E.
  apply ingestor_loops_demand_series in E
    as (params & new & -> & _ & _ & Hdem); try assumption.
  rewrite Hrows in Hin. apply in_map_iff in Hin as (rec & <- & Hin).
  rewrite enrich_source. simpl in Hin.
  assert (Hd : In (daily_demand rec) (map daily_demand new))
    by now apply in_map.
  rewrite Hdem in Hd. apply in_flat_map in Hd as (p & _ & Hd).
  pose proof (spec_demand_series_nonneg (trend_step days)
                (ApiIngestor.seasonal_factor
                   (ApiIngestor.weekday_of (today - days)))
                (fst p) (range days) (snd p)) as Hall.
  rewrite Forall_forall in Hall. now apply Hall.
Qed.

Lemma ingestor_demand_nonnegative_witness :
  Forall (fun r => 0 <= daily_demand (source r)) (rows run_I).
Proof.
  apply Forall_forall. intros r Hr.
  apply (ingestor_demand_nonnegative 2 (2 # 10) today_D step_I
           [mouse; shirt] 3 (tape_of []) run_I r
           ltac:(split; discriminate) ltac:(reflexivity)
           ltac:(vm_compute; reflexivity) Hr).
Defined.

Lemma connector_restock_rule_witness :
  Forall (fun r =>
            (restocked (source r) = true <-> 0 < restock_amount (source r)) /\
            (0 < restock_amount (source r) <-> date (source r) mod 7 = 0))
         (rows run_B).
Proof.
  apply Forall_forall. intros r Hr.
  apply (connector_restock_rule 7 1 today_D [mouse] 6 tape_B run_B r
           ltac:(vm_compute; reflexivity) Hr).
Defined.

Lemma ingestor_restock_consistency_witness :
  Forall (fun r =>
            (restocked (source r) = true <-> 0 < restock_amount (source r)) /\
            (0 < restock_amount (source r) ->
               date (source r) mod 2 = 0 /\ 0 < date (source r)) /\
            (date (source r) = 0 ->
               restocked (source r) = false /\ restock_amount (source r) = 0))
         (rows run_I).
Proof.
  apply Forall_forall. intros r Hr.
  apply (ingestor_restock_consistency 2 (2 # 10) today_D step_I
           [mouse; shirt] 3 (tape_of []) run_I r
           ltac:(vm_compute; reflexivity) Hr).
Defined.

(** ** Totality of [api_ingestor.py] *)

Lemma ingestor_item_day_total F V sw trend_step days item day st :
  ~ (p_price item == 0)%Q -> (0 < day -> F <> 0) ->
  total (ApiIngestor.simulate_item_day F V sw trend_step days item day st).
Proof.
  intros Hp HF. unfold ApiIngestor.simulate_item_day.
  destruct st as [b recs].
  apply total_bind; [auto with sim_total|]. intros noise.
  apply total_bind.
  { destruct (day =? 0); [auto with sim_total|].
    destruct (ApiIngestor.prev_entry recs item); auto with sim_total. }
  intros stock. apply total_bind.
  { destruct (Z.ltb_spec 0 day); [|auto with sim_total].
    apply total_bind; [apply total_py_mod; auto|]. intros m.
    destruct (m =? 0); [|auto with sim_total].
    apply total_bind; auto with sim_total. }
  intros [[s q] w].
  apply total_bind; [auto with sim_total|]. intros u.
  apply total_bind; [now apply total_py_truediv|]. intros change.
  auto with sim_total.
Qed.

(** X10.  [simulate_inventory_activity] of [api_ingestor.py] returns a frame
    exactly when there is at least one product and one day, no product has a
    zero price, the start date is a date of the calendar, and the restocking
    frequency is not zero or the horizon is a single day: day 0 never
    evaluates the frequency. *)
Theorem ingestor_returns_iff F V today trend_step products days rng :
  (exists df,
      ApiIngestor.simulate_inventory_activity F V today trend_step
        products days rng = Some df)
  <->
  (products <> [] /\ 0 < days /\
   (forall item, In item products -> ~ (p_price item == 0)%Q) /\
   1 <= today - days <= MAXORDINAL /\
   (F <> 0 \/ days = 1)).
Proof.
  split.
  - intros (df & H).
    apply ingestor_frame_records in H as (recs & r0 & r' & Hdate & E & Hne & _).
    unfold ApiIngestor.simulate_loops in E.
    assert (Hprod : products <> []).
    { intros ->. simpl in E. apply ret_Some in E as [-> _]. now apply Hne. }
    assert (Hdays : 0 < days).
    { destruct (Z.ltb_spec 0 days) as [|Hd]; [assumption|]. exfalso.
      apply for_each_appends with
        (key := fun x : InventoryRecord => x)
        (h := fun _ : Product => @nil InventoryRecord) in E.
      - destruct E as (new & -> & Hnew). rewrite map_id in Hnew.
        apply Hne. simpl. rewrite Hnew. clear.
        induction products; simpl; auto.
      - intros item s q s' q' _ Hp.
        apply ingestor_product_detail in Hp as (new & -> & Hmap & _).
        exists new. split; [reflexivity|]. rewrite map_id.
        unfold range in Hmap. replace (Z.to_nat days) with O in Hmap by lia.
        simpl in Hmap. now apply map_eq_nil in Hmap. }
    assert (Hitems : forall item day, In item products -> 0 <= day < days ->
              ~ (p_price item == 0)%Q /\ (0 < day -> F <> 0)).
    { intros item day Hitem Hday.
      destruct (for_each_Some_each _ _ _ _ _ _ E item Hitem)
        as (s1 & q1 & s2 & q2 & Ep).
      unfold ApiIngestor.simulate_product in Ep.
      step Ep as b0 q3 Hb0. step Ep as st q4 Hloop.
      apply in_range in Hday.
      destruct (for_each_Some_each _ _ _ _ _ _ Hloop day Hday)
        as ([b1 t1] & q5 & [b2 t2] & q6 & Ed).
      apply ingestor_item_day_detail in Ed as (rec & _ & _ & Hp & HF & _).
      now split. }
    repeat split; try assumption; try lia.
    + intros item Hitem. apply (Hitems item 0 Hitem). lia.
    + destruct (Z.eq_dec days 1) as [|Hd]; [now right|left].
      destruct products as [|p ps]; [congruence|].
      apply (Hitems p 1); [now left|lia|lia].
  - intros (Hne & Hdays & Hprice & Hdate & HF).
    unfold ApiIngestor.simulate_inventory_activity.
    assert (Htotal : total (ApiIngestor.simulate_records F V today trend_step
                              products days)).
    { unfold ApiIngestor.simulate_records.
      apply total_bind; [now apply datetime_sub_total|]. intros start.
      unfold ApiIngestor.simulate_loops.
      apply total_for_each. intros item s Hitem.
      unfold ApiIngestor.simulate_product.
      apply total_bind; [auto with sim_total|]. intros b0.
      apply total_bind; [|intros st; auto with sim_total].
      apply total_for_each. intros day st Hday. apply in_range in Hday.
      apply ingestor_item_day_total; [now apply Hprice|].
      intros Hpos. destruct HF as [HF|HF]; [exact HF|lia]. }
    destruct (Htotal rng) as (recs & r' & E). rewrite E.
    assert (Hrecs : recs <> []).
    { unfold ApiIngestor.simulate_records in E.
      step E as start q0 Hstart. unfold ApiIngestor.simulate_loops in E.
      apply for_each_appends with
        (key := catalogue_fields)
        (h := fun item => map (fun day => catalogue_row day item)
                              (range days)) in E.
      - destruct E as (new & -> & Hnew). simpl. intros Hn.
        rewrite Hn in Hnew. simpl in Hnew.
        destruct products as [|p ps]; [congruence|]. simpl in Hnew.
        symmetry in Hnew. apply app_eq_nil in Hnew as [Hnew _].
        apply map_eq_nil in Hnew.
        assert (In 0 (range days)) by (apply in_range; lia).
        rewrite Hnew in H. destruct H.
      - intros item s q s' q' _ Hp.
        apply ingestor_product_detail in Hp as (new & -> & Hmap & _).
        now exists new. }
    destruct (append_metrics_of_records recs Hrecs) as (df & Edf).
    now exists df.
Qed.

(** ** [_append_inventory_metrics] in integers *)

Lemma Qdiv_Z_le_iff (c : Z) s d :
  0 < d -> ((inject_Z c <= Qdiv_Z s d)%Q <-> c * d <= s).
Proof.
  intros Hd. unfold Qdiv_Z.
  assert (Hq : (0 < inject_Z d)%Q).
  { change 0%Q with (inject_Z 0). now rewrite <- Zlt_Qlt. }
  split; intros H.
  - rewrite Zle_Qle, inject_Z_mult.
    apply (Qmult_le_r _ _ (inject_Z d)) in H; [|exact Hq].
    eapply Qle_trans; [exact H|]. apply Qle_lteq. right. field.
    intros E. rewrite E in Hq. discriminate Hq.
  - apply Qle_shift_div_l; [exact Hq|].
    rewrite <- inject_Z_mult, <- Zle_Qle. exact H.
Qed.

(** X11.  [_append_inventory_metrics] flags a row as a stockout risk exactly
    when its demand is positive and its stock is less than three times the
    demand. *)
Theorem stockout_risk_iff df df' r :
  _append_inventory_metrics df = Some df' ->
  In r (rows df') ->
  (stockout_risk r = true <->
   0 < daily_demand (source r) /\
   stock_level (source r) < 3 * daily_demand (source r)).
Proof.
  intros H Hin. apply append_metrics_rows in H. rewrite H in Hin.
  apply in_map_iff in Hin as (rec & <- & _). rewrite enrich_source.
  unfold enrich; cbn [stockout_risk].
  destruct (Z.ltb_spec 0 (daily_demand rec)) as [Hd|Hd]; cbn [pyfloat_ltb].
  - pose proof (Qdiv_Z_le_iff 3 (stock_level rec) (daily_demand rec) Hd) as Hle.
    change (inject_Z 3) with 3%Q in Hle.
    destruct (Qle_bool 3 (Qdiv_Z (stock_level rec) (daily_demand rec))) eqn:E;
      cbn [negb].
    + apply Qle_bool_iff in E. apply Hle in E.
      split; [discriminate|intros [_ Hlt]; exfalso; lia].
    + split; [intros _|reflexivity]. split; [exact Hd|].
      destruct (Z.lt_ge_cases (stock_level rec) (3 * daily_demand rec))
        as [|Hge]; [assumption|].
      exfalso.
      assert (Hq : (3 <= Qdiv_Z (stock_level rec) (daily_demand rec))%Q)
        by (apply Hle; lia).
      apply Qle_bool_iff in Hq. congruence.
  - split; [discriminate|intros [Hlt _]; exfalso; lia].
Qed.

Lemma stockout_risk_iff_witness :
  map stockout_risk (rows enriched_E) = [true; false; false; true] /\
  Forall (fun r => stockout_risk r = true <->
                   0 < daily_demand (source r) /\
                   stock_level (source r) < 3 * daily_demand (source r))
         (rows enriched_E).
Proof.
  split; [reflexivity|]. apply Forall_forall. intros r Hr.
  apply (stockout_risk_iff frame_E enriched_E r eq_refl Hr).
Defined.



(** X13.  The fill rate of a row is one exactly when the row has no positive
    demand or its stock covers the demand. *)
Theorem fill_rate_one_iff df df' r :
  _append_inventory_metrics df = Some df' ->
  In r (rows df') ->
  ((fill_rate r == 1)%Q <->
   daily_demand (source r) <= 0 \/
   daily_demand (source r) <= stock_level (source r)).
Proof.
  intros H Hin. apply append_metrics_rows in H. rewrite H in Hin.
  apply in_map_iff in Hin as (rec & <- & _). rewrite enrich_source.
  unfold enrich; simpl.
  destruct (Z.ltb_spec 0 (daily_demand rec)) as [Hd|Hd].
  - pose proof (Qdiv_Z_le_iff 1 (stock_level rec) (daily_demand rec) Hd) as Hle.
    change (inject_Z 1) with 1%Q in Hle. rewrite Z.mul_1_l in Hle.
    split.
    + intros E. right. apply Hle. rewrite <- E. apply Q.le_min_r.
    + intros [Hn|Hc]; [lia|]. apply Hle in Hc. now apply Q.min_l.
  - split; [intros _; now left|reflexivity].
Qed.

Lemma fill_rate_one_iff_witness :
  Forall (fun r => (fill_rate r == 1)%Q <->
                   daily_demand (source r) <= 0 \/
                   daily_demand (source r) <= stock_level (source r))
         (rows enriched_E).
Proof.
  apply Forall_forall. intros r Hr.
  apply (fill_rate_one_iff frame_E enriched_E r eq_refl Hr).
Defined.

(** ** [compute_lead_time_stats], further *)

Lemma assign_col_twice cs c v w :
  assign_col (assign_col cs c v) c w = assign_col cs c w.
Proof.
  induction cs as [|[l u] cs IH]; simpl.
  - now rewrite String.eqb_refl.
  - destruct (String.eqb_spec l c) as [->|Hl]; simpl.
    + now rewrite String.eqb_refl.
    + destruct (String.eqb_spec l c); [contradiction|]. now rewrite IH.
Qed.

(** X14.  Running [compute_lead_time_stats] on a frame on which it has run
    already returns the same statistics and leaves the frame as the first
    run left it: the grade column is overwritten with the same grades. *)
Theorem lead_time_stats_idempotent excellent good df :
  compute_lead_time_stats excellent good
    (snd (compute_lead_time_stats excellent good df))
  = compute_lead_time_stats excellent good df.
Proof.
  unfold compute_lead_time_stats at 2.
  destruct (get_col df "Lead Time (Days)") as [column|] eqn:Ecol;
    cbn [snd].
  2: { unfold compute_lead_time_stats. now rewrite Ecol. }
  destruct (numeric_column column) as [xs|] eqn:Enum; cbn [snd].
  2: { unfold compute_lead_time_stats. now rewrite Ecol, Enum. }
  destruct (bins_ok excellent good) eqn:Ebins; cbn [snd].
  2: { unfold compute_lead_time_stats. now rewrite Ecol, Enum, Ebins. }
  unfold compute_lead_time_stats.
  rewrite get_set_other by discriminate. rewrite Ecol, Enum, Ebins.
  unfold set_col, len. cbn [index_len cols]. now rewrite assign_col_twice.
Qed.

Lemma numeric_column_nth col xs i c :
  numeric_column col = Some xs -> nth_error col i = Some c ->
  exists v, as_number c = Some v /\ nth_error xs i = Some v.
Proof.
  revert xs i. induction col as [|c0 col IH]; intros xs i H Hn.
  - destruct i; discriminate.
  - simpl in H. destruct (as_number c0) as [v0|] eqn:E0; [|discriminate].
    destruct (numeric_column col) as [xs0|]; [|discriminate].
    inversion H; subst. destruct i as [|i]; simpl in *.
    + inversion Hn; subst. now exists v0.
    + now apply IH.
Qed.

(** X15.  When [compute_lead_time_stats] returns its dictionary, the grade
    it has written beside a lead time is: none for a missing lead time and
    for one that is zero or negative; Excellent up to the excellent
    threshold; Good above it and up to the good threshold; Poor above
    that. *)
Theorem lead_time_grade_bands excellent good df column stats df' i c v :
  get_col df "Lead Time (Days)" = Some column ->
  compute_lead_time_stats excellent good df = (Some stats, df') ->
  nth_error column i = Some c -> as_number c = Some v ->
  exists grades,
    get_col df' "lead_time_grade" = Some grades /\
    match v with
    | None => nth_error grades i = Some Null
    | Some x =>
        ((x <= 0)%Q -> nth_error grades i = Some Null) /\
        ((0 < x /\ x <= excellent)%Q ->
           nth_error grades i = Some (Cat Excellent)) /\
        ((excellent < x /\ x <= good)%Q ->
           nth_error grades i = Some (Cat Good)) /\
        ((good < x)%Q -> nth_error grades i = Some (Cat Poor))
    end.
Proof.
  intros Hcol H Hi Hv.
  assert (Hsome : exists xs, numeric_column column = Some xs /\
                             bins_ok excellent good = true).
  { unfold compute_lead_time_stats in H. rewrite Hcol in H.
    destruct (numeric_column column) as [xs|]; [|discriminate].
    destruct (bins_ok excellent good); [|discriminate]. now exists xs. }
  destruct Hsome as (xs & Hnum & Hbins).
  destruct (lead_time_stats_grades excellent good df column xs Hcol Hnum Hbins)
    as (stats0 & _ & Hg & _).
  rewrite H in Hg. cbn [snd] in Hg.
  eexists. split; [exact Hg|].
  destruct (numeric_column_nth column xs i c Hnum Hi) as (v' & Hv' & Hx).
  rewrite Hv in Hv'. inversion Hv'; subst v'.
  assert (Hn : nth_error (map grade_cell (map (cut excellent good) xs)) i
               = Some (grade_cell (cut excellent good v))).
  { rewrite map_map.
    now apply (map_nth_error (fun x => grade_cell (cut excellent good x))). }
  rewrite Hn. destruct v as [x|]; [|reflexivity].
  destruct (cut_positive excellent good Hbins x) as (He & Hgo & Hp).
  repeat split; intros Hx'.
  - now rewrite cut_ungraded.
  - now rewrite He.
  - now rewrite Hgo.
  - now rewrite Hp.
Qed.

Lemma lead_time_grade_bands_witness :
  exists grades,
    get_col (snd (compute_lead_time_stats 3 7 orders_D)) "lead_time_grade"
    = Some grades /\
    nth_error grades 1 = Some (Cat Excellent).
Proof.
  destruct (lead_time_grade_bands 3 7 orders_D [Int 0; Int 2]
              (match fst (compute_lead_time_stats 3 7 orders_D) with
               | Some s => s
               | None => mkLeadTimeStats NaN NaN NaN NaN 0 NaN NaN NaN
               end)
              (snd (compute_lead_time_stats 3 7 orders_D))
              1%nat (Int 2) (Some (inject_Z 2))
              eq_refl eq_refl eq_refl eq_refl)
    as (grades & Hg & _ & Hex & _).
  exists grades. split; [exact Hg|]. apply Hex.
  split; [reflexivity|discriminate].
Defined.



(** ** [compute_cycle_time], further *)

Lemma np_randint_spec low high n r ds r' :
  low < high -> np_randint low high n r = (ds, r') ->
  List.length ds = n /\ Forall (fun d => low <= d < high) ds.
Proof.
  intros Hlh. revert r ds r'. induction n as [|n IH]; intros r ds r' H;
    simpl in H.
  - inversion H; subst. split; [reflexivity|constructor].
  - unfold rng_next in H.
    destruct (np_randint low high n (mkRng (tape r) (S (cursor r))))
      as [xs r''] eqn:E.
    inversion H; subst. apply IH in E as [Hlen Hall].
    split; [simpl; congruence|]. constructor; [|exact Hall].
    pose proof (Z.mod_pos_bound (tape r (cursor r)) (high - low)). lia.
Qed.

Lemma add_timedelta_nth v ds w i s d :
  add_timedelta v ds = Some w ->
  nth_error v i = Some (Timestamp s) -> nth_error ds i = Some d ->
  nth_error w i = Some (Timestamp (s + d * day_ns)).
Proof.
  revert ds w i. induction v as [|c v IH]; intros ds w i H Hv Hd.
  - destruct i; discriminate.
  - destruct ds as [|d0 ds]; [destruct i; discriminate|]. simpl in H.
    destruct (add_days c d0) as [c'|] eqn:Ec; [|discriminate].
    destruct (add_timedelta v ds) as [w0|] eqn:Ew; [|discriminate].
    inversion H; subst. destruct i as [|i]; simpl in *.
    + inversion Hv; subst. inversion Hd; subst. simpl in Ec. congruence.
    + eapply IH; eauto.
Qed.

Lemma days_between_nth v w c i a b :
  days_between v w = Some c ->
  nth_error v i = Some (Timestamp a) -> nth_error w i = Some (Timestamp b) ->
  nth_error c i = Some (Int ((a - b) / day_ns)).
Proof.
  revert w c i. induction v as [|x v IH]; intros w c i H Hv Hw.
  - destruct i; discriminate.
  - destruct w as [|y w]; [destruct i; discriminate|]. simpl in H.
    destruct (sub_days x y) as [z|] eqn:Ez; [|discriminate].
    destruct (days_between v w) as [u|] eqn:Eu; [|discriminate].
    inversion H; subst. destruct i as [|i]; simpl in *.
    + inversion Hv; subst. inversion Hw; subst. simpl in Ez. congruence.
    + eapply IH; eauto.
Qed.

(** X17.  When [compute_cycle_time] takes its main path and returns its
    dictionary, the cycle time written beside an order that has both dates
    is the whole number of days from the order date to the ship date, plus a
    transit time of two to five days. *)
Theorem cycle_time_is_lead_time_plus_transit
    excellent good df rng ship order stats df' i s o :
  get_col df "Ship Date" = Some ship ->
  get_col df "Order Date" = Some order ->
  compute_cycle_time excellent good df rng = (Some (inl stats), df') ->
  (i < index_len df)%nat ->
  nth_error ship i = Some (Timestamp s) ->
  nth_error order i = Some (Timestamp o) ->
  exists transit cycle,
    2 <= transit <= 5 /\
    get_col df' "Cycle Time (Days)" = Some cycle /\
    nth_error cycle i = Some (Int ((s - o) / day_ns + transit)).
Proof.
  intros Hship Horder H Hi Hs Ho. unfold compute_cycle_time in H.
  rewrite Hship in H.
  destruct (np_randint 2 6 (index_len df) rng) as [days_delta r'] eqn:Er.
  apply np_randint_spec in Er as [Hlen Hall]; [|lia].
  destruct (add_timedelta ship days_delta) as [delivery|] eqn:Ed;
    [|discriminate].
  rewrite get_set_other in H by discriminate. rewrite Horder in H.
  destruct (days_between delivery order) as [cycle|] eqn:Ec; [|discriminate].
  inversion H; subst; clear H.
  destruct (nth_error days_delta i) as [d|] eqn:Edi.
  2: { apply nth_error_None in Edi. lia. }
  assert (Hd : 2 <= d < 6).
  { rewrite Forall_forall in Hall. apply Hall. eapply nth_error_In; eauto. }
  exists d, cycle. split; [lia|]. split.
  - unfold get_col, set_col. cbn [cols]. apply lookup_assign_same.
  - pose proof (add_timedelta_nth _ _ _ _ _ _ Ed Hs Edi) as Hdel.
    pose proof (days_between_nth _ _ _ _ _ _ Ec Hdel Ho) as Hc.
    rewrite Hc. do 2 f_equal.
    replace (s + d * day_ns - o) with (s - o + d * day_ns) by lia.
    apply Z.div_add. discriminate.
Qed.

Lemma cycle_time_is_lead_time_plus_transit_witness :
  exists transit cycle,
    2 <= transit <= 5 /\
    get_col (snd (compute_cycle_time 3 7 orders_T (tape_of [1; 2; 3])))
      "Cycle Time (Days)" = Some cycle /\
    nth_error cycle 0 = Some (Int (2 + transit)).
Proof.
  destruct (fst (compute_cycle_time 3 7 orders_T (tape_of [1; 2; 3])))
    as [[stats|stats]|] eqn:E; try discriminate E.
  apply (cycle_time_is_lead_time_plus_transit 3 7 orders_T (tape_of [1; 2; 3])
           [Timestamp (2 * day_ns); Timestamp (3 * day_ns); Null]
           [Timestamp 0; Timestamp (3 * day_ns); Timestamp (10 * day_ns)]
           stats
           (snd (compute_cycle_time 3 7 orders_T (tape_of [1; 2; 3])))
           0%nat (2 * day_ns) 0 eq_refl eq_refl);
    [|simpl; lia|reflexivity|reflexivity].
  rewrite <- E.
  now destruct (compute_cycle_time 3 7 orders_T (tape_of [1; 2; 3])).
Defined.




(** ** [compute_fill_rate_stats], further *)

Lemma insert_key_in k ks x : In x (insert_key k ks) <-> x = k \/ In x ks.
Proof.
  induction ks as [|k' ks IH]; simpl.
  - intuition.
  - destruct (Z.ltb_spec k k'); [simpl; intuition|].
    destruct (Z.eqb_spec k k'); simpl; [intuition; subst; auto|].
    rewrite IH. intuition.
Qed.

Lemma insert_key_sorted k ks :
  StronglySorted Z.lt ks -> StronglySorted Z.lt (insert_key k ks).
Proof.
  induction 1 as [|k' ks Hs IH Hall]; simpl.
  - repeat constructor.
  - destruct (Z.ltb_spec k k') as [Hlt|Hge].
    + constructor; [now constructor|]. constructor; [exact Hlt|].
      eapply Forall_impl; [|exact Hall]. intros; lia.
    + destruct (Z.eqb_spec k k') as [->|Hne]; [now constructor|].
      constructor; [exact IH|]. apply Forall_forall. intros x Hx.
      apply insert_key_in in Hx as [->|Hx]; [lia|].
      rewrite Forall_forall in Hall. now apply Hall.
Qed.

Lemma group_keys_in inv k :
  In k (group_keys inv) <-> In k (map (fun r => product_id (source r)) inv).
Proof.
  unfold group_keys. induction inv as [|r inv IH]; simpl; [tauto|].
  rewrite insert_key_in, IH. intuition.
Qed.

Lemma group_keys_sorted inv : StronglySorted Z.lt (group_keys inv).
Proof.
  unfold group_keys. induction inv as [|r inv IH]; simpl; [constructor|].
  now apply insert_key_sorted.
Qed.

Lemma sorted_NoDup ks : StronglySorted Z.lt ks -> NoDup ks.
Proof.
  induction 1 as [|k ks Hs IH Hall]; constructor; [|exact IH].
  intros Hin. rewrite Forall_forall in Hall. specialize (Hall k Hin). lia.
Qed.

Lemma Zsum_indicator ks x c :
  NoDup ks -> In x ks ->
  Zsum (map (fun k => if x =? k then c else 0) ks) = c.
Proof.
  unfold Zsum.
  induction 1 as [|k ks Hk Hnd IH]; intros Hin; [destruct Hin|].
  cbn [map fold_right]. destruct Hin as [->|Hin].
  - rewrite Z.eqb_refl.
    assert (Hz : fold_right Z.add 0
                   (map (fun k0 => if x =? k0 then c else 0) ks) = 0).
    { clear IH Hnd. induction ks as [|k0 ks IH]; cbn [map fold_right];
        [reflexivity|].
      destruct (Z.eqb_spec x k0) as [->|_].
      - exfalso. apply Hk. now left.
      - rewrite IH; [reflexivity|]. intros H. apply Hk. now right. }
    rewrite Hz. lia.
  - destruct (Z.eqb_spec x k) as [->|_]; [contradiction|].
    now rewrite IH.
Qed.

Lemma Zsum_add {A} (f g : A -> Z) l :
  Zsum (map (fun x => f x + g x) l) = Zsum (map f l) + Zsum (map g l).
Proof.
  unfold Zsum. induction l as [|x l IH]; cbn [map fold_right];
    [reflexivity|]. rewrite IH. lia.
Qed.

(** The flagged rows of the groups, added up, are the flagged rows. *)
Lemma group_counts_add_up (P : EnrichedRecord -> bool) ks inv :
  NoDup ks ->
  (forall r, In r inv -> In (product_id (source r)) ks) ->
  Zsum (map (fun k => Z.of_nat (List.length (filter P (group inv k)))) ks)
  = Z.of_nat (List.length (filter P inv)).
Proof.
  intros Hnd. induction inv as [|r inv IH]; intros Hin.
  - clear. unfold Zsum. induction ks as [|k ks IH]; simpl; [reflexivity|].
    exact IH.
  - assert (Hrest : forall x, In x inv -> In (product_id (source x)) ks).
    { intros x Hx. apply Hin. now right. }
    specialize (IH Hrest).
    rewrite (map_ext _
               (fun k => Z.of_nat (List.length (filter P (group inv k)))
                         + (if product_id (source r) =? k
                            then (if P r then 1 else 0) else 0))).
    + rewrite Zsum_add, IH, Zsum_indicator; [|exact Hnd|apply Hin; now left].
      simpl. destruct (P r); simpl; lia.
    + intros k. unfold group. simpl.
      destruct (Z.eqb_spec (product_id (source r)) k); simpl.
      * destruct (P r); simpl; lia.
      * lia.
Qed.

(** X19.  [at_risk_count] of [compute_fill_rate_stats] is the number of
    inventory rows flagged as a stockout risk, a product counting once for
    each of its flagged days. *)
Theorem at_risk_count_counts_rows
    FR_excellent FR_good FR_poor df_inventory stats :
  compute_fill_rate_stats FR_excellent FR_good FR_poor df_inventory
  = Some stats ->
  at_risk_count stats
  = Z.of_nat (List.length (filter stockout_risk (rows df_inventory))).
Proof.
  unfold compute_fill_rate_stats.
  destruct (has_column df_inventory "product_id"
            && has_column df_inventory "fill_rate"
            && has_column df_inventory "stockout_risk"); [|discriminate].
  intros H. inversion H; subst; clear H. cbn [at_risk_count].
  rewrite map_map. cbn [group_row snd].
  apply (group_counts_add_up stockout_risk).
  - apply sorted_NoDup, group_keys_sorted.
  - intros r Hr. apply group_keys_in.
    now apply (in_map (fun x => product_id (source x))).
Qed.

Lemma at_risk_count_counts_rows_witness :
  option_map at_risk_count
    (compute_fill_rate_stats (95 # 100) (90 # 100) (80 # 100) run_B)
  = Some 4.
Proof.
  destruct (compute_fill_rate_stats (95 # 100) (90 # 100) (80 # 100) run_B)
    as [stats|] eqn:E; [|discriminate E].
  simpl. rewrite (at_risk_count_counts_rows _ _ _ _ _ E). reflexivity.
Defined.

(** X20.  [product_total] of [compute_fill_rate_stats] is the number of
    distinct product identifiers among the inventory rows. *)
Theorem product_total_counts_products
    FR_excellent FR_good FR_poor df_inventory stats :
  compute_fill_rate_stats FR_excellent FR_good FR_poor df_inventory
  = Some stats ->
  product_total stats
  = Z.of_nat (List.length
                (nodup Z.eq_dec
                   (map (fun r => product_id (source r))
                        (rows df_inventory)))).
Proof.
  unfold compute_fill_rate_stats.
  destruct (has_column df_inventory "product_id"
            && has_column df_inventory "fill_rate"
            && has_column df_inventory "stockout_risk"); [|discriminate].
  intros H. inversion H; subst; clear H. cbn [product_total].
  rewrite length_map. f_equal.
  set (ids := map (fun r => product_id (source r)) (rows df_inventory)).
  apply Nat.le_antisymm; apply NoDup_incl_length.
  - apply sorted_NoDup, group_keys_sorted.
  - intros k Hk. apply nodup_In. now apply group_keys_in in Hk.
  - apply NoDup_nodup.
  - intros k Hk. apply nodup_In in Hk. now apply group_keys_in.
Qed.

Lemma product_total_counts_products_witness :
  option_map product_total
    (compute_fill_rate_stats (95 # 100) (90 # 100) (80 # 100) run_I)
  = Some 2.
Proof.
  destruct (compute_fill_rate_stats (95 # 100) (90 # 100) (80 # 100) run_I)
    as [stats|] eqn:E; [|discriminate E].
  simpl. rewrite (product_total_counts_products _ _ _ _ _ E). reflexivity.
Defined.

Lemma Qsum_bounds a b (l : list Q) :
  Forall (fun x => a <= x /\ x <= b)%Q l ->
  (a * Qlen l <= Qsum l /\ Qsum l <= b * Qlen l)%Q.
Proof.
  unfold Qlen. induction 1 as [|x l [Hx1 Hx2] Hl IH].
  - unfold Qsum. cbn [List.length fold_right].
    change (inject_Z (Z.of_nat 0)) with 0%Q. split; lra.
  - unfold Qsum in *. cbn [List.length fold_right]. rewrite Nat2Z.inj_succ.
    unfold Z.succ. rewrite inject_Z_plus.
    change (inject_Z 1) with 1%Q. destruct IH as [IH1 IH2]. split; lra.
Qed.

Lemma Qmean_bounds a b (l : list Q) :
  l <> [] ->
  Forall (fun x => a <= x /\ x <= b)%Q l ->
  (a <= Qsum l / Qlen l /\ Qsum l / Qlen l <= b)%Q.
Proof.
  intros Hne Hall. destruct (Qsum_bounds a b l Hall) as [H1 H2].
  assert (Hn : (0 < Qlen l)%Q).
  { unfold Qlen. change 0%Q with (inject_Z 0). rewrite <- Zlt_Qlt.
    destruct l; [congruence|]. simpl. lia. }
  split.
  - apply Qle_shift_div_l; assumption.
  - apply Qle_shift_div_r; assumption.
Qed.

Lemma group_not_nil inv k : In k (group_keys inv) -> group inv k <> [].
Proof.
  intros Hk. apply group_keys_in in Hk.
  apply in_map_iff in Hk as (r & Hr & Hin).
  intros E. assert (H : In r (group inv k)).
  { unfold group. apply filter_In. split; [exact Hin|]. now apply Z.eqb_eq. }
  rewrite E in H. destruct H.
Qed.

Lemma average_fill_rate_bounds FR_excellent FR_good FR_poor df stats :
  rows df <> [] ->
  Forall (fun r => 0 <= fill_rate r /\ fill_rate r <= 1)%Q (rows df) ->
  compute_fill_rate_stats FR_excellent FR_good FR_poor df = Some stats ->
  exists a, avg_fill_rate stats = Fin a /\ (0 <= a /\ a <= 1)%Q.
Proof.
  intros Hne Hall. unfold compute_fill_rate_stats.
  destruct (has_column df "product_id" && has_column df "fill_rate"
            && has_column df "stockout_risk"); [|discriminate].
  intros H. inversion H; subst; clear H. cbn [avg_fill_rate].
  set (fill := map fst (map (group_row (rows df)) (group_keys (rows df)))).
  assert (Hfill : Forall (fun x => 0 <= x /\ x <= 1)%Q fill).
  { unfold fill. rewrite map_map. apply Forall_forall. intros x Hx.
    apply in_map_iff in Hx as (k & <- & Hk). cbn [group_row fst].
    replace (Qlen (group (rows df) k))
      with (Qlen (map fill_rate (group (rows df) k)))
      by (unfold Qlen; now rewrite length_map).
    apply Qmean_bounds.
    - intros E. apply map_eq_nil in E. now apply group_not_nil in Hk.
    - apply Forall_forall. intros y Hy.
      apply in_map_iff in Hy as (r & <- & Hr). unfold group in Hr.
      apply filter_In in Hr as [Hr _].
      rewrite Forall_forall in Hall. now apply Hall. }
  assert (Hfne : fill <> []).
  { unfold fill. intros E. apply map_eq_nil in E. apply map_eq_nil in E.
    now apply group_keys_not_nil in Hne. }
  unfold mean. destruct fill as [|x l] eqn:Ef; [congruence|].
  eexists. split; [reflexivity|]. now apply Qmean_bounds.
Qed.

(** X21.  The fill-rate statistics of a frame that [simulate_inventory_activity]
    of [api_connector.py] has returned are always defined, and the average
    fill rate is a number between zero and one. *)
Theorem connector_average_fill_rate
    F V today products days rng df FR_excellent FR_good FR_poor :
  ApiConnector.simulate_inventory_activity F V today products days rng
    = Some df ->
  exists stats a,
    compute_fill_rate_stats FR_excellent FR_good FR_poor df = Some stats /\
    avg_fill_rate stats = Fin a /\ (0 <= a /\ a <= 1)%Q.
Proof.
  intros H.
  assert (Hall : Forall (fun r => 0 <= fill_rate r /\ fill_rate r <= 1)%Q
                   (rows df)).
  { apply Forall_forall. intros r Hr.
    destruct (connector_rows _ _ _ _ _ _ _ _ H Hr)
      as (rec & day & item & -> & _ & _ & Hrec).
    apply connector_record_nonnegative in Hrec as [Hs _].
    now apply enrich_fill_rate_bounds. }
  pose proof H as H0.
  apply connector_frame_records in H0 as (recs & r0 & r' & _ & _ & Hne & Hrows).
  assert (Hsome : exists stats,
             compute_fill_rate_stats FR_excellent FR_good FR_poor df
             = Some stats).
  { unfold ApiConnector.simulate_inventory_activity in H.
    destruct (ApiConnector.simulate_records F V today products days rng)
      as [[recs1 q]|]; [|discriminate].
    destruct recs1 as [|x l]; [discriminate|].
    cbv [_append_inventory_metrics DataFrame_of_records] in H.
    cbn in H. inversion H; subst. eexists. reflexivity. }
  destruct Hsome as (stats & Hstats).
  assert (Hrne : rows df <> []).
  { rewrite Hrows. intros E. apply map_eq_nil in E. contradiction. }
  destruct (average_fill_rate_bounds _ _ _ _ _ Hrne Hall Hstats) as (a & Ha).
  exists stats, a. now split.
Qed.

Lemma connector_average_fill_rate_witness :
  exists stats a,
    compute_fill_rate_stats (95 # 100) (90 # 100) (80 # 100) run_B
    = Some stats /\
    avg_fill_rate stats = Fin a /\ (0 <= a /\ a <= 1)%Q.
Proof.
  apply (connector_average_fill_rate 7 1 today_D [mouse] 6 tape_B run_B
           (95 # 100) (90 # 100) (80 # 100)).
  vm_compute. reflexivity.
Defined.

Lemma bool_mean_map {A} (f : A -> bool) (l : list A) :
  l <> [] ->
  bool_mean (map f l)
  = Fin (inject_Z (Z.of_nat (List.length
                               (filter (fun b : bool => b) (map f l))))
         / inject_Z (Z.of_nat (List.length l))).
Proof.
  destruct l as [|x l]; [congruence|]. intros _.
  unfold bool_mean, Qlen. cbn [map]. do 3 f_equal.
  cbn [List.length]. now rewrite length_map.
Qed.

Lemma disjoint_counts_le {A} (f h : A -> bool) (l : list A) :
  (forall x, f x = true -> h x = false) ->
  (List.length (filter (fun b : bool => b) (map f l))
   + List.length (filter (fun b : bool => b) (map h l))
   <= List.length l)%nat.
Proof.
  intros Hfh. induction l as [|x l IH]; simpl; [lia|].
  destruct (f x) eqn:Ef; [rewrite (Hfh x Ef)|destruct (h x)]; simpl; lia.
Qed.

(** X22.  With a poor threshold that is not above the good threshold, a
    product cannot be counted both as poor and as good: for an inventory with
    at least one row, the poor and the good ratios of
    [compute_fill_rate_stats] add up to one at most. *)
Theorem poor_and_good_are_disjoint
    FR_excellent FR_good FR_poor df_inventory stats :
  (FR_poor <= FR_good)%Q ->
  rows df_inventory <> [] ->
  compute_fill_rate_stats FR_excellent FR_good FR_poor df_inventory
  = Some stats ->
  exists p g,
    poor_rate_ratio stats = Fin p /\ good_rate_ratio stats = Fin g /\
    (p + g <= 1)%Q.
Proof.
  intros Hthr Hne. unfold compute_fill_rate_stats.
  destruct (has_column df_inventory "product_id"
            && has_column df_inventory "fill_rate"
            && has_column df_inventory "stockout_risk"); [|discriminate].
  intros H. inversion H; subst; clear H.
  cbn [poor_rate_ratio good_rate_ratio].
  set (fill := map fst (map (group_row (rows df_inventory))
                            (group_keys (rows df_inventory)))).
  assert (Hfne : fill <> []).
  { unfold fill. intros E. apply map_eq_nil in E. apply map_eq_nil in E.
    now apply group_keys_not_nil in Hne. }
  pose proof (disjoint_counts_le
                (fun f => negb (Qle_bool FR_poor f))
                (fun f => Qle_bool FR_good f) fill) as Hc.
  rewrite !bool_mean_map by exact Hfne.
  eexists. eexists. split; [reflexivity|]. split; [reflexivity|].
  set (n := List.length fill) in *.
  set (a := List.length (filter (fun b : bool => b)
              (map (fun f => negb (Qle_bool FR_poor f)) fill))) in *.
  set (b := List.length (filter (fun b : bool => b)
              (map (fun f => Qle_bool FR_good f) fill))) in *.
  assert (Hn : (0 < inject_Z (Z.of_nat n))%Q).
  { change 0%Q with (inject_Z 0). rewrite <- Zlt_Qlt. unfold n.
    destruct fill; [congruence|]. simpl. lia. }
  assert (Hab : (inject_Z (Z.of_nat a) + inject_Z (Z.of_nat b)
                 <= inject_Z (Z.of_nat n))%Q).
  { rewrite <- inject_Z_plus, <- Zle_Qle. apply Nat2Z.inj_le in Hc.
    - rewrite Nat2Z.inj_add in Hc. exact Hc.
    - intros f Hf. apply negb_true_iff in Hf.
      destruct (Qle_bool FR_good f) eqn:Eg; [|reflexivity].
      apply Qle_bool_iff in Eg.
      assert (Hp : (FR_poor <= f)%Q) by (eapply Qle_trans; eassumption).
      apply Qle_bool_iff in Hp. congruence. }
  assert (E : (inject_Z (Z.of_nat a) / inject_Z (Z.of_nat n)
               + inject_Z (Z.of_nat b) / inject_Z (Z.of_nat n)
               == (inject_Z (Z.of_nat a) + inject_Z (Z.of_nat b))
                  / inject_Z (Z.of_nat n))%Q).
  { field. intros E. rewrite E in Hn. discriminate Hn. }
  rewrite E. apply Qle_shift_div_r; [exact Hn|]. now rewrite Qmult_1_l.
Qed.

Lemma poor_and_good_are_disjoint_witness :
  exists p g,
    option_map (fun s => (poor_rate_ratio s, good_rate_ratio s))
      (compute_fill_rate_stats (95 # 100) (90 # 100) (80 # 100) run_B)
    = Some (Fin p, Fin g) /\ (p + g <= 1)%Q.
Proof.
  destruct (compute_fill_rate_stats (95 # 100) (90 # 100) (80 # 100) run_B)
    as [stats|] eqn:E; [|discriminate E].
  destruct (poor_and_good_are_disjoint (95 # 100) (90 # 100) (80 # 100)
              run_B stats ltac:(discriminate) ltac:(discriminate) E)
    as (p & g & Hp & Hg & Hle).
  exists p, g. simpl. rewrite Hp, Hg. split; [reflexivity|exact Hle].
Defined.

(** ** [compute_inventory_turnover] *)

Lemma Qsum_inject_Z (l : list Z) :
  (Qsum (map inject_Z l) == inject_Z (Zsum l))%Q.
Proof.
  unfold Qsum, Zsum. induction l as [|x l IH]; cbn [map fold_right].
  - reflexivity.
  - rewrite IH, inject_Z_plus. reflexivity.
Qed.

Lemma float_mean_inf (l : list pyfloat) :
  Forall (fun x => x <> NaN) l ->
  (float_mean l = PosInf <-> In PosInf l).
Proof.
  intros Hall. unfold float_mean.
  assert (Hf : filter (fun x => negb (is_nan x)) l = l).
  { induction Hall as [|x l Hx _ IH]; simpl; [reflexivity|].
    destruct x; simpl; try congruence. }
  rewrite Hf. destruct l as [|x l]; [split; [discriminate|intros []]|].
  destruct (existsb is_inf (x :: l)) eqn:E.
  - split; [intros _|reflexivity].
    apply existsb_exists in E as (y & Hy & Hinf). destruct y; try discriminate.
    exact Hy.
  - split; [discriminate|]. intros Hin. exfalso.
    assert (existsb is_inf (x :: l) = true).
    { apply existsb_exists. now exists PosInf. }
    congruence.
Qed.

(** X25.  [compute_inventory_turnover] reports an infinite average of the
    days on hand exactly when the demands of some product add up to nothing
    (or less): one product without demand makes the average infinite. *)
Theorem average_days_on_hand_infinite_iff df_inventory stats :
  compute_inventory_turnover df_inventory = Some stats ->
  (avg_days_on_hand stats = PosInf <->
   exists k,
     In k (map (fun r => product_id (source r)) (rows df_inventory)) /\
     Zsum (map (fun r => daily_demand (source r))
               (group (rows df_inventory) k)) <= 0).
Proof.
  unfold compute_inventory_turnover.
  destruct (has_column df_inventory "product_id"
            && has_column df_inventory "daily_demand"
            && has_column df_inventory "stock_level"
            && has_column df_inventory "annualized_turnover"); [|discriminate].
  intros H. inversion H; subst; clear H. cbn [avg_days_on_hand].
  set (inv := rows df_inventory).
  assert (Hrow : forall k, In k (group_keys inv) ->
            (days_on_hand (turnover_row inv k) = PosInf <->
             Zsum (map (fun r => daily_demand (source r)) (group inv k)) <= 0)).
  { intros k Hk. unfold turnover_row. cbn [days_on_hand].
    set (g := group inv k).
    assert (Hn : (0 < Qlen g)%Q).
    { unfold Qlen. change 0%Q with (inject_Z 0). rewrite <- Zlt_Qlt.
      pose proof (group_not_nil inv k Hk). fold g in H.
      destruct g; [congruence|]. simpl. lia. }
    assert (Hs : (Qsum (map (fun r => inject_Z (daily_demand (source r))) g)
                  == inject_Z (Zsum (map (fun r => daily_demand (source r)) g)))%Q).
    { rewrite <- Qsum_inject_Z, map_map. reflexivity. }
    set (total := Zsum (map (fun r => daily_demand (source r)) g)) in *.
    destruct (Qle_bool _ 0) eqn:E; cbn [negb].
    - split; [intros _|reflexivity]. apply Qle_bool_iff in E.
      rewrite Hs in E. apply (Qmult_le_r _ _ (Qlen g) Hn) in E.
      rewrite Qmult_0_l in E.
      assert (E' : (inject_Z total <= 0)%Q).
      { eapply Qle_trans; [|exact E]. apply Qle_lteq. right. field.
        intros Hz. rewrite Hz in Hn. discriminate Hn. }
      change 0%Q with (inject_Z 0) in E'. now rewrite <- Zle_Qle in E'.
    - split; [discriminate|]. intros Hle. exfalso.
      assert (Hq : (Qsum (map (fun r => inject_Z (daily_demand (source r))) g)
                    / Qlen g <= 0)%Q).
      { apply Qle_shift_div_r; [exact Hn|]. rewrite Qmult_0_l, Hs.
        change 0%Q with (inject_Z 0). now rewrite <- Zle_Qle. }
      apply Qle_bool_iff in Hq. congruence. }
  rewrite float_mean_inf.
  - rewrite in_map_iff. split.
    + intros (row & Hd & Hin). apply in_map_iff in Hin as (k & <- & Hk).
      exists k. split; [now apply group_keys_in|]. now apply Hrow.
    + intros (k & Hk & Hle). apply group_keys_in in Hk.
      exists (turnover_row inv k). split; [now apply Hrow|].
      apply in_map_iff. now exists k.
  - apply Forall_forall. intros x Hx.
    apply in_map_iff in Hx as (row & <- & Hin).
    apply in_map_iff in Hin as (k & <- & _). unfold turnover_row.
    cbn [days_on_hand]. destruct (negb _); discriminate.
Qed.

Lemma average_days_on_hand_infinite_iff_witness :
  option_map avg_days_on_hand (compute_inventory_turnover enriched_E)
  = Some PosInf.
Proof.
  destruct (compute_inventory_turnover enriched_E) as [stats|] eqn:E;
    [|discriminate E].
  simpl. f_equal.
  apply (average_days_on_hand_infinite_iff enriched_E stats E).
  exists 3. split; [simpl; tauto|]. vm_compute. discriminate.
Defined.

(** X26.  The statistics of [compute_inventory_turnover] are undefined on an
    inventory without rows and only there: the average turnover is [nan]
    exactly when there is no row, and then no product is counted. *)
Theorem turnover_undefined_iff_empty df_inventory stats :
  compute_inventory_turnover df_inventory = Some stats ->
  (avg_turnover stats = NaN <-> rows df_inventory = []) /\
  (rows df_inventory = [] ->
   med_turnover stats = NaN /\ avg_days_on_hand stats = NaN /\
   med_days_on_hand stats = NaN /\ product_count stats = 0).
Proof.
  unfold compute_inventory_turnover.
  destruct (has_column df_inventory "product_id"
            && has_column df_inventory "daily_demand"
            && has_column df_inventory "stock_level"
            && has_column df_inventory "annualized_turnover"); [|discriminate].
  intros H. inversion H; subst; clear H.
  cbn [avg_turnover med_turnover avg_days_on_hand med_days_on_hand
       product_count].
  split.
  - split.
    + intros Hnan. destruct (rows df_inventory) as [|r l] eqn:E;
        [reflexivity|]. exfalso.
      assert (Hk : group_keys (r :: l) <> [])
        by (apply group_keys_not_nil; discriminate).
      destruct (group_keys (r :: l)); [congruence|]. discriminate Hnan.
    + intros ->. reflexivity.
  - intros ->. repeat split; reflexivity.
Qed.

Lemma turnover_undefined_iff_empty_witness :
  option_map avg_turnover (compute_inventory_turnover no_inventory)
  = Some NaN.
Proof.
  destruct (compute_inventory_turnover no_inventory) as [stats|] eqn:E;
    [|discriminate E].
  simpl. f_equal.
  apply (turnover_undefined_iff_empty no_inventory stats E). reflexivity.
Defined.

(** ** The per-category table *)

Lemma insert_string_in x y l :
  In x (insert_string y l) <-> x = y \/ In x l.
Proof.
  induction l as [|z l IH]; simpl.
  - intuition.
  - destruct (String.leb y z); simpl; rewrite ?IH; intuition.
Qed.

Lemma insert_string_NoDup y l :
  ~ In y l -> NoDup l -> NoDup (insert_string y l).
Proof.
  induction l as [|z l IH]; simpl; intros Hy Hl.
  - constructor; [intros []|constructor].
  - destruct (String.leb y z).
    + constructor; [exact Hy|exact Hl].
    + inversion Hl as [|? ? Hz Hl']; subst. constructor.
      * rewrite insert_string_in. intros [->|H]; [|contradiction].
        apply Hy. now left.
      * apply IH; [|exact Hl']. intros H. apply Hy. now right.
Qed.

Lemma sort_strings_in x l : In x (sort_strings l) <-> In x l.
Proof.
  unfold sort_strings. induction l as [|y l IH]; simpl; [reflexivity|].
  rewrite insert_string_in, IH. intuition.
Qed.

Lemma sort_strings_NoDup l : NoDup l -> NoDup (sort_strings l).
Proof.
  unfold sort_strings. induction 1 as [|y l Hy Hl IH]; simpl.
  - constructor.
  - apply insert_string_NoDup; [|exact IH].
    fold (sort_strings l). now rewrite sort_strings_in.
Qed.

Lemma present_categories_in k cats :
  In k (present_categories cats) <-> In (Some k) cats.
Proof.
  induction cats as [|[c|] cats IH]; simpl.
  - reflexivity.
  - rewrite IH. split; (intros [H|H]; [left; congruence|now right]).
  - rewrite IH. split; [now right|]. intros [H|H]; [discriminate|exact H].
Qed.

Lemma mem_string_iff k l : mem_string k l = true <-> In k l.
Proof.
  unfold mem_string. rewrite existsb_exists. split.
  - intros (x & Hx & E). apply String.eqb_eq in E. now subst.
  - intros H. exists k. split; [exact H|apply String.eqb_refl].
Qed.

Lemma category_table_keys cats xs inv keys :
  map cat_key (map (category_row cats xs inv) keys) = keys.
Proof.
  induction keys as [|k keys IH]; simpl; [reflexivity|]. now rewrite IH.
Qed.

Lemma category_metrics_table o df inv col cats table :
  get_col df "category" = Some col ->
  category_column col = Some cats ->
  present_categories cats <> [] ->
  compute_category_metrics o df inv = Some table ->
  exists xs,
    table =
    map (category_row cats xs (rows inv))
      (sort_strings
         (nodup string_dec
            (present_categories cats
             ++ map (fun r => category (source r)) (rows inv)))).
Proof.
  intros Hcol Hcats Hne H. unfold compute_category_metrics in H.
  rewrite Hcol in H.
  destruct (has_column inv "category"); [|discriminate].
  destruct (get_col df "Lead Time (Days)") as [column|]; [|discriminate].
  destruct (numeric_column column) as [xs|]; [|discriminate].
  destruct (_ && _); [|discriminate].
  rewrite Hcats in H.
  destruct (present_categories cats) eqn:E; [now elim Hne|].
  inversion H. now exists xs.
Qed.

(** X27.  The table of [compute_category_metrics] is an outer join: when the
    order categories are strings (at least one) or missing values, the table
    has exactly one row for every category that occurs among the orders or
    in the inventory, whether or not the other side knows it. *)
Theorem category_metrics_outer_join o df inv col cats table :
  get_col df "category" = Some col ->
  category_column col = Some cats ->
  present_categories cats <> [] ->
  compute_category_metrics o df inv = Some table ->
  NoDup (map cat_key table) /\
  forall k,
    In k (map cat_key table) <->
    In (Some k) cats
    \/ exists r, In r (rows inv) /\ category (source r) = k.
Proof.
  intros Hcol Hcats Hne H.
  destruct (category_metrics_table _ _ _ _ _ _ Hcol Hcats Hne H)
    as (xs & ->).
  rewrite category_table_keys. split.
  - apply sort_strings_NoDup, NoDup_nodup.
  - intros k. rewrite sort_strings_in, nodup_In, in_app_iff.
    rewrite present_categories_in, in_map_iff. split.
    + intros [Hk|(r & E & Hr)]; [now left|right; now exists r].
    + intros [Hk|(r & Hr & E)]; [now left|right; now exists r].
Qed.

Lemma category_metrics_outer_join_witness :
  exists table,
    compute_category_metrics None orders_K enriched_E = Some table
    /\ NoDup (map cat_key table)
    /\ In "books"%string (map cat_key table)
    /\ In "clothing"%string (map cat_key table).
Proof.
  destruct (compute_category_metrics None orders_K enriched_E)
    as [table|] eqn:E; [|discriminate E].
  exists table. split; [reflexivity|].
  destruct (category_metrics_outer_join None orders_K enriched_E
              [Str "home"; Str "books"; Null; Str "home"]
              [Some "home"; Some "books"; None; Some "home"]%string table
              eq_refl eq_refl ltac:(discriminate) E) as [Hnd Hk].
  split; [exact Hnd|]. split; apply Hk.
  - left. simpl. right. now left.
  - right. eexists. split.
    + unfold enriched_E. cbn [rows]. right. left. reflexivity.
    + reflexivity.
Defined.

Lemma mean_nan_iff (l : list Q) : mean l = NaN <-> l = [].
Proof.
  unfold mean. destruct l; split; intros H; try reflexivity; discriminate.
Qed.

Lemma inventory_of_not_nil k inv :
  In k (map (fun r => category (source r)) inv) -> inventory_of k inv <> [].
Proof.
  intros H E. apply in_map_iff in H as (r & Hr & Hin).
  assert (Hi : In r (inventory_of k inv)).
  { unfold inventory_of. apply filter_In. split; [exact Hin|].
    rewrite Hr. apply String.eqb_refl. }
  rewrite E in Hi. exact Hi.
Qed.

(** X28.  In the table of [compute_category_metrics] the side that a
    category lacks is filled with [nan]: the order count of a row is [nan]
    exactly when no order has the row's category, and the mean fill rate and
    the number of stockout risks are [nan] exactly when no inventory record
    has it.  A category with orders has as count the number of its orders
    that carry a lead time. *)
Theorem category_metrics_missing_side o df inv col cats table row :
  get_col df "category" = Some col ->
  category_column col = Some cats ->
  present_categories cats <> [] ->
  compute_category_metrics o df inv = Some table ->
  In row table ->
  let stocked :=
    exists r, In r (rows inv) /\ category (source r) = cat_key row in
  (lt_count row = NaN <-> ~ In (Some (cat_key row)) cats)
  /\ (cat_fill_rate row = NaN <-> ~ stocked)
  /\ (cat_stockout_risk row = NaN <-> ~ stocked)
  /\ (In (Some (cat_key row)) cats ->
      exists xs,
        option_map numeric_column (get_col df "Lead Time (Days)")
        = Some (Some xs)
        /\ lt_count row
           = Fin (Qlen (dropna (lead_times_of (cat_key row) cats xs)))).
Proof.
  intros Hcol Hcats Hne H Hin stocked.
  assert (Hxs : exists xs,
             option_map numeric_column (get_col df "Lead Time (Days)")
             = Some (Some xs)
             /\ table =
                map (category_row cats xs (rows inv))
                  (sort_strings
                     (nodup string_dec
                        (present_categories cats
                         ++ map (fun r => category (source r))
                              (rows inv))))).
  { unfold compute_category_metrics in H. rewrite Hcol in H.
    destruct (has_column inv "category"); [|discriminate].
    destruct (get_col df "Lead Time (Days)") as [column|]; [|discriminate].
    destruct (numeric_column column) as [xs|] eqn:Ex; [|discriminate].
    destruct (_ && _); [|discriminate].
    rewrite Hcats in H.
    destruct (present_categories cats) eqn:E; [now elim Hne|].
    inversion H. exists xs. simpl. now rewrite Ex. }
  destruct Hxs as (xs & Hnum & ->).
  apply in_map_iff in Hin as (k & <- & _).
  assert (Hst : stocked <->
                In k (map (fun r => category (source r)) (rows inv))).
  { unfold stocked. cbn [cat_key category_row]. rewrite in_map_iff.
    split; intros (r & A & B); exists r; now split. }
  cbn [cat_key lt_count cat_fill_rate cat_stockout_risk category_row].
  rewrite Hst, <- (present_categories_in k cats), <- !mem_string_iff.
  destruct (mem_string k (present_categories cats)) eqn:El;
    destruct (mem_string k (map (fun r => category (source r)) (rows inv)))
      eqn:Er.
  all: repeat split; try discriminate; try congruence;
    try (intros; exfalso; congruence).
  all: try (intros _; exists xs; now split).
  all: intros Hm; apply mean_nan_iff, map_eq_nil in Hm;
    apply mem_string_iff, inventory_of_not_nil in Er; contradiction.
Qed.

Lemma category_metrics_missing_side_witness :
  exists row,
    cat_key row = "books"%string
    /\ lt_count row = Fin 1
    /\ cat_fill_rate row = NaN
    /\ cat_stockout_risk row = NaN.
Proof.
  destruct (compute_category_metrics None orders_K enriched_E)
    as [table|] eqn:E; [|discriminate E].
  pose proof E as E'. vm_compute in E'. injection E' as E'. subst table.
  match type of E with
  | _ = Some (?r :: _) => pose (row := r)
  end.
  assert (Hkey : cat_key row = "books"%string) by reflexivity.
  destruct (category_metrics_missing_side None orders_K enriched_E
              [Str "home"; Str "books"; Null; Str "home"]
              [Some "home"; Some "books"; None; Some "home"]%string
              _ row eq_refl eq_refl ltac:(discriminate) E
              ltac:(now left))
    as (_ & Hfill & Hrisk & Hcount).
  assert (Hno : ~ (exists r, In r (rows enriched_E)
                             /\ category (source r) = cat_key row)).
  { rewrite Hkey. intros (r & Hr & Hc). unfold enriched_E in Hr.
    cbn [rows] in Hr.
    repeat (destruct Hr as [<-|Hr]; [discriminate Hc|]). exact Hr. }
  exists row. split; [exact Hkey|]. split; [|split].
  - destruct Hcount as (xs & Hxs & ->).
    + rewrite Hkey. simpl. right. now left.
    + inversion Hxs. rewrite Hkey. reflexivity.
  - now apply Hfill.
  - now apply Hrisk.
Defined.

(** ** The six metrics together *)

Lemma frame_after_lead_time e g df :
  let df1 := snd (compute_lead_time_stats e g df) in
  index_len df1 = index_len df
  /\ forall c, c <> "lead_time_grade"%string -> get_col df1 c = get_col df c.
Proof.
  unfold compute_lead_time_stats.
  destruct (get_col df "Lead Time (Days)") as [column|];
    [|cbn [snd]; now split].
  destruct (numeric_column column) as [xs|]; [|cbn [snd]; now split].
  destruct (bins_ok e g); cbn [snd]; [|now split].
  split; [reflexivity|]. intros c Hc. now apply get_set_other.
Qed.

Lemma frame_after_cycle_time e g df rng :
  let df2 := snd (compute_cycle_time e g df rng) in
  index_len df2 = index_len df
  /\ forall c,
       c <> "lead_time_grade"%string -> c <> "Delivery Date"%string ->
       c <> "Cycle Time (Days)"%string -> get_col df2 c = get_col df c.
Proof.
  unfold compute_cycle_time.
  destruct (get_col df "Ship Date") as [ship|].
  - destruct (np_randint 2 6 (index_len df) rng) as [days_delta r'].
    destruct (add_timedelta ship days_delta) as [delivery|];
      [|cbn [snd]; now split].
    destruct (get_col (set_col df "Delivery Date" delivery) "Order Date")
      as [order|].
    + destruct (days_between delivery order) as [cycle|]; cbn [snd].
      * split; [reflexivity|]. intros c H1 H2 H3.
        now rewrite !get_set_other.
      * split; [reflexivity|]. intros c H1 H2 H3. now rewrite get_set_other.
    + cbn [snd]. split; [reflexivity|]. intros c H1 H2 H3.
      now rewrite get_set_other.
  - destruct (frame_after_lead_time e g df) as [Hl Hc].
    destruct (compute_lead_time_stats e g df) as [stats df1].
    cbn [snd] in *. split; [exact Hl|]. intros c H1 _ _. now apply Hc.
Qed.

Lemma lead_time_stats_of_columns e g df df' :
  index_len df' = index_len df ->
  get_col df' "Lead Time (Days)" = get_col df "Lead Time (Days)" ->
  fst (compute_lead_time_stats e g df')
  = fst (compute_lead_time_stats e g df).
Proof.
  intros Hl Hc. unfold compute_lead_time_stats, len. rewrite Hc, Hl.
  destruct (get_col df "Lead Time (Days)") as [column|]; [|reflexivity].
  destruct (numeric_column column) as [xs|]; [|reflexivity].
  now destruct (bins_ok e g).
Qed.

Lemma cycle_time_of_columns e g df df' rng :
  index_len df' = index_len df ->
  get_col df' "Ship Date" = get_col df "Ship Date" ->
  get_col df' "Order Date" = get_col df "Order Date" ->
  get_col df' "Lead Time (Days)" = get_col df "Lead Time (Days)" ->
  fst (compute_cycle_time e g df' rng) = fst (compute_cycle_time e g df rng).
Proof.
  intros Hl Hs Ho Hc. unfold compute_cycle_time. rewrite Hs, Hl.
  destruct (get_col df "Ship Date") as [ship|].
  - destruct (np_randint 2 6 (index_len df) rng) as [days_delta r'].
    destruct (add_timedelta ship days_delta) as [delivery|]; [|reflexivity].
    rewrite !get_set_other by discriminate. rewrite Ho.
    destruct (get_col df "Order Date") as [order|]; [|reflexivity].
    now destruct (days_between delivery order).
  - pose proof (lead_time_stats_of_columns e g df df' Hl Hc) as H.
    destruct (compute_lead_time_stats e g df') as [s1 d1].
    destruct (compute_lead_time_stats e g df) as [s2 d2].
    cbn [fst] in *. now rewrite H.
Qed.

(** X29.  [compute_all_metrics] runs the six metric functions on one shared
    order frame, which the first two assign columns to; all the same every
    entry of its dictionary is what the entry's function returns when it is
    called alone on the caller's frames. *)
Theorem all_metrics_entries_are_standalone e g fe fg fp o df inv ret rng :
  let m := fst (compute_all_metrics e g fe fg fp o df inv ret rng) in
  m_lead_time m = fst (compute_lead_time_stats e g df)
  /\ m_cycle_time m = fst (compute_cycle_time e g df rng)
  /\ m_inventory_turnover m = compute_inventory_turnover inv
  /\ m_fill_rate m = compute_fill_rate_stats fe fg fp inv
  /\ m_category m = compute_category_metrics o df inv
  /\ m_returns m = compute_return_metrics (Some df) ret.
Proof.
  unfold compute_all_metrics.
  destruct (frame_after_lead_time e g df) as [Hl1 Hc1].
  destruct (compute_lead_time_stats e g df) as [lead df1] eqn:Elead.
  cbn [snd] in Hl1, Hc1.
  destruct (frame_after_cycle_time e g df1 rng) as [Hl2 Hc2].
  pose proof (cycle_time_of_columns e g df df1 rng Hl1
                (Hc1 "Ship Date"%string ltac:(discriminate))
                (Hc1 "Order Date"%string ltac:(discriminate))
                (Hc1 "Lead Time (Days)"%string ltac:(discriminate)))
    as Hcycle.
  destruct (compute_cycle_time e g df1 rng) as [cycle df2].
  cbn [snd fst] in *.
  assert (Hcol : forall c,
             c <> "lead_time_grade"%string -> c <> "Delivery Date"%string ->
             c <> "Cycle Time (Days)"%string -> get_col df2 c = get_col df c).
  { intros c H1 H2 H3. rewrite Hc2 by assumption. now apply Hc1. }
  split; [reflexivity|]. split; [exact Hcycle|].
  split; [reflexivity|]. split; [reflexivity|]. split.
  - unfold compute_category_metrics.
    now rewrite !Hcol by discriminate.
  - unfold compute_return_metrics, py_len, len. cbn [option_map].
    now rewrite Hl2, Hl1.
Qed.

(** ** The category breakdown of the returns *)












